(** * RAG-CL: content-block extraction pipeline and batch orchestrator

  A shallow embedding of the entity-extraction code of RAG-CL
  ([ragcl/entity_extractor.py], [ragcl/raganything_entity_extractor.py],
  [ragcl/lightrag_entity_extractor.py]) and of the batch parser
  ([ragcl/ragcl.py]), followed by the properties proved about it.

  Conventions of the embedding.
  - A Python [str] is a [string]; one [ascii] stands for one character
    (code points 0..255).  Constant literals of the source that lie
    outside that range are kept as their UTF-8 bytes.
  - Python values are the inductive [pyval]; a [dict] with string keys is
    an association list in insertion order, as Python iterates it.
  - Objects that the code mutates in place and that the caller can alias
    (the blocks of a content list) live in a heap [gmap loc pyval]; a
    content list is a list of references into it.
  - A Python exception is the [Raise] case of [outcome]; [try]/[except
    Exception] is [catch].
  - The inference service is an oracle [llm : nat -> string -> option
    string]: the answer to the n-th request, [None] when the call failed
    (the client wrappers turn every failure into [None]).  Every request
    is appended to a trace. *)

From Stdlib Require Import ZArith String Ascii List Lia Bool.
From Stdlib Require DecimalString.
From stdpp Require Import gmap strings list.

Local Open Scope string_scope.
Local Open Scope Z_scope.

(** ** Python strings *)

Module PyStr.

(** The double-quote character (code 34). *)
Definition dquote : ascii :=
  Ascii false true false false false true false false.
Definition q : string := String dquote EmptyString.

(** The line feed (code 10) and the backslash (code 92). *)
Definition lf : ascii := Ascii false true false true false false false false.
Definition nl : string := String lf EmptyString.
Definition backslash : ascii :=
  Ascii false false true true true false true false.

Definition code (c : ascii) : nat := nat_of_ascii c.

(** [str.isspace] on one character, which is also the class [\s] of [re]
    on [str] patterns: TAB..CR, FS..US, space, NEL and NBSP. *)
Definition is_space (c : ascii) : bool :=
  let n := code c in
  ((9 <=? n) && (n <=? 13) || (28 <=? n) && (n <=? 32)
   || (n =? 133) || (n =? 160))%nat.

Fixpoint lstrip_chars (l : list ascii) : list ascii :=
  match l with
  | c :: l' => if is_space c then lstrip_chars l' else l
  | [] => []
  end.

Definition rstrip_chars (l : list ascii) : list ascii :=
  rev (lstrip_chars (rev l)).

Definition chars (s : string) : list ascii := list_ascii_of_string s.
Definition of_chars (l : list ascii) : string := string_of_list_ascii l.

(** [s.strip()] *)
Definition strip (s : string) : string :=
  of_chars (rstrip_chars (lstrip_chars (chars s))).

(** [len(s)] *)
Definition len (s : string) : nat := String.length s.

(** [s[:n]] *)
Definition slice_to (n : nat) (s : string) : string :=
  of_chars (take n (chars s)).

(** [sep.join(parts)] *)
Definition join (sep : string) (parts : list string) : string :=
  String.concat sep parts.

(** [str(n)] for a non-negative integer. *)
Definition of_nat (n : nat) : string :=
  DecimalString.NilZero.string_of_uint (Nat.to_uint n).

(** [str(z)] for an integer. *)
Definition of_Z (z : Z) : string :=
  DecimalString.NilZero.string_of_int (Z.to_int z).

Fixpoint prefix_chars (p l : list ascii) : option (list ascii) :=
  match p, l with
  | [], _ => Some l
  | a :: p', b :: l' => if Ascii.eqb a b then prefix_chars p' l' else None
  | _ :: _, [] => None
  end.

(** [sub in s] for two strings. *)
Fixpoint contains_chars (p l : list ascii) : bool :=
  match prefix_chars p l with
  | Some _ => true
  | None => match l with
            | _ :: l' => contains_chars p l'
            | [] => false
            end
  end.

Definition contains (sub s : string) : bool :=
  contains_chars (chars sub) (chars s).

End PyStr.

(** ** Python values, exceptions and dictionaries *)

Module Py.

Unset Elimination Schemes.
(** The values that reach the extraction code: what [json.load] builds,
    which is also what a parser hands over as a content list.  A float is
    carried by its literal; float arithmetic is left to the runtime
    parameters below. *)
Inductive pyval : Type :=
| PNone
| PBool (b : bool)
| PInt (z : Z)
| PFloat (lit : string)
| PStr (s : string)
| PList (l : list pyval)
| PDict (d : list (string * pyval)).
Set Elimination Schemes.

Inductive exn : Type :=
| AttributeError
| KeyError
| TypeError
| ValueError
| IndexError.

Inductive outcome (A : Type) : Type :=
| Ok (a : A)
| Raise (e : exn).
Arguments Ok {A} a.
Arguments Raise {A} e.

Definition obind {A B} (m : outcome A) (f : A -> outcome B) : outcome B :=
  match m with
  | Ok a => f a
  | Raise e => Raise e
  end.

Notation "'let+' x := o 'in' k" := (obind o (fun x => k))
  (at level 10, x pattern, o at level 100, k at level 200).

(** [isinstance(v, dict)] *)
Definition is_dict (v : pyval) : bool :=
  match v with PDict _ => true | _ => false end.

(** *** The floats that are zero

    A float is falsy when it is zero.  The float a decimal literal denotes
    is the double nearest to its value, ties to even, so it is zero when
    the digits are all zero or the value is at most half the least
    positive double, [2^-1075]. *)

Definition digit_of (c : ascii) : option Z :=
  let n := PyStr.code c in
  if ((48 <=? n) && (n <=? 57))%nat then Some (Z.of_nat (n - 48)) else None.

(** The digits of a literal up to its exponent, as an integer, with the
    number of digits after the point and what follows. *)
Fixpoint mantissa (l : list ascii) (after_point : bool) (m places : Z)
  : Z * Z * list ascii :=
  match l with
  | c :: l' =>
      match digit_of c with
      | Some d => mantissa l' after_point (10 * m + d)
                    (if after_point then places + 1 else places)
      | None => if (PyStr.code c =? 46)%nat then mantissa l' true m places
                else (m, places, l)
      end
  | [] => (m, places, [])
  end.

Fixpoint digits_int (l : list ascii) (acc : Z) : Z :=
  match l with
  | c :: l' => match digit_of c with
               | Some d => digits_int l' (10 * acc + d)
               | None => acc
               end
  | [] => acc
  end.

(** The exponent part [e], [e+] or [e-] and digits, when there is one. *)
Definition exponent_of (l : list ascii) : Z :=
  match l with
  | _ :: s :: r =>
      if (PyStr.code s =? 45)%nat then - digits_int r 0
      else if (PyStr.code s =? 43)%nat then digits_int r 0
      else digits_int (s :: r) 0
  | _ => 0
  end.

Definition float_is_zero (lit : string) : bool :=
  let l := match PyStr.chars lit with
           | c :: r => if (PyStr.code c =? 45)%nat then r else c :: r
           | [] => []
           end in
  match l with
  | c :: _ =>
      match digit_of c with
      | Some _ =>
          let '(m, places, rest) := mantissa l false 0 0 in
          let e := exponent_of rest - places in
          if m =? 0 then true
          else if 0 <=? e then false
          else m * 2 ^ 1075 <=? 10 ^ (- e)
      | None => false
      end
  | [] => false
  end.

(** Truth value of an object, as [if v:] and [not v] take it. *)
Definition truthy (v : pyval) : bool :=
  match v with
  | PNone => false
  | PBool b => b
  | PInt z => negb (z =? 0)
  | PFloat lit => negb (float_is_zero lit)
  | PStr s => negb (String.eqb s "")
  | PList l => match l with [] => false | _ => true end
  | PDict d => match d with [] => false | _ => true end
  end.

(** *** Dictionaries with string keys, in insertion order *)

Fixpoint assoc_get (k : string) (d : list (string * pyval)) : option pyval :=
  match d with
  | [] => None
  | (k', v) :: d' => if String.eqb k k' then Some v else assoc_get k d'
  end.

(** [d[k] = v]: an existing key keeps its place, a new key goes last. *)
Fixpoint assoc_set (k : string) (v : pyval) (d : list (string * pyval))
  : list (string * pyval) :=
  match d with
  | [] => [(k, v)]
  | (k', v') :: d' =>
      if String.eqb k k' then (k, v) :: d' else (k', v') :: assoc_set k v d'
  end.

(** [d.get(k, dflt)] on a dictionary. *)
Definition dict_get (k : string) (dflt : pyval) (d : list (string * pyval))
  : pyval :=
  match assoc_get k d with
  | Some v => v
  | None => dflt
  end.

(** [v.get(k, dflt)] on any object: only a dict has the method. *)
Definition py_get (v : pyval) (k : string) (dflt : pyval) : outcome pyval :=
  match v with
  | PDict d => Ok (dict_get k dflt d)
  | _ => Raise AttributeError
  end.

(** [k in v] for a string [k]. *)
Definition is_str_eq (k : string) (v : pyval) : bool :=
  match v with PStr s => String.eqb k s | _ => false end.

Definition py_contains (k : string) (v : pyval) : outcome bool :=
  match v with
  | PDict d => Ok (match assoc_get k d with Some _ => true | None => false end)
  | PList l => Ok (existsb (is_str_eq k) l)
  | PStr s => Ok (PyStr.contains k s)
  | _ => Raise TypeError
  end.

(** [v[k]] for a string [k]. *)
Definition py_getitem (v : pyval) (k : string) : outcome pyval :=
  match v with
  | PDict d => match assoc_get k d with
               | Some x => Ok x
               | None => Raise KeyError
               end
  | _ => Raise TypeError
  end.

(** [v[k] = x] for a string [k]. *)
Definition py_setitem (v : pyval) (k : string) (x : pyval) : outcome pyval :=
  match v with
  | PDict d => Ok (PDict (assoc_set k x d))
  | _ => Raise TypeError
  end.

(** The elements [for x in v] runs over. *)
Definition py_iter (v : pyval) : outcome (list pyval) :=
  match v with
  | PList l => Ok l
  | PDict d => Ok (map (fun kv => PStr (fst kv)) d)
  | PStr s => Ok (map (fun c => PStr (String c EmptyString)) (PyStr.chars s))
  | _ => Raise TypeError
  end.

(** [v.strip()] *)
Definition py_strip (v : pyval) : outcome string :=
  match v with
  | PStr s => Ok (PyStr.strip s)
  | _ => Raise AttributeError
  end.

(** [v[:n]] *)
Definition py_slice_to (n : nat) (v : pyval) : outcome pyval :=
  match v with
  | PList l => Ok (PList (take n l))
  | PStr s => Ok (PStr (PyStr.slice_to n s))
  | _ => Raise TypeError
  end.

(** [old += s] for a string [s]; the left operand is a string whenever the
    merger reaches this point. *)
Definition py_iadd_str (old : pyval) (s : string) : outcome pyval :=
  match old with
  | PStr o => Ok (PStr (o +:+ s))
  | _ => Raise TypeError
  end.

(** [v + more] for a list [more]. *)
Definition py_add_list (v : pyval) (more : list pyval) : outcome pyval :=
  match v with
  | PList l => Ok (PList (l ++ more)%list)
  | _ => Raise TypeError
  end.

(** [entity[k] = v] for each pair of [tags], in order. *)
Fixpoint set_items (tags : list (string * pyval)) (entity : pyval) : outcome pyval :=
  match tags with
  | [] => Ok entity
  | (k, v) :: tags' => let+ e := py_setitem entity k v in set_items tags' e
  end.

Fixpoint tag_all (tags : list (string * pyval)) (items : list pyval)
  : outcome (list pyval) :=
  match items with
  | [] => Ok []
  | entity :: rest =>
      let+ e := set_items tags entity in
      let+ es := tag_all tags rest in
      Ok (e :: es)
  end.

(** What the code takes from the Python runtime and its standard library
    without the repository defining it. *)
Record runtime : Type := {
  (** [str(v)] *)
  py_str : pyval -> string;
  (** [json.loads(s)]; [None] is [JSONDecodeError] *)
  json_loads : string -> option pyval;
  (** [json.dumps(v, ensure_ascii=False, indent=2)]; [None] is the
      [TypeError] of an object that cannot be serialised *)
  json_dumps : pyval -> option string;
  (** [str(e)] of a caught exception *)
  exn_str : exn -> string;
  (** The dict that counts the occurrences of each value of a list, built
      by [d[v] = d.get(v, 0) + 1]; [None] is the [TypeError] of a value
      that cannot be hashed *)
  py_count : list pyval -> option pyval;
  (** [len(set(vs))]; [None] is the [TypeError] of a value that cannot be
      hashed *)
  py_distinct : list pyval -> option nat;
  (** [a / b]; [None] is the [TypeError] or [ZeroDivisionError] *)
  py_div : pyval -> pyval -> option pyval
}.

End Py.

(** ** A decoder for JSON texts

  [json_decode] follows [json.loads] of the standard library (objects,
  arrays, strings with their escapes, numbers, [true], [false], [null]
  and the non-standard [NaN], [Infinity], [-Infinity]) on texts whose
  characters and [\u] escapes stay below U+0100; a [\u] escape beyond
  that has no character in this embedding and the decoder gives up on
  it.  It is the instance of [Py.json_loads] used to run the code on
  concrete inputs. *)

Module Json.
Import Py.

Inductive token : Type :=
| TLBrace | TRBrace | TLBrack | TRBrack | TColon | TComma
| TStr (s : string)
| TWord (w : list ascii).

Definition is_ws (c : ascii) : bool :=
  let n := PyStr.code c in ((n =? 32) || (n =? 9) || (n =? 10) || (n =? 13))%nat.

Definition is_digit (c : ascii) : bool :=
  let n := PyStr.code c in ((48 <=? n) && (n <=? 57))%nat.

Definition is_letter (c : ascii) : bool :=
  let n := PyStr.code c in
  ((65 <=? n) && (n <=? 90) || (97 <=? n) && (n <=? 122))%nat.

(** Characters of a number or of a literal name. *)
Definition is_word_char (c : ascii) : bool :=
  let n := PyStr.code c in
  (is_digit c || is_letter c || (n =? 43) || (n =? 45) || (n =? 46))%nat.

Definition hex_value (c : ascii) : option nat :=
  let n := PyStr.code c in
  if is_digit c then Some (n - 48)%nat
  else if ((65 <=? n) && (n <=? 70))%nat then Some (n - 55)%nat
  else if ((97 <=? n) && (n <=? 102))%nat then Some (n - 87)%nat
  else None.

Fixpoint hex_number (acc : nat) (ds : list ascii) : option nat :=
  match ds with
  | [] => Some acc
  | d :: ds' => match hex_value d with
                | Some v => hex_number (16 * acc + v)%nat ds'
                | None => None
                end
  end.

(** The character an escape letter stands for. *)
Definition escape_char (c : ascii) : option ascii :=
  let n := PyStr.code c in
  if (n =? 34)%nat then Some c
  else if (n =? 92)%nat then Some c
  else if (n =? 47)%nat then Some c
  else if (n =? 98)%nat then Some (ascii_of_nat 8)
  else if (n =? 102)%nat then Some (ascii_of_nat 12)
  else if (n =? 110)%nat then Some (ascii_of_nat 10)
  else if (n =? 114)%nat then Some (ascii_of_nat 13)
  else if (n =? 116)%nat then Some (ascii_of_nat 9)
  else None.

Inductive lstate : Type :=
| LTop
| LWord (buf : list ascii)
| LStr (buf : list ascii)
| LEsc (buf : list ascii)
| LUni (buf : list ascii) (digits : list ascii).

Definition word_token (buf : list ascii) : token := TWord (rev buf).
Definition str_token (buf : list ascii) : token := TStr (PyStr.of_chars (rev buf)).

(** One character read between tokens. *)
Definition lex_top (c : ascii) (acc : list token) : option (lstate * list token) :=
  let n := PyStr.code c in
  if is_ws c then Some (LTop, acc)
  else if (n =? 123)%nat then Some (LTop, TLBrace :: acc)
  else if (n =? 125)%nat then Some (LTop, TRBrace :: acc)
  else if (n =? 91)%nat then Some (LTop, TLBrack :: acc)
  else if (n =? 93)%nat then Some (LTop, TRBrack :: acc)
  else if (n =? 58)%nat then Some (LTop, TColon :: acc)
  else if (n =? 44)%nat then Some (LTop, TComma :: acc)
  else if (n =? 34)%nat then Some (LStr [], acc)
  else if is_word_char c then Some (LWord [c], acc)
  else None.

Fixpoint lex (st : lstate) (acc : list token) (l : list ascii)
  : option (list token) :=
  match l with
  | [] =>
      match st with
      | LTop => Some (rev acc)
      | LWord buf => Some (rev (word_token buf :: acc))
      | _ => None
      end
  | c :: l' =>
      match st with
      | LTop =>
          match lex_top c acc with
          | Some (st', acc') => lex st' acc' l'
          | None => None
          end
      | LWord buf =>
          if is_word_char c then lex (LWord (c :: buf)) acc l'
          else match lex_top c (word_token buf :: acc) with
               | Some (st', acc') => lex st' acc' l'
               | None => None
               end
      | LStr buf =>
          let n := PyStr.code c in
          if (n =? 34)%nat then lex LTop (str_token buf :: acc) l'
          else if (n =? 92)%nat then lex (LEsc buf) acc l'
          else if (n <? 32)%nat then None
          else lex (LStr (c :: buf)) acc l'
      | LEsc buf =>
          if (PyStr.code c =? 117)%nat then lex (LUni buf []) acc l'
          else match escape_char c with
               | Some e => lex (LStr (e :: buf)) acc l'
               | None => None
               end
      | LUni buf ds =>
          let ds' := (ds ++ [c])%list in
          if (length ds' <? 4)%nat then lex (LUni buf ds') acc l'
          else match hex_number 0 ds' with
               | Some v => if (v <? 256)%nat
                           then lex (LStr (ascii_of_nat v :: buf)) acc l'
                           else None
               | None => None
               end
      end
  end.

(** *** Numbers and literal names *)

Fixpoint span_digits (l : list ascii) : list ascii * list ascii :=
  match l with
  | c :: l' => if is_digit c
               then let '(ds, r) := span_digits l' in (c :: ds, r)
               else ([], l)
  | [] => ([], [])
  end.

Definition digits_value (ds : list ascii) : Z :=
  fold_left (fun acc d => 10 * acc + Z.of_nat (PyStr.code d - 48)) ds 0.

(** The integer part: [0] or a digit string that does not start with 0. *)
Definition int_part_ok (ds : list ascii) : bool :=
  match ds with
  | [] => false
  | d :: rest => negb (PyStr.code d =? 48)%nat
                 || match rest with [] => true | _ => false end
  end.

(** An optional fraction: [.] and at least one digit. *)
Definition take_frac (l : list ascii) : option (bool * list ascii) :=
  match l with
  | c :: l' =>
      if (PyStr.code c =? 46)%nat
      then match span_digits l' with
           | ([], _) => None
           | (_, r) => Some (true, r)
           end
      else Some (false, l)
  | [] => Some (false, [])
  end.

(** An optional exponent: [e] or [E], an optional sign, digits. *)
Definition take_exp (l : list ascii) : option (bool * list ascii) :=
  match l with
  | c :: l' =>
      if ((PyStr.code c =? 101) || (PyStr.code c =? 69))%nat
      then let l'' := match l' with
                      | s :: r => if ((PyStr.code s =? 43) || (PyStr.code s =? 45))%nat
                                  then r else l'
                      | [] => l'
                      end in
           match span_digits l'' with
           | ([], _) => None
           | (_, r) => Some (true, r)
           end
      else Some (false, l)
  | [] => Some (false, [])
  end.

Definition number_value (w : list ascii) : option pyval :=
  let '(neg, body) :=
    match w with
    | c :: r => if (PyStr.code c =? 45)%nat then (true, r) else (false, w)
    | [] => (false, w)
    end in
  let '(ip, r1) := span_digits body in
  if int_part_ok ip then
    match take_frac r1 with
    | Some (has_frac, r2) =>
        match take_exp r2 with
        | Some (has_exp, []) =>
            if has_frac || has_exp then Some (PFloat (PyStr.of_chars w))
            else Some (PInt (if neg then - digits_value ip else digits_value ip))
        | _ => None
        end
    | None => None
    end
  else None.

Definition word_value (w : list ascii) : option pyval :=
  let s := PyStr.of_chars w in
  if String.eqb s "null" then Some PNone
  else if String.eqb s "true" then Some (PBool true)
  else if String.eqb s "false" then Some (PBool false)
  else if String.eqb s "NaN" then Some (PFloat s)
  else if String.eqb s "Infinity" then Some (PFloat s)
  else if String.eqb s "-Infinity" then Some (PFloat s)
  else number_value w.

(** *** Values from tokens *)

(** An open container: the items of an array, newest first, or the pairs
    of an object with the key that waits for its value. *)
Inductive frame : Type :=
| FArr (items_rev : list pyval)
| FObj (pairs : list (string * pyval)) (key : option string).

Inductive pstate : Type :=
| SValue      (* a value *)
| SArrFirst   (* a value or the end of the array *)
| SObjFirst   (* a key or the end of the object *)
| SObjKey     (* a key *)
| SColon      (* the colon after a key *)
| SAfter      (* a comma or the end of the container *)
| SDone (v : pyval).

(** A finished value goes into the innermost open container. *)
Definition push_value (v : pyval) (stack : list frame)
  : option (pstate * list frame) :=
  match stack with
  | [] => Some (SDone v, [])
  | FArr items :: st => Some (SAfter, FArr (v :: items) :: st)
  | FObj pairs (Some k) :: st => Some (SAfter, FObj (assoc_set k v pairs) None :: st)
  | FObj _ None :: _ => None
  end.

Definition start_value (t : token) (stack : list frame)
  : option (pstate * list frame) :=
  match t with
  | TLBrace => Some (SObjFirst, FObj [] None :: stack)
  | TLBrack => Some (SArrFirst, FArr [] :: stack)
  | TStr s => push_value (PStr s) stack
  | TWord w => match word_value w with
               | Some v => push_value v stack
               | None => None
               end
  | _ => None
  end.

Definition close_array (stack : list frame) : option (pstate * list frame) :=
  match stack with
  | FArr items :: st => push_value (PList (rev items)) st
  | _ => None
  end.

Definition close_object (stack : list frame) : option (pstate * list frame) :=
  match stack with
  | FObj pairs None :: st => push_value (PDict pairs) st
  | _ => None
  end.

Definition take_key (t : token) (stack : list frame)
  : option (pstate * list frame) :=
  match t, stack with
  | TStr k, FObj pairs None :: st => Some (SColon, FObj pairs (Some k) :: st)
  | _, _ => None
  end.

Definition pstep (ps : pstate) (stack : list frame) (t : token)
  : option (pstate * list frame) :=
  match ps with
  | SValue => start_value t stack
  | SArrFirst => match t with
                 | TRBrack => close_array stack
                 | _ => start_value t stack
                 end
  | SObjFirst => match t with
                 | TRBrace => close_object stack
                 | _ => take_key t stack
                 end
  | SObjKey => take_key t stack
  | SColon => match t with TColon => Some (SValue, stack) | _ => None end
  | SAfter =>
      match t, stack with
      | TComma, FArr _ :: _ => Some (SValue, stack)
      | TComma, FObj _ _ :: _ => Some (SObjKey, stack)
      | TRBrack, _ => close_array stack
      | TRBrace, _ => close_object stack
      | _, _ => None
      end
  | SDone _ => None
  end.

Fixpoint parse (ps : pstate) (stack : list frame) (ts : list token)
  : option pyval :=
  match ts with
  | [] => match ps with SDone v => Some v | _ => None end
  | t :: ts' => match pstep ps stack t with
                | Some (ps', stack') => parse ps' stack' ts'
                | None => None
                end
  end.

Definition json_decode (s : string) : option pyval :=
  match lex LTop [] (PyStr.chars s) with
  | Some ts => parse SValue [] ts
  | None => None
  end.

End Json.

(** ** Regular expressions of the response recoverer

  The fragment of [re] the four patterns of the source are written in:
  literal text, an optional part, a greedy or lazy star over a character
  class, one capturing group, sequencing.  [run] is a backtracking
  matcher in continuation-passing style, with the priorities of [re]
  (the optional part and the greedy star try the longer match first, the
  lazy star the shorter one); [findall] is [re.findall]: the matches
  from left to right without overlap, each given by its group when the
  pattern has one and by the whole match otherwise. *)

Module Re.

Inductive re : Type :=
| Lit (cs : list ascii)
| Opt (r : re)
| StarG (p : ascii -> bool)
| StarL (p : ascii -> bool)
| Grp (r : re)
| Seq (r1 r2 : re).

Definition capture : Type := option (list ascii).
Definition answer : Type := option (capture * list ascii).

Definition lower (c : ascii) : ascii :=
  let n := PyStr.code c in
  if ((65 <=? n) && (n <=? 90))%nat then ascii_of_nat (n + 32) else c.

(** Equality of characters, up to case under [re.IGNORECASE]. *)
Definition char_eq (ignorecase : bool) (a b : ascii) : bool :=
  if ignorecase then Ascii.eqb (lower a) (lower b) else Ascii.eqb a b.

Fixpoint lit_prefix (ic : bool) (p l : list ascii) : option (list ascii) :=
  match p, l with
  | [], _ => Some l
  | a :: p', b :: l' => if char_eq ic a b then lit_prefix ic p' l' else None
  | _ :: _, [] => None
  end.

Fixpoint star_greedy (p : ascii -> bool) (k : list ascii -> answer)
  (s : list ascii) : answer :=
  match s with
  | c :: s' =>
      if p c then
        match star_greedy p k s' with
        | Some a => Some a
        | None => k s
        end
      else k s
  | [] => k []
  end.

Fixpoint star_lazy (p : ascii -> bool) (k : list ascii -> answer)
  (s : list ascii) : answer :=
  match k s with
  | Some a => Some a
  | None =>
      match s with
      | c :: s' => if p c then star_lazy p k s' else None
      | [] => None
      end
  end.

(** The text consumed between [s] and its suffix [rest]. *)
Definition consumed (s rest : list ascii) : list ascii :=
  take (length s - length rest)%nat s.

Fixpoint run (ic : bool) (r : re) (k : capture -> list ascii -> answer)
  (cap : capture) (s : list ascii) : answer :=
  match r with
  | Lit cs =>
      match lit_prefix ic cs s with
      | Some rest => k cap rest
      | None => None
      end
  | Opt r1 =>
      match run ic r1 k cap s with
      | Some a => Some a
      | None => k cap s
      end
  | StarG p => star_greedy p (k cap) s
  | StarL p => star_lazy p (k cap) s
  | Grp r1 => run ic r1 (fun _ rest => k (Some (consumed s rest)) rest) cap s
  | Seq r1 r2 => run ic r1 (fun cap' rest => run ic r2 k cap' rest) cap s
  end.

(** A match of [r] at the start of [s]: its group and what follows it. *)
Definition match_at (ic : bool) (r : re) (s : list ascii) : answer :=
  run ic r (fun cap rest => Some (cap, rest)) None s.

Definition reported (s : list ascii) (a : capture * list ascii) : list ascii :=
  match fst a with
  | Some g => g
  | None => consumed s (snd a)
  end.

(** [skip] characters of the last match are still to be passed over. *)
Fixpoint findall_from (ic : bool) (r : re) (skip : nat) (s : list ascii)
  : list (list ascii) :=
  match s with
  | [] =>
      match skip, match_at ic r [] with
      | O, Some a => [reported [] a]
      | _, _ => []
      end
  | _ :: s' =>
      match skip with
      | S n => findall_from ic r n s'
      | O =>
          match match_at ic r s with
          | Some a =>
              reported s a
                :: findall_from ic r (length (consumed s (snd a)) - 1)%nat s'
          | None => findall_from ic r O s'
          end
      end
  end.

Definition findall (ic : bool) (r : re) (s : string) : list string :=
  map PyStr.of_chars (findall_from ic r O (PyStr.chars s)).

Definition any_char (_ : ascii) : bool := true.
Definition lit (s : string) : re := Lit (PyStr.chars s).

End Re.

(** ** Prompt templates: [str.format]

    A template is kept as the source writes it, with [{name}] fields and
    doubled braces; only its double quotes are written [^] (a character no
    template uses) and put back by [unmark]. *)

Module Template.

Definition unmark_char (c : ascii) : ascii :=
  if (PyStr.code c =? 94)%nat then PyStr.dquote else c.

Definition unmark (s : string) : string :=
  PyStr.of_chars (map unmark_char (PyStr.chars s)).

Definition is_open (c : ascii) : bool := (PyStr.code c =? 123)%nat.
Definition is_close (c : ascii) : bool := (PyStr.code c =? 125)%nat.

Fixpoint field_value (name : string) (args : list (string * string)) : string :=
  match args with
  | [] => ""
  | (k, v) :: args' => if String.eqb name k then v else field_value name args'
  end.

(** [field] holds the name being read, newest character first, while the
    scan is inside a [{name}] field. *)
Fixpoint format_chars (args : list (string * string))
  (field : option (list ascii)) (l : list ascii) : list ascii :=
  match l with
  | [] => []
  | c :: l' =>
      match field with
      | Some name =>
          if is_close c
          then (PyStr.chars (field_value (PyStr.of_chars (rev name)) args)
                  ++ format_chars args None l')%list
          else format_chars args (Some (c :: name)) l'
      | None =>
          if is_open c then
            match l' with
            | c' :: l'' =>
                if is_open c' then c :: format_chars args None l''
                else format_chars args (Some []) l'
            | [] => []
            end
          else if is_close c then
            match l' with
            | c' :: l'' =>
                if is_close c' then c :: format_chars args None l''
                else c :: format_chars args None l'
            | [] => [c]
            end
          else c :: format_chars args None l'
      end
  end.

(** [str.format] with keyword arguments [args]. *)
Definition format (template : string) (args : list (string * string)) : string :=
  PyStr.of_chars (format_chars args None (PyStr.chars template)).

End Template.

(** ** The inference service *)

Module Service.
Import Py.

(** The requests issued so far, oldest first. *)
Definition trace : Type := list string.

(** A computation that may issue requests and may raise. *)
Definition M (A : Type) : Type := trace -> outcome A * trace.

Definition ret {A} (a : A) : M A := fun tr => (Ok a, tr).

Definition bind {A B} (m : M A) (f : A -> M B) : M B :=
  fun tr =>
    match m tr with
    | (Ok a, tr') => f a tr'
    | (Raise e, tr') => (Raise e, tr')
    end.

Definition lift {A} (o : outcome A) : M A := fun tr => (o, tr).

(** [try: m except Exception as e: handler e] *)
Definition catch {A} (m : M A) (handler : exn -> M A) : M A :=
  fun tr =>
    match m tr with
    | (Ok a, tr') => (Ok a, tr')
    | (Raise e, tr') => handler e tr'
    end.

(** The answer of the service to one more request. *)
Definition request (llm : nat -> string -> option string) (prompt : string)
  : M (option string) :=
  fun tr => (Ok (llm (length tr) prompt), (tr ++ [prompt])%list).

End Service.

Notation "'let*' x := m 'in' k" := (Service.bind m (fun x => k))
  (at level 10, x pattern, m at level 100, k at level 200).

(** ** The response recoverer, shared by [_parse_llm_response] and
    [_parse_json_response]

    Both methods build the same candidate list (the stripped response, the
    groups of the code-block pattern, the matches of the brace pattern)
    and return the first candidate that decodes; they differ in the two
    patterns they are written with. *)

Module Recover.
Import Py.

Section Recoverer.

Variable rt : runtime.
Variables code_block_pattern brace_pattern : Re.re.

Definition json_candidates (response : string) : list string :=
  ([PyStr.strip response]
     ++ Re.findall true code_block_pattern response
     ++ Re.findall false brace_pattern response)%list.

(** A candidate decodes when it is not blank and [json.loads] accepts it. *)
Definition decode (candidate : string) : option pyval :=
  let c := PyStr.strip candidate in
  if String.eqb c "" then None else json_loads rt c.

(** The first candidate that decodes. *)
Fixpoint first_parsed (candidates : list string) : option pyval :=
  match candidates with
  | [] => None
  | c :: rest =>
      match decode c with
      | Some v => Some v
      | None => first_parsed rest
      end
  end.

Definition recovered (response : string) : option pyval :=
  if String.eqb response "" then None
  else first_parsed (json_candidates response).

End Recoverer.

End Recover.

(** ** Table rendering, shared by [_format_table_for_llm] and
    [_format_table_data]

    The two methods are the same text up to the number of columns kept. *)

Module TableText.
Import Py.

Definition empty_table : string := "空表格".
Definition row_label : string := "行".

Section Rendering.

Variable rt : runtime.

(** The first [cols] cells of a row, each cut to 50 characters. *)
Definition row_cells (cols : nat) (row : pyval) : outcome (list string) :=
  let+ first := py_slice_to cols row in
  let+ cells := py_iter first in
  Ok (map (fun cell => PyStr.slice_to 50 (py_str rt cell)) cells).

Fixpoint table_cells (cols : nat) (rows : list pyval) : outcome (list (list string)) :=
  match rows with
  | [] => Ok []
  | row :: rest =>
      let+ cells := row_cells cols row in
      let+ more := table_cells cols rest in
      Ok (cells :: more)
  end.

Definition render_row (i : nat) (cells : list string) : string :=
  row_label +:+ PyStr.of_nat (i + 1) +:+ ": " +:+ PyStr.join " | " cells.

Definition render_rows (rows : list (list string)) : string :=
  PyStr.join PyStr.nl (imap render_row rows).

(** The rows of [table_body[:rows]], rendered cell by cell. *)
Definition rendered_cells (rows cols : nat) (table_body : pyval)
  : outcome (list (list string)) :=
  let+ first := py_slice_to rows table_body in
  let+ row_list := py_iter first in
  table_cells cols row_list.

Definition format_table (rows cols : nat) (table_body : pyval) : outcome string :=
  if truthy table_body then
    let+ cells := rendered_cells rows cols table_body in
    Ok (render_rows cells)
  else Ok empty_table.

End Rendering.

End TableText.

(** ** Heap of shared objects *)

Module Heap.
Import Py.

Definition loc : Type := nat.

(** The object a reference denotes ([None] for a reference nothing was
    stored at). *)
Definition deref (h : gmap loc pyval) (l : loc) : pyval :=
  match h !! l with
  | Some v => v
  | None => PNone
  end.

End Heap.

(** ** [ragcl/entity_extractor.py]: class [EntityExtractor] *)

Module EntityExtractor.
Import Py Service Heap.

Definition text_entity_extraction_template : string := Template.unmark
"请分析以下文本内容并提取实体信息，返回JSON格式结果：

文本内容：
{content}

请提取并返回以下格式的JSON：
{{
    ^entities^: [
        {{
            ^name^: ^实体名称^,
            ^type^: ^实体类型^,
            ^description^: ^实体描述^,
            ^relevance_score^: 评分(0-1)
        }}
    ],
    ^summary^: ^内容摘要^,
    ^key_concepts^: [^关键概念1^, ^关键概念2^],
    ^context^: ^上下文信息^
}}

重点关注：
- 专业术语和技术名词
- 人名、地名、组织名
- 产品名称、型号、规格
- 数值、日期、标准
- 重要概念和定义".

Definition table_entity_extraction_template : string := Template.unmark
"请分析以下表格内容并提取结构化信息：

表格标题：{caption}
表格内容：
{table_data}

请返回JSON格式结果：
{{
    ^table_summary^: ^表格内容摘要^,
    ^key_data^: {{
        ^headers^: [^表头1^, ^表头2^],
        ^key_values^: [
            {{^header^: ^表头^, ^values^: [^值1^, ^值2^], ^significance^: ^重要性描述^}}
        ]
    }},
    ^extracted_entities^: [
        {{
            ^name^: ^实体名称^,
            ^type^: ^data_point/parameter/standard^,
            ^value^: ^数值^,
            ^description^: ^描述^
        }}
    ],
    ^relationships^: [
        {{^from^: ^实体1^, ^to^: ^实体2^, ^relation^: ^关系类型^, ^description^: ^关系描述^}}
    ]
}}".

Definition document_structure_analysis_template : string := Template.unmark
"请分析以下文档结构并提取文档级别的实体：

文档内容块：
{content_blocks}

请返回JSON格式结果：
{{
    ^document_info^: {{
        ^title^: ^文档标题^,
        ^type^: ^文档类型^,
        ^domain^: ^领域^,
        ^language^: ^语言^
    }},
    ^structure_entities^: [
        {{
            ^name^: ^章节/部分名称^,
            ^type^: ^section/chapter/appendix^,
            ^content_summary^: ^内容摘要^,
            ^page_range^: [开始页, 结束页]
        }}
    ],
    ^global_entities^: [
        {{
            ^name^: ^全局实体名称^,
            ^type^: ^实体类型^,
            ^frequency^: 出现频次,
            ^importance^: ^重要性评分^,
            ^description^: ^描述^
        }}
    ]
}}".

Definition relationship_prompt_template : string := Template.unmark
"基于以下实体列表，请分析它们之间可能的关系：

实体列表：
{entity_names}

请返回JSON格式的关系：
{{
    ^relationships^: [
        {{
            ^from^: ^实体1^,
            ^to^: ^实体2^, 
            ^relation^: ^关系类型^,
            ^description^: ^关系描述^,
            ^confidence^: 置信度(0-1)
        }}
    ]
}}

关系类型包括：part_of, related_to, depends_on, defines, measures, etc.".

(** [r'```(?:json)?\s*([\s\S]*?)```'], compiled with [re.IGNORECASE]. *)
Definition code_block_pattern : Re.re :=
  Re.Seq (Re.lit "```")
    (Re.Seq (Re.Opt (Re.lit "json"))
       (Re.Seq (Re.StarG PyStr.is_space)
          (Re.Seq (Re.Grp (Re.StarL Re.any_char)) (Re.lit "```")))).

(** [r'\{[\s\S]*\}'] *)
Definition brace_pattern : Re.re :=
  Re.Seq (Re.lit "{") (Re.Seq (Re.StarG Re.any_char) (Re.lit "}")).

(** The default caption of a table. *)
Definition unnamed_table : string := "未命名表格".



(** [_merge_text_blocks]: one turn of the loop over the state
    [(merged_blocks, current_block)]. *)
Definition merge_step (st : list pyval * option pyval) (block : pyval)
  : outcome (list pyval * option pyval) :=
  let '(merged_blocks, current_block) := st in
  let+ raw := py_get block "text" (PStr "") in
  let+ text := py_strip raw in
  match current_block with
  | Some cur =>
      if (PyStr.len text <? 200)%nat then
        let+ old := py_getitem cur "text" in
        let+ new := py_iadd_str old (PyStr.nl +:+ text) in
        let+ cur1 := py_setitem cur "text" new in
        let+ mb := py_get cur1 "merged_blocks" (PList []) in
        let+ bi := py_get block "block_index" (PInt (-1)) in
        let+ mb' := py_add_list mb [bi] in
        let+ cur2 := py_setitem cur1 "merged_blocks" mb' in
        Ok (merged_blocks, Some cur2)
      else Ok ((merged_blocks ++ [cur])%list, Some block)
  | None => Ok (merged_blocks, Some block)
  end.

Fixpoint merge_loop (st : list pyval * option pyval) (blocks : list pyval)
  : outcome (list pyval * option pyval) :=
  match blocks with
  | [] => Ok st
  | block :: rest => let+ st' := merge_step st block in merge_loop st' rest
  end.

Definition _merge_text_blocks (text_blocks : list pyval) : outcome (list pyval) :=
  let+ st := merge_loop ([], None) text_blocks in
  Ok (match snd st with
      | Some cur => (fst st ++ [cur])%list
      | None => fst st
      end).

(** The classification loop of [extract_entities_from_content_list]. *)
Definition classify_step (i : nat) (l : loc)
  (st : gmap loc pyval * list loc * list loc) : gmap loc pyval * list loc * list loc :=
  let '(h, text_blocks, table_blocks) := st in
  match h !! l with
  | Some (PDict d) =>
      let content_type := dict_get "type" (PStr "unknown") d in
      let h' := <[l := PDict (assoc_set "block_index" (PInt (Z.of_nat i)) d)]> h in
      if is_str_eq "text" content_type then (h', (text_blocks ++ [l])%list, table_blocks)
      else if is_str_eq "table" content_type then (h', text_blocks, (table_blocks ++ [l])%list)
      else (h', text_blocks, table_blocks)
  | _ => st
  end.

Fixpoint classify_loop (i : nat) (content_list : list loc)
  (st : gmap loc pyval * list loc * list loc) : gmap loc pyval * list loc * list loc :=
  match content_list with
  | [] => st
  | l :: rest => classify_loop (S i) rest (classify_step i l st)
  end.

Definition classify (h : gmap loc pyval) (content_list : list loc)
  : gmap loc pyval * list loc * list loc :=
  classify_loop 0 content_list (h, [], []).

Section Extractor.

Variable rt : runtime.
(** [self.client is not None] *)
Variable has_client : bool.
Variable llm : nat -> string -> option string.

Definition recovered (response : string) : option pyval :=
  Recover.recovered rt code_block_pattern brace_pattern response.

Definition _parse_llm_response (response : string) : pyval :=
  match recovered response with
  | Some v => v
  | None => PNone
  end.

Definition _async_openai_call (prompt : string) : M (option string) :=
  if has_client then request llm prompt else ret None.

Definition _call_llm_for_extraction (prompt : string) : M pyval :=
  let* response := _async_openai_call prompt in
  match response with
  | Some s => if truthy (PStr s) then ret (_parse_llm_response s) else ret PNone
  | None => ret PNone
  end.

(** The [try] block of [_extract_text_entities] for one unit: the entities
    it adds to [all_entities]. *)
Definition text_unit_entities (block : pyval) (text_content : string)
  : M (list pyval) :=
  catch
    (let* entities_result :=
       _call_llm_for_extraction
         (Template.format text_entity_extraction_template
            [("content", text_content)]) in
     if truthy entities_result then
       let* has := lift (py_contains "entities" entities_result) in
       if (has : bool) then
         let* found := lift (py_getitem entities_result "entities") in
         let* items := lift (py_iter found) in
         let* source_block := lift (py_get block "block_index" (PInt (-1))) in
         let* source_page := lift (py_get block "page_idx" (PInt 0)) in
         lift (tag_all [("source_block", source_block);
                        ("source_page", source_page);
                        ("source_type", PStr "text")] items)
       else ret []
     else ret [])
    (fun _ => ret []).

Fixpoint text_loop (processed_blocks : list pyval) : M (list pyval) :=
  match processed_blocks with
  | [] => ret []
  | block :: rest =>
      let* raw := lift (py_get block "text" (PStr "")) in
      let* text_content := lift (py_strip raw) in
      let* added :=
        if (PyStr.len text_content <? 10)%nat then ret []
        else text_unit_entities block text_content in
      let* more := text_loop rest in
      ret (added ++ more)%list
  end.

Definition _extract_text_entities (text_blocks : list pyval) : M pyval :=
  let* processed_blocks := lift (_merge_text_blocks text_blocks) in
  let* all_entities := text_loop processed_blocks in
  ret (PDict [("entities", PList all_entities)]).

(** 10 rows of 10 columns. *)
Definition _format_table_for_llm (table_body : pyval) : outcome string :=
  TableText.format_table rt 10 10 table_body.

Definition table_unit_entities (block table_caption table_body : pyval)
  : M (list pyval) :=
  catch
    (let* table_data := lift (_format_table_for_llm table_body) in
     let* table_result :=
       _call_llm_for_extraction
         (Template.format table_entity_extraction_template
            [("caption", py_str rt table_caption); ("table_data", table_data)]) in
     if truthy table_result then
       let* has := lift (py_contains "extracted_entities" table_result) in
       if (has : bool) then
         let* found := lift (py_getitem table_result "extracted_entities") in
         let* items := lift (py_iter found) in
         let* source_block := lift (py_get block "block_index" (PInt (-1))) in
         let* source_page := lift (py_get block "page_idx" (PInt 0)) in
         lift (tag_all [("source_block", source_block);
                        ("source_page", source_page);
                        ("source_type", PStr "table");
                        ("source_caption", table_caption)] items)
       else ret []
     else ret [])
    (fun _ => ret []).

Fixpoint table_loop (table_blocks : list pyval) : M (list pyval) :=
  match table_blocks with
  | [] => ret []
  | block :: rest =>
      let* table_caption := lift (py_get block "table_caption" (PStr unnamed_table)) in
      let* table_body := lift (py_get block "table_body" (PList [])) in
      let* added :=
        if truthy table_body then table_unit_entities block table_caption table_body
        else ret [] in
      let* more := table_loop rest in
      ret (added ++ more)%list
  end.

Definition _extract_table_entities (table_blocks : list pyval) : M pyval :=
  let* all_entities := table_loop table_blocks in
  ret (PDict [("entities", PList all_entities)]).

(** One entry of [structure_info]; a block that is not a dict gives none. *)
Definition structure_entry (block : pyval) : list pyval :=
  match block with
  | PDict d =>
      [PDict [("type", dict_get "type" (PStr "unknown") d);
              ("text_preview",
               PStr (PyStr.slice_to 100
                       (py_str rt (dict_get "text"
                                     (dict_get "table_caption" (PStr "") d) d))));
              ("page", dict_get "page_idx" (PInt 0) d)]]
  | _ => []
  end.

Definition dumps (v : pyval) : outcome string :=
  match json_dumps rt v with
  | Some s => Ok s
  | None => Raise TypeError
  end.

Definition _analyze_document_structure (content_list : list pyval) : M pyval :=
  let structure_info := concat (map structure_entry (take 10 content_list)) in
  catch
    (let* content_blocks := lift (dumps (PList structure_info)) in
     let* doc_analysis :=
       _call_llm_for_extraction
         (Template.format document_structure_analysis_template
            [("content_blocks", content_blocks)]) in
     ret (if truthy doc_analysis then doc_analysis else PDict []))
    (fun _ => ret (PDict [])).

Fixpoint entity_names (entities : list pyval) : outcome (list pyval) :=
  match entities with
  | [] => Ok []
  | entity :: rest =>
      let+ name := py_get entity "name" (PStr "") in
      let+ names := entity_names rest in
      Ok (name :: names)
  end.

Definition _extract_entity_relationships (entities : list pyval) : M pyval :=
  if (length entities <? 2)%nat then ret (PList [])
  else
    let* names := lift (entity_names (take 20 entities)) in
    let* listed := lift (dumps (PList names)) in
    catch
      (let* relationships_result :=
         _call_llm_for_extraction
           (Template.format relationship_prompt_template
              [("entity_names", listed)]) in
       if truthy relationships_result
       then lift (py_get relationships_result "relationships" (PList []))
       else ret (PList []))
      (fun _ => ret (PList [])).

(** The entities a sub-extractor returned under the key [entities]. *)
Definition entities_of (result : pyval) : M (list pyval) :=
  let* found := lift (py_get result "entities" (PList [])) in
  lift (py_iter found).

Definition statistics (all_entities all_relationships : list pyval)
  (text_blocks table_blocks : list loc) : pyval :=
  PDict [("total_entities", PInt (Z.of_nat (length all_entities)));
         ("total_relationships", PInt (Z.of_nat (length all_relationships)));
         ("text_blocks_processed", PInt (Z.of_nat (length text_blocks)));
         ("table_blocks_processed", PInt (Z.of_nat (length table_blocks)))].

(** What follows the classification loop, on the heap it left. *)
Definition extract_classified (h : gmap loc pyval) (content_list text_blocks table_blocks : list loc)
  (extract_relations : bool) : M pyval :=
  let* text_found :=
    match text_blocks with
    | [] => ret []
    | _ => let* text_entities := _extract_text_entities (map (deref h) text_blocks) in
           entities_of text_entities
    end in
  let* table_found :=
    match table_blocks with
    | [] => ret []
    | _ => let* table_entities := _extract_table_entities (map (deref h) table_blocks) in
           entities_of table_entities
    end in
  let all_entities := (text_found ++ table_found)%list in
  let* doc_analysis := _analyze_document_structure (map (deref h) content_list) in
  let* all_relationships :=
    if extract_relations && (1 <? length all_entities)%nat then
      let* relationships := _extract_entity_relationships all_entities in
      lift (py_iter relationships)
    else ret [] in
  ret (PDict [("entities", PList all_entities);
              ("relationships", PList all_relationships);
              ("document_analysis", doc_analysis);
              ("statistics",
               statistics all_entities all_relationships text_blocks table_blocks)]).

(** [extract_entities_from_content_list]: the heap the call leaves and the
    rest of the run. *)
Definition extract_entities_from_content_list (h : gmap loc pyval)
  (content_list : list loc) (extract_relations : bool) : gmap loc pyval * M pyval :=
  let '(h', text_blocks, table_blocks) := classify h content_list in
  (h', extract_classified h' content_list text_blocks table_blocks extract_relations).

Definition error_result (e : exn) : pyval :=
  PDict [("entities", PList []);
         ("relationships", PList []);
         ("document_analysis", PDict []);
         ("statistics", PDict [("error", PStr (exn_str rt e))])].

Definition extract_entities_sync (h : gmap loc pyval) (content_list : list loc)
  : gmap loc pyval * M pyval :=
  let '(h', run) := extract_entities_from_content_list h content_list true in
  (h', catch run (fun e => ret (error_result e))).

End Extractor.

End EntityExtractor.

(** ** [ragcl/raganything_entity_extractor.py]: class
    [RAGAnythingEntityExtractor] *)

Module RAGAnythingEntityExtractor.
Import Py Service.

Definition vision_prompt_template : string := Template.unmark
"Please analyze this image in detail and provide a JSON response with the following structure:

{{
    ^detailed_description^: ^A comprehensive and detailed visual description of the image following these guidelines:
    - Describe the overall composition and layout
    - Identify all objects, people, text, and visual elements
    - Explain relationships between elements
    - Note colors, lighting, and visual style
    - Describe any actions or activities shown
    - Include technical details if relevant (charts, diagrams, etc.)
    - Always use specific names instead of pronouns^,
    ^entity_info^: {{
        ^entity_name^: ^{entity_name}^,
        ^entity_type^: ^image^,
        ^summary^: ^concise summary of the image content and its significance (max 100 words)^
    }}
}}

Additional context:
- Image Path: {image_path}
- Captions: {captions}
- Footnotes: {footnotes}

Focus on providing accurate, detailed visual analysis that would be useful for knowledge retrieval.".

Definition table_prompt_template : string := Template.unmark
"Please analyze this table content and provide a JSON response with the following structure:

{{
    ^detailed_description^: ^A comprehensive analysis of the table including:
    - Table structure and organization
    - Column headers and their meanings
    - Key data points and patterns
    - Statistical insights and trends
    - Relationships between data elements
    - Significance of the data presented
    Always use specific names and values instead of general references.^,
    ^entity_info^: {{
        ^entity_name^: ^{entity_name}^,
        ^entity_type^: ^table^,
        ^summary^: ^concise summary of the table's purpose and key findings (max 100 words)^
    }}
}}

Table Information:
Image Path: {table_img_path}
Caption: {table_caption}
Body: {table_body}
Footnotes: {table_footnote}

Focus on extracting meaningful insights and relationships from the tabular data.".

Definition generic_text_extraction_template : string := Template.unmark
"Extract entities and relationships from the following text content:

Text: {content}

Please provide a JSON response with:
{{
    ^entities^: [
        {{
            ^name^: ^entity name^,
            ^type^: ^entity type (Person, Organization, Location, Concept, Product, etc.)^,
            ^description^: ^brief description^,
            ^relevance_score^: 0.0-1.0
        }}
    ],
    ^relationships^: [
        {{
            ^from^: ^source entity^,
            ^to^: ^target entity^,
            ^relation^: ^relationship type^,
            ^description^: ^relationship description^,
            ^confidence^: 0.0-1.0
        }}
    ],
    ^summary^: ^brief summary of the content^
}}

Focus on identifying:
- Key entities (names, concepts, technical terms)
- Semantic relationships between entities
- Important factual information".

Definition is_s (c : ascii) : bool :=
  ((PyStr.code c =? 115) || (PyStr.code c =? 83))%nat.

Definition backslash_or_s (c : ascii) : bool :=
  ((PyStr.code c =? 92) || (PyStr.code c =? 115) || (PyStr.code c =? 83))%nat.

(** [r'```(?:json)?\\s*([\\s\\S]*?)```'], compiled with [re.IGNORECASE].
    The pattern is a raw string, so each doubled backslash reaches [re] as
    an escaped backslash: after the optional [json] it asks for a literal
    backslash, then any number of [s], and the group ranges over the class
    of the backslash, [s] and [S]. *)
Definition code_block_pattern : Re.re :=
  Re.Seq (Re.lit "```")
    (Re.Seq (Re.Opt (Re.lit "json"))
       (Re.Seq (Re.lit "\")
          (Re.Seq (Re.StarG is_s)
             (Re.Seq (Re.Grp (Re.StarL backslash_or_s)) (Re.lit "```"))))).

(** [r'\\{[\\s\\S]*\\}']: a backslash and an opening brace, characters of
    the class of the backslash, [s] and [S], a backslash and a closing
    brace. *)
Definition brace_pattern : Re.re :=
  Re.Seq (Re.lit "\{") (Re.Seq (Re.StarG backslash_or_s) (Re.lit "\}")).

Definition unnamed_table : string := "未命名表格".
Definition unnamed_image : string := "未命名图片".

Section Extractor.

Variable rt : runtime.
(** [self.client is not None] *)
Variable has_client : bool.
Variable llm : nat -> string -> option string.

Definition _call_llm (prompt : string) : M (option string) :=
  if has_client then request llm prompt else ret None.

Definition recovered (response : string) : option pyval :=
  Recover.recovered rt code_block_pattern brace_pattern response.

Definition _parse_json_response (response : option string) : pyval :=
  match response with
  | Some s => match recovered s with
              | Some v => v
              | None => PNone
              end
  | None => PNone
  end.

Definition _process_text_content (item : pyval) (index : nat) : M pyval :=
  let* raw := lift (py_get item "text" (PStr "")) in
  let* text := lift (py_strip raw) in
  if (PyStr.len text <? 10)%nat then ret PNone
  else
    let* response :=
      _call_llm (Template.format generic_text_extraction_template
                   [("content", PyStr.slice_to 2000 text)]) in
    ret (_parse_json_response response).

(** 10 rows of 8 columns. *)
Definition _format_table_data (table_body : pyval) : outcome string :=
  TableText.format_table rt 10 8 table_body.

(** The tail shared by [_process_table_content] and
    [_process_image_content]: a recovered record with an [entity_info]
    becomes one entity of the standard shape. *)
Definition modal_result (result : pyval) (entity_name kind : string) : outcome pyval :=
  if truthy result then
    let+ has := py_contains "entity_info" result in
    if (has : bool) then
      let+ entity_info := py_getitem result "entity_info" in
      let+ name := py_get entity_info "entity_name" (PStr entity_name) in
      let+ type := py_get entity_info "entity_type" (PStr kind) in
      let+ description := py_get result "detailed_description" (PStr "") in
      let+ summary := py_get entity_info "summary" (PStr "") in
      Ok (PDict [("entities",
                  PList [PDict [("name", name);
                                ("type", type);
                                ("description", description);
                                ("summary", summary);
                                ("relevance_score", PFloat "1.0")]]);
                 ("relationships", PList []);
                 ("content_analysis", result)])
    else Ok result
  else Ok result.

Definition _process_table_content (item : pyval) (index : nat) : M pyval :=
  let* table_caption := lift (py_get item "table_caption" (PStr unnamed_table)) in
  let* table_body := lift (py_get item "table_body" (PList [])) in
  if truthy table_body then
    let* table_str := lift (_format_table_data table_body) in
    let* short := lift (py_slice_to 20 table_caption) in
    let entity_name := "Table_" +:+ PyStr.of_nat index +:+ "_" +:+ py_str rt short in
    let* img_path := lift (py_get item "img_path" (PStr "")) in
    let* footnote := lift (py_get item "table_footnote" (PStr "")) in
    let* response :=
      _call_llm (Template.format table_prompt_template
                   [("entity_name", entity_name);
                    ("table_img_path", py_str rt img_path);
                    ("table_caption", py_str rt table_caption);
                    ("table_body", table_str);
                    ("table_footnote", py_str rt footnote)]) in
    lift (modal_result (_parse_json_response response) entity_name "table")
  else ret PNone.

Definition _process_image_content (item : pyval) (index : nat) : M pyval :=
  let* image_caption := lift (py_get item "image_caption" (PStr unnamed_image)) in
  let* short := lift (py_slice_to 20 image_caption) in
  let entity_name := "Image_" +:+ PyStr.of_nat index +:+ "_" +:+ py_str rt short in
  let* img_path := lift (py_get item "img_path" (PStr "")) in
  let* footnotes := lift (py_get item "footnotes" (PStr "")) in
  let* response :=
    _call_llm (Template.format vision_prompt_template
                 [("entity_name", entity_name);
                  ("image_path", py_str rt img_path);
                  ("captions", py_str rt image_caption);
                  ("footnotes", py_str rt footnotes)]) in
  lift (modal_result (_parse_json_response response) entity_name "image").

Definition _process_generic_content (item : pyval) (index : nat) : M pyval :=
  let* fallback := lift (py_get item "content" (PStr "")) in
  let* found := lift (py_get item "text" fallback) in
  let content := PyStr.slice_to 1000 (py_str rt found) in
  if (PyStr.len content <? 5)%nat then ret PNone
  else
    let* response :=
      _call_llm (Template.format generic_text_extraction_template
                   [("content", content)]) in
    ret (_parse_json_response response).

Definition process_content (content_type item : pyval) (i : nat) : M pyval :=
  if is_str_eq "text" content_type then _process_text_content item i
  else if is_str_eq "table" content_type then _process_table_content item i
  else if is_str_eq "image" content_type then _process_image_content item i
  else _process_generic_content item i.

(** The [try] block of the main loop for the dict [item] at position [i]:
    the entities and the relationships it adds. *)
Definition item_results (item : pyval) (i : nat) : M (list pyval * list pyval) :=
  catch
    (let* content_type := lift (py_get item "type" (PStr "text")) in
     let* result := process_content content_type item i in
     if truthy result then
       let* entities := lift (py_get result "entities" (PList [])) in
       let* relationships := lift (py_get result "relationships" (PList [])) in
       let* entity_items := lift (py_iter entities) in
       let* source_page := lift (py_get item "page_idx" (PInt 0)) in
       let* tagged := lift (tag_all [("source_block", PInt (Z.of_nat i));
                                     ("source_page", source_page);
                                     ("source_type", content_type)] entity_items) in
       let* relationship_items := lift (py_iter relationships) in
       let* tagged_rels := lift (tag_all [("source_block", PInt (Z.of_nat i));
                                          ("source_page", source_page)]
                                   relationship_items) in
       ret (tagged, tagged_rels)
     else ret ([], []))
    (fun _ => ret ([], [])).

Fixpoint content_loop (i : nat) (content_list : list pyval)
  : M (list pyval * list pyval) :=
  match content_list with
  | [] => ret ([], [])
  | item :: rest =>
      let* added := if is_dict item then item_results item i else ret ([], []) in
      let* more := content_loop (S i) rest in
      ret ((fst added ++ fst more)%list, (snd added ++ snd more)%list)
  end.

(** The [type] of each dict of the list, and each [page_idx] that is not
    [None]. *)
Definition content_type_of (item : pyval) : list pyval :=
  match item with
  | PDict d => [dict_get "type" (PStr "unknown") d]
  | _ => []
  end.

Definition page_of (item : pyval) : list pyval :=
  match item with
  | PDict d => match dict_get "page_idx" PNone d with
               | PNone => []
               | page_idx => [page_idx]
               end
  | _ => []
  end.

Definition document_info : pyval :=
  PDict [("title", PStr "Processed Document");
         ("type", PStr "Technical Document");
         ("domain", PStr "General");
         ("language", PStr "Mixed")].

Definition _analyze_document_structure (content_list : list pyval) : outcome pyval :=
  match py_count rt (concat (map content_type_of content_list)),
        py_distinct rt (concat (map page_of content_list)) with
  | Some content_types, Some total_pages =>
      Ok (PDict [("document_info", document_info);
                 ("content_statistics",
                  PDict [("total_pages", PInt (Z.of_nat total_pages));
                         ("content_types", content_types)]);
                 ("structure_entities", PList []);
                 ("global_entities", PList [])])
  | _, _ => Raise TypeError
  end.

Definition statistics (all_entities all_relationships content_list : list pyval) : pyval :=
  PDict [("total_entities", PInt (Z.of_nat (length all_entities)));
         ("total_relationships", PInt (Z.of_nat (length all_relationships)));
         ("content_blocks_processed", PInt (Z.of_nat (length content_list)));
         ("processing_method", PStr "raganything_style")].

Definition extract_entities_from_content_list (content_list : list pyval)
  (extract_relations : bool) : M pyval :=
  let* found := content_loop 0 content_list in
  let* doc_analysis := lift (_analyze_document_structure content_list) in
  ret (PDict [("entities", PList (fst found));
              ("relationships", PList (snd found));
              ("document_analysis", doc_analysis);
              ("statistics", statistics (fst found) (snd found) content_list)]).

Definition error_result (e : exn) : pyval :=
  PDict [("entities", PList []);
         ("relationships", PList []);
         ("document_analysis", PDict []);
         ("statistics", PDict [("error", PStr (exn_str rt e))])].

Definition extract_entities_sync (content_list : list pyval) : M pyval :=
  catch (extract_entities_from_content_list content_list true)
        (fun e => ret (error_result e)).

End Extractor.

End RAGAnythingEntityExtractor.

(** ** [ragcl/lightrag_entity_extractor.py]: class [LightRAGEntityExtractor]

    The extraction itself is LightRAG's [extract_entities], which the
    repository calls and does not define.  Its result is read here as a
    Python value: a tuple is a [PList], and a dict keyed by something else
    than a string (the edges, keyed by pairs of names) is a [PDict] with
    the keys written as strings, since only its values are read. *)

Module LightRAGEntityExtractor.
Import Py.

(** [len(v)] *)
Definition py_len (v : pyval) : outcome nat :=
  match v with
  | PList l => Ok (length l)
  | PStr s => Ok (PyStr.len s)
  | PDict d => Ok (length d)
  | _ => Raise TypeError
  end.

(** [v[n]] for a non-negative integer [n]. *)
Definition py_index (v : pyval) (n : nat) : outcome pyval :=
  match v with
  | PList l => match l !! n with
               | Some x => Ok x
               | None => Raise IndexError
               end
  | PStr s => match PyStr.chars s !! n with
              | Some c => Ok (PStr (String c EmptyString))
              | None => Raise IndexError
              end
  | PDict _ => Raise KeyError
  | _ => Raise TypeError
  end.

Section Extractor.

Variable rt : runtime.
(** [compute_mdhash_id(content, prefix="chunk-")] of [lightrag.utils]. *)
Variable compute_mdhash_id : string -> string.
(** [extract_entities(chunks=..., ...)] of [lightrag.operate] on this
    instance; [None] when it raises. *)
Variable lightrag_extract : pyval -> option pyval.

(** The row texts of a table: the rows that are lists, 8 cells each. *)
Fixpoint table_row_texts (rows : list pyval) : outcome (list string) :=
  match rows with
  | [] => Ok []
  | PList cells :: rest =>
      let+ more := table_row_texts rest in
      Ok (PyStr.join " | "
            (map (fun cell => PyStr.slice_to 50 (py_str rt cell)) (take 8 cells))
          :: more)
  | _ :: rest => table_row_texts rest
  end.

Definition _extract_text_content (item : pyval) : outcome string :=
  let+ content_type := py_get item "type" (PStr "text") in
  if is_str_eq "text" content_type then
    let+ raw := py_get item "text" (PStr "") in
    py_strip raw
  else if is_str_eq "table" content_type then
    let+ caption := py_get item "table_caption" (PStr "") in
    let+ body := py_get item "table_body" (PList []) in
    let title := if truthy caption then ["Table: " +:+ py_str rt caption] else [] in
    let+ rows :=
      if truthy body then
        let+ first := py_slice_to 5 body in
        let+ row_list := py_iter first in
        table_row_texts row_list
      else Ok [] in
    Ok (PyStr.join PyStr.nl (title ++ rows)%list)
  else if is_str_eq "image" content_type then
    let+ caption := py_get item "image_caption" (PStr "") in
    Ok (if truthy caption then "Image: " +:+ py_str rt caption else "Image content")
  else
    let+ fallback := py_get item "content" (PStr "") in
    let+ found := py_get item "text" fallback in
    Ok (PyStr.slice_to 500 (py_str rt found)).

Definition chunk_data (i : nat) (item : pyval) (content_text : string) : outcome pyval :=
  let+ file_path := py_get item "file_path" (PStr "unknown") in
  let+ page_idx := py_get item "page_idx" (PInt 0) in
  let+ content_type := py_get item "type" (PStr "text") in
  Ok (PDict [("content", PStr content_text);
             ("chunk_order_index", PInt (Z.of_nat i));
             ("full_doc_id", PStr "ragcl-document");
             ("chunk_index", PInt (Z.of_nat i));
             ("file_path", file_path);
             ("page_idx", page_idx);
             ("content_type", content_type);
             ("source_item", item)]).

(** [_convert_to_lightrag_chunks], on the chunks gathered so far. *)
Fixpoint convert_loop (i : nat) (content_list : list pyval)
  (lightrag_chunks : list (string * pyval)) : outcome (list (string * pyval)) :=
  match content_list with
  | [] => Ok lightrag_chunks
  | item :: rest =>
      if is_dict item then
        let+ content_text := _extract_text_content item in
        let chunk_id := compute_mdhash_id content_text in
        let+ data := chunk_data i item content_text in
        convert_loop (S i) rest (assoc_set chunk_id data lightrag_chunks)
      else convert_loop (S i) rest lightrag_chunks
  end.

Definition _convert_to_lightrag_chunks (content_list : list pyval)
  : outcome (list (string * pyval)) :=
  convert_loop 0 content_list [].

Definition _extract_entities_with_lightrag (lightrag_chunks : list (string * pyval))
  : pyval :=
  match lightrag_extract (PDict lightrag_chunks) with
  | Some chunk_results => chunk_results
  | None => PList []
  end.

(** The entities of [maybe_nodes.items()]. *)
Fixpoint node_entities (nodes : list (string * pyval)) : list pyval :=
  match nodes with
  | [] => []
  | (entity_name, PDict entity_data) :: rest =>
      PDict [("name", PStr entity_name);
             ("type", dict_get "entity_type" (PStr "Entity") entity_data);
             ("description", dict_get "description" (PStr "") entity_data);
             ("relevance_score", PFloat "1.0");
             ("source_type", PStr "lightrag");
             ("raw_data", PDict entity_data)]
        :: node_entities rest
  | _ :: rest => node_entities rest
  end.

(** The relationships of [maybe_edges.values()]. *)
Fixpoint edge_relationships (edges : list (string * pyval)) : outcome (list pyval) :=
  match edges with
  | [] => Ok []
  | (_, PDict edge_data) :: rest =>
      match py_div rt (dict_get "weight" (PFloat "1.0") edge_data) (PFloat "10.0") with
      | Some confidence =>
          let+ more := edge_relationships rest in
          Ok (PDict [("from", dict_get "src_id" (PStr "") edge_data);
                     ("to", dict_get "tgt_id" (PStr "") edge_data);
                     ("relation", dict_get "keywords" (PStr "related_to") edge_data);
                     ("description", dict_get "description" (PStr "") edge_data);
                     ("confidence", confidence);
                     ("raw_data", PDict edge_data)]
                :: more)
      | None => Raise TypeError
      end
  | _ :: rest => edge_relationships rest
  end.

Definition chunk_result_items (chunk_result : pyval) : outcome (list pyval * list pyval) :=
  let+ n := py_len chunk_result in
  if (2 <=? n)%nat then
    let+ maybe_nodes := py_index chunk_result 0 in
    let+ maybe_edges := py_index chunk_result 1 in
    let entities := match maybe_nodes with
                    | PDict nodes => node_entities nodes
                    | _ => []
                    end in
    let+ relationships := match maybe_edges with
                          | PDict edges => edge_relationships edges
                          | _ => Ok []
                          end in
    Ok (entities, relationships)
  else Ok ([], []).

Fixpoint chunk_loop (chunk_results : list pyval) : outcome (list pyval * list pyval) :=
  match chunk_results with
  | [] => Ok ([], [])
  | chunk_result :: rest =>
      let+ added := chunk_result_items chunk_result in
      let+ more := chunk_loop rest in
      Ok ((fst added ++ fst more)%list, (snd added ++ snd more)%list)
  end.

Definition _process_chunk_results (chunk_results : pyval)
  : outcome (list pyval * list pyval) :=
  let+ items := py_iter chunk_results in
  chunk_loop items.

Definition _analyze_document_structure (content_list : list pyval) : outcome pyval :=
  match py_count rt (concat (map RAGAnythingEntityExtractor.content_type_of content_list)),
        py_distinct rt (concat (map RAGAnythingEntityExtractor.page_of content_list)) with
  | Some content_types, Some total_pages =>
      Ok (PDict [("document_info", RAGAnythingEntityExtractor.document_info);
                 ("content_statistics",
                  PDict [("total_pages", PInt (Z.of_nat total_pages));
                         ("content_types", content_types)]);
                 ("structure_entities", PList []);
                 ("global_entities", PList [])])
  | _, _ => Raise TypeError
  end.

Definition statistics (entities relationships : list pyval)
  (lightrag_chunks : list (string * pyval)) (content_list : list pyval) : pyval :=
  PDict [("total_entities", PInt (Z.of_nat (length entities)));
         ("total_relationships", PInt (Z.of_nat (length relationships)));
         ("chunks_processed", PInt (Z.of_nat (length lightrag_chunks)));
         ("content_blocks_processed", PInt (Z.of_nat (length content_list)))].

Definition error_result (e : exn) : pyval :=
  PDict [("entities", PList []);
         ("relationships", PList []);
         ("document_analysis", PDict []);
         ("statistics", PDict [("error", PStr (exn_str rt e))])].

(** The body of the [try] of [extract_entities_from_content_list]. *)
Definition extraction (content_list : list pyval) : outcome pyval :=
  let+ lightrag_chunks := _convert_to_lightrag_chunks content_list in
  let chunk_results := _extract_entities_with_lightrag lightrag_chunks in
  let+ found := _process_chunk_results chunk_results in
  let+ document_analysis := _analyze_document_structure content_list in
  Ok (PDict [("entities", PList (fst found));
             ("relationships", PList (snd found));
             ("document_analysis", document_analysis);
             ("statistics",
              statistics (fst found) (snd found) lightrag_chunks content_list)]).

Definition extract_entities_from_content_list (content_list : list pyval)
  (extract_relations : bool) : pyval :=
  match extraction content_list with
  | Ok result => result
  | Raise e => error_result e
  end.

End Extractor.

End LightRAGEntityExtractor.

(** ** [ragcl/ragcl.py]: [RAGAnythingCL.parse_documents_batch]

    [parse_document] is the whole-document parse of one file, an outcome
    that depends on the file only.  The thread pool is a transition system:
    a chunk is submitted to the pool when the [with] block of the previous
    one has been left, a queued file starts when a worker is free, and a
    running file finishes in any order, its future being collected by the
    [as_completed] loop.  [parse_documents_batch] is the run in which the
    futures complete in the order of submission. *)

Module RAGAnythingCL.
Import Py.

Record config : Type := {
  batch_size : Z;
  max_workers : Z
}.

(** [range(0, n, step)] for a positive [step]. *)
Definition chunk_starts (n step : nat) : list nat :=
  map (fun k => k * step)%nat (seq 0 ((n + step - 1) / step)).

(** [file_paths[i:i + step]] *)
Definition batch_at (file_paths : list string) (step i : nat) : list string :=
  take step (drop i file_paths).

Definition batches (file_paths : list string) (step : nat) : list (list string) :=
  map (batch_at file_paths step) (chunk_starts (length file_paths) step).

(** A submitted file: the number of its chunk and its path. *)
Definition task : Type := nat * string.

Definition chunk_tasks (c : nat) (batch : list string) : list task :=
  map (pair c) batch.

Definition all_chunks (file_paths : list string) (step : nat) : list (list task) :=
  imap chunk_tasks (batches file_paths step).

Inductive event : Type :=
| Started (t : task)
| Finished (t : task).

(** The files a log shows as started, and as finished, in its order. *)
Fixpoint started_of (l : list event) : list task :=
  match l with
  | [] => []
  | Started t :: rest => t :: started_of rest
  | Finished _ :: rest => started_of rest
  end.

Fixpoint finished_of (l : list event) : list task :=
  match l with
  | [] => []
  | Started _ :: rest => finished_of rest
  | Finished t :: rest => t :: finished_of rest
  end.

Record state : Type := {
  todo : list (list task);
  queued : list task;
  running : list task;
  log : list event;
  results : gmap string (list pyval);
  failed_files : list string
}.

Section Batch.

Variable parse_document : string -> outcome (list pyval).

(** The body of the [as_completed] loop for the future of [file_path]. *)
Definition collect (st : gmap string (list pyval) * list string) (file_path : string)
  : gmap string (list pyval) * list string :=
  match parse_document file_path with
  | Ok content_list => (<[file_path := content_list]> (fst st), snd st)
  | Raise _ => (fst st, (snd st ++ [file_path])%list)
  end.

Definition initial (file_paths : list string) (step : nat) : state :=
  {| todo := all_chunks file_paths step; queued := []; running := [];
     log := []; results := ∅; failed_files := [] |}.

Inductive step (workers : nat) : state -> state -> Prop :=
| step_submit s chunk rest :
    todo s = chunk :: rest -> queued s = [] -> running s = [] ->
    step workers s
      {| todo := rest; queued := chunk; running := [];
         log := log s; results := results s; failed_files := failed_files s |}
| step_start s t rest :
    queued s = t :: rest -> (length (running s) < workers)%nat ->
    step workers s
      {| todo := todo s; queued := rest; running := (running s ++ [t])%list;
         log := (log s ++ [Started t])%list;
         results := results s; failed_files := failed_files s |}
| step_finish s before t after :
    running s = (before ++ t :: after)%list ->
    step workers s
      {| todo := todo s; queued := queued s; running := (before ++ after)%list;
         log := (log s ++ [Finished t])%list;
         results := fst (collect (results s, failed_files s) (snd t));
         failed_files := snd (collect (results s, failed_files s) (snd t)) |}.

(** Every chunk has been submitted and every future collected. *)
Definition complete (s : state) : Prop :=
  todo s = [] /\ queued s = [] /\ running s = [].

(** The states of the runs over [file_paths]. *)
Definition reachable (file_paths : list string) (bsize workers : nat) (s : state) : Prop :=
  rtc (step workers) (initial file_paths bsize) s.

(** What a call can return.  A zero [batch_size] is refused by [range], a
    negative one gives an empty range, and the pool refuses a
    [max_workers] that is not positive when the first chunk opens. *)
Inductive returns (cfg : config) (file_paths : list string)
  : outcome (gmap string (list pyval)) -> Prop :=
| returns_zero_step :
    batch_size cfg = 0 -> returns cfg file_paths (Raise ValueError)
| returns_no_chunk :
    batch_size cfg < 0 -> returns cfg file_paths (Ok ∅)
| returns_no_worker :
    0 < batch_size cfg -> max_workers cfg <= 0 -> file_paths <> [] ->
    returns cfg file_paths (Raise ValueError)
| returns_nothing :
    0 < batch_size cfg -> max_workers cfg <= 0 -> file_paths = [] ->
    returns cfg file_paths (Ok ∅)
| returns_results s :
    0 < batch_size cfg -> 0 < max_workers cfg ->
    reachable file_paths (Z.to_nat (batch_size cfg)) (Z.to_nat (max_workers cfg)) s ->
    complete s ->
    returns cfg file_paths (Ok (results s)).

(** The run in which the futures complete in the order of submission. *)
Definition parse_documents_batch (cfg : config) (file_paths : list string)
  : outcome (gmap string (list pyval)) :=
  if batch_size cfg =? 0 then Raise ValueError
  else if batch_size cfg <? 0 then Ok ∅
  else if (max_workers cfg <=? 0)
          && match file_paths with [] => false | _ => true end
       then Raise ValueError
  else Ok (fst (fold_left (fun st batch => fold_left collect batch st)
                  (batches file_paths (Z.to_nat (batch_size cfg))) (∅, []))).

(** The files of the list that parse, with their contents. *)
Fixpoint parsed (file_paths : list string) : gmap string (list pyval) :=
  match file_paths with
  | [] => ∅
  | f :: rest =>
      match parse_document f with
      | Ok content_list => <[f := content_list]> (parsed rest)
      | Raise _ => parsed rest
      end
  end.

(** The files of the list whose parse raises. *)
Fixpoint raising (file_paths : list string) : list string :=
  match file_paths with
  | [] => []
  | f :: rest =>
      match parse_document f with
      | Ok _ => raising rest
      | Raise _ => f :: raising rest
      end
  end.

End Batch.

End RAGAnythingCL.

(** ** An instance of the runtime

    [python] is the runtime the code is run on in the concrete cases below.
    Its decoder is [Json.json_decode].  [str], [json.dumps] and the
    counting dictionary follow Python on [None], booleans, integers,
    strings and the lists and string-keyed dicts built from them; a float
    is written by the literal it was read from, a dictionary key that is
    not a string is written by its [str], a quotient is written as the
    division it stands for, and an exception by the name of its class. *)

Module PyModel.
Import Py.

Definition hex_digit (n : nat) : ascii :=
  if (n <? 10)%nat then ascii_of_nat (48 + n) else ascii_of_nat (87 + n).

Definition hex2 (n : nat) : list ascii :=
  [hex_digit (n / 16); hex_digit (n mod 16)].

Definition printable (c : ascii) : bool :=
  let n := PyStr.code c in
  ((32 <=? n) && (n <? 127) || (161 <=? n) && negb (n =? 173))%nat.

(** One character of [repr] of a string quoted with [quote]. *)
Definition repr_char (quote c : ascii) : list ascii :=
  let n := PyStr.code c in
  if (n =? 92)%nat then [c; c]
  else if Ascii.eqb c quote then [PyStr.backslash; c]
  else if (n =? 10)%nat then PyStr.chars "\n"
  else if (n =? 13)%nat then PyStr.chars "\r"
  else if (n =? 9)%nat then PyStr.chars "\t"
  else if printable c then [c]
  else (PyStr.chars "\x" ++ hex2 n)%list.

Definition single_quote : ascii := ascii_of_nat 39.

Definition repr_str (s : string) : string :=
  let cs := PyStr.chars s in
  let quote :=
    if existsb (Ascii.eqb single_quote) cs && negb (existsb (Ascii.eqb PyStr.dquote) cs)
    then PyStr.dquote else single_quote in
  PyStr.of_chars ([quote] ++ concat (map (repr_char quote) cs) ++ [quote])%list.

Fixpoint repr (v : pyval) : string :=
  match v with
  | PNone => "None"
  | PBool b => if b then "True" else "False"
  | PInt z => PyStr.of_Z z
  | PFloat lit => lit
  | PStr s => repr_str s
  | PList l => "[" +:+ PyStr.join ", " (map repr l) +:+ "]"
  | PDict d =>
      "{" +:+ PyStr.join ", "
                (map (fun kv => let '(k, x) := kv in repr_str k +:+ ": " +:+ repr x) d)
          +:+ "}"
  end.

Definition str (v : pyval) : string :=
  match v with
  | PStr s => s
  | _ => repr v
  end.

(** One character of a JSON string written with [ensure_ascii=False]. *)
Definition json_char (c : ascii) : list ascii :=
  let n := PyStr.code c in
  if (n =? 34)%nat then [PyStr.backslash; c]
  else if (n =? 92)%nat then [c; c]
  else if (n =? 10)%nat then PyStr.chars "\n"
  else if (n =? 13)%nat then PyStr.chars "\r"
  else if (n =? 9)%nat then PyStr.chars "\t"
  else if (n =? 8)%nat then PyStr.chars "\b"
  else if (n =? 12)%nat then PyStr.chars "\f"
  else if (n <? 32)%nat then (PyStr.chars "\u00" ++ hex2 n)%list
  else [c].

Definition json_str (s : string) : string :=
  PyStr.of_chars ([PyStr.dquote] ++ concat (map json_char (PyStr.chars s))
                    ++ [PyStr.dquote])%list.

Fixpoint indent (level : nat) : string :=
  match level with
  | O => ""
  | S n => "  " +:+ indent n
  end.

Fixpoint dumps_at (level : nat) (v : pyval) : string :=
  match v with
  | PNone => "null"
  | PBool b => if b then "true" else "false"
  | PInt z => PyStr.of_Z z
  | PFloat lit => lit
  | PStr s => json_str s
  | PList l =>
      match l with
      | [] => "[]"
      | _ => "[" +:+ PyStr.nl
               +:+ PyStr.join ("," +:+ PyStr.nl)
                     (map (fun x => indent (S level) +:+ dumps_at (S level) x) l)
               +:+ PyStr.nl +:+ indent level +:+ "]"
      end
  | PDict d =>
      match d with
      | [] => "{}"
      | _ => "{" +:+ PyStr.nl
               +:+ PyStr.join ("," +:+ PyStr.nl)
                     (map (fun kv => let '(k, x) := kv in
                                     indent (S level) +:+ json_str k +:+ ": "
                                       +:+ dumps_at (S level) x) d)
               +:+ PyStr.nl +:+ indent level +:+ "}"
      end
  end.

Definition hashable (v : pyval) : bool :=
  match v with
  | PList _ | PDict _ => false
  | _ => true
  end.

(** Equality of two hashable objects as dictionary keys. *)
Definition key_eqb (a b : pyval) : bool :=
  match a, b with
  | PNone, PNone => true
  | PStr s, PStr t => String.eqb s t
  | PFloat s, PFloat t => String.eqb s t
  | PInt x, PInt y => x =? y
  | PBool x, PBool y => Bool.eqb x y
  | PBool x, PInt y | PInt y, PBool x => (if x then 1 else 0) =? y
  | _, _ => false
  end.

Fixpoint count_into (counts : list (pyval * nat)) (v : pyval) : list (pyval * nat) :=
  match counts with
  | [] => [(v, 1%nat)]
  | (k, n) :: rest =>
      if key_eqb k v then (k, S n) :: rest else (k, n) :: count_into rest v
  end.

Definition counts (vs : list pyval) : option (list (pyval * nat)) :=
  if forallb hashable vs then Some (fold_left count_into vs []) else None.

Definition count (vs : list pyval) : option pyval :=
  match counts vs with
  | Some cs => Some (PDict (map (fun kn => (str (fst kn), PInt (Z.of_nat (snd kn)))) cs))
  | None => None
  end.

Definition distinct (vs : list pyval) : option nat :=
  match counts vs with
  | Some cs => Some (length cs)
  | None => None
  end.

Definition is_number (v : pyval) : bool :=
  match v with
  | PBool _ | PInt _ | PFloat _ => true
  | _ => false
  end.

Definition div (a b : pyval) : option pyval :=
  if is_number a && is_number b
  then Some (PFloat (repr a +:+ "/" +:+ repr b))
  else None.

Definition exn_name (e : exn) : string :=
  match e with
  | AttributeError => "AttributeError"
  | KeyError => "KeyError"
  | TypeError => "TypeError"
  | ValueError => "ValueError"
  | IndexError => "IndexError"
  end.

Definition python : runtime :=
  {| py_str := str;
     json_loads := Json.json_decode;
     json_dumps := fun v => Some (dumps_at 0 v);
     exn_str := exn_name;
     py_count := count;
     py_distinct := distinct;
     py_div := div |}.

End PyModel.

(** ** Inputs of the concrete cases *)

Module Cases.
Import Py.

(** The response of the recovery example: a sentence, then the record in a
    fenced block tagged [json]. *)
Definition fenced_response : string :=
  "here is the answer:" +:+ PyStr.nl +:+ "```json" +:+ PyStr.nl
    +:+ "{" +:+ PyStr.q +:+ "entities" +:+ PyStr.q +:+ ":[]}" +:+ PyStr.nl +:+ "```".

(** A table of one row and nine columns. *)
Definition nine_columns : pyval :=
  PList [PList (map PStr ["a"; "b"; "c"; "d"; "e"; "f"; "g"; "h"; "i"])].

(** *** Text blocks and merged units *)

(** The [text] of a block when it is a string. *)
Definition text_of (b : pyval) : option string :=
  match b with
  | PDict d => match assoc_get "text" d with
               | Some (PStr s) => Some s
               | _ => None
               end
  | _ => None
  end.

Definition unit_text (b : pyval) : string :=
  match text_of b with
  | Some s => s
  | None => ""
  end.

(** [len(block['text'].strip())] *)
Definition trimmed_len (b : pyval) : nat := PyStr.len (PyStr.strip (unit_text b)).

(** The list under [merged_blocks]: the indices a unit subsumes. *)
Definition subsumed (b : pyval) : list pyval :=
  match b with
  | PDict d => match assoc_get "merged_blocks" d with
               | Some (PList l) => l
               | _ => []
               end
  | _ => []
  end.

(** [block.get('block_index', -1)] *)
Definition block_index_of (b : pyval) : pyval :=
  match b with
  | PDict d => dict_get "block_index" (PInt (-1)) d
  | _ => PInt (-1)
  end.

(** A block the merger runs on without raising: a dict whose [text] is a
    string and whose [merged_blocks], if it has any, is a list. *)
Definition mergeable (b : pyval) : bool :=
  match b with
  | PDict d =>
      match assoc_get "text" d with
      | Some (PStr _) =>
          match assoc_get "merged_blocks" d with
          | None | Some (PList _) => true
          | _ => false
          end
      | _ => false
      end
  | _ => false
  end.

(** The accumulator [c] after it absorbed the block [b]. *)
Definition absorb (c b : pyval) : pyval :=
  match c with
  | PDict d =>
      PDict (assoc_set "merged_blocks" (PList (subsumed c ++ [block_index_of b])%list)
               (assoc_set "text"
                  (PStr (unit_text c +:+ PyStr.nl +:+ PyStr.strip (unit_text b))) d))
  | _ => c
  end.


(** A text block of [n] times the character [c], at position [i]. *)
Definition filled_block (n : nat) (c : ascii) (i : Z) : pyval :=
  PDict [("type", PStr "text");
         ("text", PStr (PyStr.of_chars (repeat c n)));
         ("page_idx", PInt 0);
         ("block_index", PInt i)].

Definition block50 : pyval := filled_block 50 "a" 0.
Definition block80 : pyval := filled_block 80 "b" 1.

(** *** The shape of an extraction result *)

(** A result whose statistics count its two sequences. *)
Definition counted (r : pyval) : Prop :=
  exists entities relationships document_analysis stats,
    r = PDict [("entities", PList entities);
               ("relationships", PList relationships);
               ("document_analysis", document_analysis);
               ("statistics", PDict stats)] /\
    assoc_get "total_entities" stats = Some (PInt (Z.of_nat (length entities))) /\
    assoc_get "total_relationships" stats
    = Some (PInt (Z.of_nat (length relationships))).

(** The result of a failed run: empty sequences, an empty analysis and
    statistics with the one field [error]. *)
Definition error_shaped (r : pyval) : Prop :=
  exists message,
    r = PDict [("entities", PList []);
               ("relationships", PList []);
               ("document_analysis", PDict []);
               ("statistics", PDict [("error", PStr message)])].

(** *** Block indices *)

(** The last position of the reference [l] in a content list. *)
Fixpoint last_pos (l : Heap.loc) (content_list : list Heap.loc) : option nat :=
  match content_list with
  | [] => None
  | x :: rest =>
      match last_pos l rest with
      | Some j => Some (S j)
      | None => if decide (l = x) then Some O else None
      end
  end.

(** The object a classified block ends as: a dict gets the [block_index]. *)
Definition indexed (i : nat) (o : option pyval) : option pyval :=
  match o with
  | Some (PDict d) => Some (PDict (assoc_set "block_index" (PInt (Z.of_nat i)) d))
  | _ => o
  end.

(** The frame property as the specification words it: in the heap [h']
    left by the call, every dict element of the list carries a
    [block_index] equal to its position. *)
Definition indexed_by_position (h : gmap Heap.loc pyval) (content_list : list Heap.loc)
  (h' : gmap Heap.loc pyval) : Prop :=
  forall i l d,
    content_list !! i = Some l -> h !! l = Some (PDict d) ->
    exists d', h' !! l = Some (PDict d')
               /\ assoc_get "block_index" d' = Some (PInt (Z.of_nat i)).

(** A heap with one text block, and the list that holds it twice. *)
Definition one_block_heap : gmap Heap.loc pyval :=
  {[ 0%nat := PDict [("type", PStr "text"); ("text", PStr "shared")] ]}.

Definition same_block_twice : list Heap.loc := [0%nat; 0%nat].

(** A service that never answers. *)
Definition silent (n : nat) (prompt : string) : option string := None.

(** *** Elements that are not dicts *)

(** Two objects that are the same dict, or neither of which is a dict. *)
Definition same_dicts (v v' : pyval) : Prop :=
  v = v' \/ (is_dict v = false /\ is_dict v' = false).

(** Two heaps that hold the same dicts. *)
Definition heaps_same_dicts (h h' : gmap Heap.loc pyval) : Prop :=
  forall l, same_dicts (Heap.deref h l) (Heap.deref h' l).

(** Two heaps with the same text block at 0 and, at 1, an integer in one
    and a string in the other; the list of both references. *)
Definition text_block : pyval :=
  PDict [("type", PStr "text"); ("text", PStr "a paragraph of text"); ("page_idx", PInt 0)].

Definition heap_with_int : gmap Heap.loc pyval :=
  <[0%nat := text_block]> (<[1%nat := PInt 3]> ∅).

Definition heap_with_str : gmap Heap.loc pyval :=
  <[0%nat := text_block]> (<[1%nat := PStr "stray"]> ∅).

Definition both_refs : list Heap.loc := [0%nat; 1%nat].

(** *** Short text blocks *)




(** A text block of two characters followed by one of thirteen. *)
Definition short_then_long : gmap Heap.loc pyval :=
  <[0%nat := PDict [("type", PStr "text"); ("text", PStr "hi")]]>
    (<[1%nat := PDict [("type", PStr "text"); ("text", PStr "hello world!!")]]> ∅).

(** A service that answers every request with one entity. *)
Definition one_entity_answer : string :=
  "{" +:+ PyStr.q +:+ "entities" +:+ PyStr.q +:+ ":[{" +:+ PyStr.q +:+ "name"
    +:+ PyStr.q +:+ ":" +:+ PyStr.q +:+ "X" +:+ PyStr.q +:+ "}]}".

Definition one_entity (n : nat) (prompt : string) : option string :=
  Some one_entity_answer.


(** *** The variants side by side *)

Definition get_key (k : string) (r : pyval) : option pyval :=
  match r with
  | PDict d => assoc_get k d
  | _ => None
  end.






End Cases.

(** ** The runs of the batch orchestrator *)

Module BatchCases.
Import Py RAGAnythingCL.

(** What holds of every state of a run over the chunks [chunks]: the
    chunks split into those left behind, the one that is open and those to
    come; the files of the open chunk are collected, running or queued;
    the log shows as finished the chunks left behind and the files
    collected, and as started what has finished or is running; no more
    files run than there are workers; a file that starts finds every file
    of an earlier chunk finished; and the two accumulators are the fold of
    the loop body over the files finished, in that order. *)
Definition run_invariant (parse_document : string -> outcome (list pyval))
  (chunks : list (list task)) (workers : nat) (s : state) : Prop :=
  exists prev cur done,
    chunks = (prev ++ cur ++ todo s)%list /\
    (cur = [] \/ exists c, cur = [c]) /\
    concat cur ≡ₚ (done ++ running s ++ queued s)%list /\
    finished_of (log s) ≡ₚ (concat prev ++ done)%list /\
    started_of (log s) ≡ₚ (finished_of (log s) ++ running s)%list /\
    (length (running s) <= workers)%nat /\
    (forall l1 t l2 t',
        log s = (l1 ++ Started t :: l2)%list -> In t' (concat chunks) ->
        (fst t' < fst t)%nat -> In (Finished t') l1) /\
    (results s, failed_files s)
    = fold_left (collect parse_document) (map snd (finished_of (log s))) (∅, []).

(** The failure list as the specification words it: the value returned
    lets the caller read, for every file that failed, the file and the
    cause of its failure. *)
Definition failures_returned : Prop :=
  exists read : gmap string (list pyval) -> list (string * exn),
    forall parse_document cfg file_paths ret,
      returns parse_document cfg file_paths (Ok ret) ->
      forall f e, In (f, e) (read ret)
                  <-> In f file_paths /\ parse_document f = Raise e.

(** A parser that fails on the second of three files. *)
Definition second_fails (file_path : string) : outcome (list pyval) :=
  if String.eqb file_path "b.pdf" then Raise ValueError else Ok [PStr file_path].

Definition three_files : list string := ["a.pdf"; "b.pdf"; "c.pdf"].

Definition two_files : list string := ["a.pdf"; "c.pdf"].

Definition small_config : config := {| batch_size := 2; max_workers := 2 |}.

(** The state of a run over the three files in chunks of two, when the
    first chunk has been submitted and its first file has started. *)
Definition first_started : state :=
  {| todo := [[(1%nat, "c.pdf")]];
     queued := [(0%nat, "b.pdf")];
     running := [(0%nat, "a.pdf")];
     log := [Started (0%nat, "a.pdf")];
     results := ∅;
     failed_files := [] |}.

End BatchCases.

(** ** Measures of a run of the batch orchestrator *)

Module BatchMeasure.
Import Py RAGAnythingCL.


(** The number of chunks [range(0, n, step)] gives: [n / step], rounded up. *)
Definition number_of_chunks (n step : nat) : nat := ((n + step - 1) / step)%nat.

End BatchMeasure.

(** ** Requests of a computation *)

Module Requests.
Import Py Service.

(** The computation issues at most [k] requests, from whatever trace it
    starts: the trace it leaves is the one it got and at most [k] more
    prompts. *)
Definition at_most {A} (k : nat) (m : M A) : Prop :=
  forall tr, exists more, snd (m tr) = (tr ++ more)%list /\ (length more <= k)%nat.

(** One request when there is a client, none otherwise. *)
Definition per_call (has_client : bool) : nat := if has_client then 1%nat else 0%nat.

(** The computation does not raise. *)
Definition total {A} (m : M A) : Prop :=
  forall tr, exists a, fst (m tr) = Ok a.

(** The computation returns [a] or raises. *)
Definition gives {A} (a : A) (m : M A) : Prop :=
  forall tr, fst (m tr) = Ok a \/ exists e, fst (m tr) = Raise e.

End Requests.

(** ** Where an entity comes from *)

Module Provenance.
Import Py.

(** The entity [e] carries the position, the page and the type of a dict
    of the content list, as [RAGAnythingEntityExtractor] tags it. *)
Definition from_item (content_list : list pyval) (e : pyval) : Prop :=
  exists d i item,
    e = PDict d /\ content_list !! i = Some (PDict item) /\
    assoc_get "source_block" d = Some (PInt (Z.of_nat i)) /\
    assoc_get "source_page" d = Some (dict_get "page_idx" (PInt 0) item) /\
    assoc_get "source_type" d = Some (dict_get "type" (PStr "text") item).

(** The relationship [r] carries the position and the page of a dict of
    the content list. *)
Definition rel_from_item (content_list : list pyval) (r : pyval) : Prop :=
  exists d i item,
    r = PDict d /\ content_list !! i = Some (PDict item) /\
    assoc_get "source_block" d = Some (PInt (Z.of_nat i)) /\
    assoc_get "source_page" d = Some (dict_get "page_idx" (PInt 0) item).

(** The entity [e] carries the tags [EntityExtractor] gives to what it
    found in a text unit or in a table. *)
Definition tagged_entity (e : pyval) : Prop :=
  exists d source_block source_page,
    e = PDict d /\
    assoc_get "source_block" d = Some source_block /\
    assoc_get "source_page" d = Some source_page /\
    (assoc_get "source_type" d = Some (PStr "text")
     \/ (assoc_get "source_type" d = Some (PStr "table")
         /\ exists caption, assoc_get "source_caption" d = Some caption)).

(** The chunk [LightRAGEntityExtractor] stores for the dict [item] at
    position [i]: its id is computed from the text of the item. *)
Definition chunk_of (rt : runtime) (compute_mdhash_id : string -> string)
  (i : nat) (item : pyval) (chunk_id : string) (data : pyval) : Prop :=
  exists content_text,
    LightRAGEntityExtractor._extract_text_content rt item = Ok content_text
    /\ compute_mdhash_id content_text = chunk_id
    /\ LightRAGEntityExtractor.chunk_data i item content_text = Ok data.

End Provenance.

(** ** Text blocks by length and by type *)

Module Blocks.
Import Py.

(** A block whose stripped text has 200 characters or more: the merger
    starts a unit at it. *)
Definition long_text (b : pyval) : bool := (200 <=? Cases.trimmed_len b)%nat.

(** The reference denotes a dict of the given type. *)
Definition has_type (type : string) (h : gmap Heap.loc pyval) (l : Heap.loc) : bool :=
  match h !! l with
  | Some (PDict d) => is_str_eq type (dict_get "type" (PStr "unknown") d)
  | _ => false
  end.

(** A heap with one text block whose text is [None], as a parser writes a
    JSON [null]. *)
Definition null_text_heap : gmap Heap.loc pyval :=
  {[ 0%nat := PDict [("type", PStr "text"); ("text", PNone)] ]}.

End Blocks.

(** ** [ragcl/ragcl.py]: [RAGAnythingCL._content_to_markdown]

    The method collects the lines of the document in a list and joins
    them at the end; a line is whatever object the block held, and the
    join raises [TypeError] on one that is not a string. *)

Module Markdown.
Import Py.

Section Rendering.

Variable rt : runtime.

(** The lines of one element of [table_body]: a row that is a list gives
    its cells between bars, and the row at position 0 the separator after
    it; another element gives nothing. *)
Definition row_lines (first : bool) (row : pyval) : list pyval :=
  match row with
  | PList cells =>
      PStr ("| " +:+ PyStr.join " | " (map (py_str rt) cells) +:+ " |")
      :: (if first
          then [PStr ("| " +:+ PyStr.join " | " (map (fun _ => "---") cells) +:+ " |")]
          else [])
  | _ => []
  end.

Fixpoint table_lines (first : bool) (rows : list pyval) : list pyval :=
  match rows with
  | [] => []
  | row :: rest => (row_lines first row ++ table_lines false rest)%list
  end.

(** What one turn of the loop appends to [markdown_lines]. *)
Definition item_lines (item : pyval) : outcome (list pyval) :=
  match item with
  | PDict d =>
      let content_type := dict_get "type" (PStr "unknown") d in
      if is_str_eq "text" content_type then
        Ok [dict_get "text" (PStr "") d; PStr ""]
      else if is_str_eq "image" content_type then
        let caption := dict_get "image_caption" (PStr "") d in
        let img_path := dict_get "img_path" (PStr "") d in
        if truthy img_path then
          Ok ([PStr ("![" +:+ py_str rt caption +:+ "](" +:+ py_str rt img_path +:+ ")")]
                ++ (if truthy caption
                    then [PStr ("*" +:+ py_str rt caption +:+ "*")]
                    else [])
                ++ [PStr ""])%list
        else Ok []
      else if is_str_eq "table" content_type then
        let caption := dict_get "table_caption" (PStr "") d in
        let table_body := dict_get "table_body" (PList []) d in
        let title :=
          if truthy caption
          then [PStr ("**Table: " +:+ py_str rt caption +:+ "**"); PStr ""]
          else [] in
        if truthy table_body then
          let+ n := LightRAGEntityExtractor.py_len table_body in
          if (0 <? n)%nat then
            let+ rows := py_iter table_body in
            Ok (title ++ table_lines true rows ++ [PStr ""])%list
          else Ok title
        else Ok title
      else if is_str_eq "equation" content_type then
        Ok [PStr ("$$" +:+ PyStr.nl +:+ py_str rt (dict_get "text" (PStr "") d)
                   +:+ PyStr.nl +:+ "$$");
            PStr ""]
      else Ok []
  | _ => Ok []
  end.

Fixpoint markdown_lines (content_list : list pyval) : outcome (list pyval) :=
  match content_list with
  | [] => Ok []
  | item :: rest =>
      let+ lines := item_lines item in
      let+ more := markdown_lines rest in
      Ok (lines ++ more)%list
  end.

(** The lines as strings, when each of them is one. *)
Fixpoint all_str (lines : list pyval) : option (list string) :=
  match lines with
  | [] => Some []
  | PStr s :: rest => match all_str rest with
                      | Some more => Some (s :: more)
                      | None => None
                      end
  | _ :: _ => None
  end.

Definition _content_to_markdown (content_list : list pyval) : outcome string :=
  let+ lines := markdown_lines content_list in
  match all_str lines with
  | Some strings => Ok (PyStr.join PyStr.nl strings)
  | None => Raise TypeError
  end.

End Rendering.

(** A block the method renders: a dict whose type is one of the four it
    knows. *)
Definition rendered (item : pyval) : bool :=
  match item with
  | PDict d =>
      let content_type := dict_get "type" (PStr "unknown") d in
      is_str_eq "text" content_type || is_str_eq "image" content_type
      || is_str_eq "table" content_type || is_str_eq "equation" content_type
  | _ => false
  end.

(** A table block without a caption, with the given rows. *)
Definition table_block (rows : list (list pyval)) : pyval :=
  PDict [("type", PStr "table"); ("table_body", PList (map PList rows))].

(** A text block whose text is [None]. *)
Definition null_text : pyval := PDict [("type", PStr "text"); ("text", PNone)].

End Markdown.

(** ** [ragcl/config.py]: [RAGAnythingCLConfig.get_parser_kwargs] and the
    keyword arguments of [RAGAnythingCL.parse_document]

    A field of the configuration is any object (a dataclass does not
    check the annotations); [parser_kwargs] is a dict with string keys. *)

Module Config.
Import Py.

Record RAGAnythingCLConfig : Type := {
  parser : pyval;
  mineru_backend : pyval;
  mineru_device : pyval;
  mineru_source : pyval;
  enable_equation_processing : pyval;
  enable_table_processing : pyval;
  parser_kwargs : list (string * pyval)
}.

(** [d.update(more)] *)
Definition update (d more : list (string * pyval)) : list (string * pyval) :=
  fold_left (fun acc kv => assoc_set (fst kv) (snd kv) acc) more d.

(** [v is not None] *)
Definition not_none (kv : string * pyval) : bool :=
  match snd kv with PNone => false | _ => true end.

(** The entries [get_parser_kwargs] writes for MinerU. *)
Definition mineru_entries (cfg : RAGAnythingCLConfig) : list (string * pyval) :=
  [("backend", mineru_backend cfg);
   ("device", mineru_device cfg);
   ("source", mineru_source cfg);
   ("formula", enable_equation_processing cfg);
   ("table", enable_table_processing cfg)].

Definition get_parser_kwargs (cfg : RAGAnythingCLConfig) : list (string * pyval) :=
  let kwargs := parser_kwargs cfg in
  if is_str_eq "mineru" (parser cfg)
  then List.filter not_none (update kwargs (mineru_entries cfg))
  else kwargs.


(** A configuration for MinerU without a device, whose [parser_kwargs]
    names one. *)
Definition with_device : RAGAnythingCLConfig :=
  {| parser := PStr "mineru";
     mineru_backend := PStr "pipeline";
     mineru_device := PNone;
     mineru_source := PStr "huggingface";
     enable_equation_processing := PBool false;
     enable_table_processing := PBool false;
     parser_kwargs := [("device", PStr "cuda"); ("start_page", PInt 0)] |}.

End Config.

(** ** [ragcl/config.py]: the lines of [RAGAnythingCLConfig.from_env_file]

    [assignment] is what one line of the file makes the loop assign in
    [os.environ]: the key and the value, or nothing for a line the loop
    passes over. *)

Module EnvFile.

(** [line.startswith('#')] *)
Definition is_comment (line : string) : bool :=
  match PyStr.chars line with
  | c :: _ => (PyStr.code c =? 35)%nat
  | [] => false
  end.

Definition is_equals (c : ascii) : bool := (PyStr.code c =? 61)%nat.

(** [line.partition('=')]: what is before the first [=] and what is after
    it; a line without [=] is all before. *)
Fixpoint partition_chars (l : list ascii) : list ascii * list ascii :=
  match l with
  | [] => ([], [])
  | c :: l' =>
      if is_equals c then ([], l')
      else let '(key, value) := partition_chars l' in (c :: key, value)
  end.

Definition assignment (line : string) : option (string * string) :=
  let line := PyStr.strip line in
  if negb (String.eqb line "") && negb (is_comment line) then
    let '(key, value) := partition_chars (PyStr.chars line) in
    Some (PyStr.strip (PyStr.of_chars key), PyStr.strip (PyStr.of_chars value))
  else None.

(** Characters that are all whitespace. *)
Definition blank (l : list ascii) : bool := forallb PyStr.is_space l.

(** Characters with no whitespace at either end. *)
Definition trimmed (l : list ascii) : bool :=
  match l with [] => true | c :: _ => negb (PyStr.is_space c) end
  && match rev l with [] => true | c :: _ => negb (PyStr.is_space c) end.

(** Characters without [=]. *)
Definition no_equals (l : list ascii) : bool := forallb (fun c => negb (is_equals c)) l.

End EnvFile.

(** * Properties *)

(** ** Strings *)

Module StringFacts.

Lemma append_cons (a : ascii) (s t : string) : String a s +:+ t = String a (s +:+ t).
Proof. reflexivity. Qed.



Lemma of_chars_app (a b : list ascii) :
  PyStr.of_chars (a ++ b) = PyStr.of_chars a +:+ PyStr.of_chars b.
Proof.
  induction a as [|c a IH]; [reflexivity|].
  simpl. now rewrite append_cons, IH.
Qed.

Lemma length_of_chars (l : list ascii) : String.length (PyStr.of_chars l) = length l.
Proof. induction l as [|c l IH]; simpl; [reflexivity|]. now rewrite IH. Qed.

Lemma chars_of_chars (l : list ascii) : PyStr.chars (PyStr.of_chars l) = l.
Proof. apply list_ascii_of_string_of_list_ascii. Qed.

Lemma of_chars_chars (s : string) : PyStr.of_chars (PyStr.chars s) = s.
Proof. apply string_of_list_ascii_of_string. Qed.

Lemma length_chars (s : string) : length (PyStr.chars s) = String.length s.
Proof. rewrite <- (of_chars_chars s) at 2. now rewrite length_of_chars. Qed.

End StringFacts.

(** ** The response recoverer *)

Module RecoverFacts.
Import Py.

Section Ordering.

Variable rt : runtime.

(** A value comes out of the candidate list exactly when some candidate
    decodes to it and every candidate before that one fails. *)
Lemma first_parsed_Some (candidates : list string) (v : pyval) :
  Recover.first_parsed rt candidates = Some v <->
  exists before c after,
    candidates = (before ++ c :: after)%list /\
    Forall (fun x => Recover.decode rt x = None) before /\
    Recover.decode rt c = Some v.
Proof.
  induction candidates as [|c rest IH]; simpl.
  - split; [discriminate|].
    intros (before & c & after & Heq & _). destruct before; discriminate.
  - destruct (Recover.decode rt c) as [w|] eqn:Hc.
    + split.
      * intros [= <-]. exists [], c, rest. auto.
      * intros (before & c' & after & Heq & Hbefore & Hc').
        destruct before as [|b before]; simpl in Heq; injection Heq as <- ->.
        -- congruence.
        -- inversion Hbefore; congruence.
    + rewrite IH. split.
      * intros (before & c' & after & -> & Hbefore & Hc').
        exists (c :: before), c', after. auto.
      * intros (before & c' & after & Heq & Hbefore & Hc').
        destruct before as [|b before]; simpl in Heq; injection Heq as <- ->.
        -- congruence.
        -- inversion Hbefore; subst. eauto 6.
Qed.

Lemma first_parsed_None (candidates : list string) :
  Recover.first_parsed rt candidates = None <->
  Forall (fun x => Recover.decode rt x = None) candidates.
Proof.
  induction candidates as [|c rest IH]; simpl.
  - split; auto.
  - destruct (Recover.decode rt c) eqn:Hc.
    + split; [discriminate|]. inversion 1; congruence.
    + rewrite IH. split; [auto|]. inversion 1; auto.
Qed.

(** The candidates of a response, by the strategy that yields them. *)
Lemma json_candidates_split (cb br : Re.re) (response : string) :
  Recover.json_candidates cb br response =
  ([PyStr.strip response] ++ Re.findall true cb response
     ++ Re.findall false br response)%list.
Proof. reflexivity. Qed.

(** A later strategy is only reached when every candidate of the earlier
    ones failed: if the recovered value comes from a fenced block, the
    whole response did not decode; if it comes from a brace span, neither
    the whole response nor any fenced block did. *)
Lemma recovered_order (cb br : Re.re) (response : string) (v : pyval) :
  Recover.recovered rt cb br response = Some v ->
  Recover.decode rt (PyStr.strip response) = Some v
  \/ (Recover.decode rt (PyStr.strip response) = None
      /\ Recover.first_parsed rt (Re.findall true cb response) = Some v)
  \/ (Recover.decode rt (PyStr.strip response) = None
      /\ Recover.first_parsed rt (Re.findall true cb response) = None
      /\ Recover.first_parsed rt (Re.findall false br response) = Some v).
Proof.
  unfold Recover.recovered. destruct (String.eqb response ""); [discriminate|].
  rewrite json_candidates_split. simpl.
  destruct (Recover.decode rt (PyStr.strip response)) as [w|]; [intros [= ->]; auto|].
  intros H. right.
  induction (Re.findall true cb response) as [|c rest IH]; simpl in *.
  - right. auto.
  - destruct (Recover.decode rt c) as [w|].
    + left. auto.
    + destruct (IH H) as [[_ H1]|(_ & H1 & H2)]; [left|right]; auto.
Qed.

End Ordering.

End RecoverFacts.

(** [_parse_llm_response] recovers the record of the example from its fenced
    block, after the whole response failed to decode, and recovers nothing
    from a response without JSON. *)
Lemma parse_llm_response_examples :
  Recover.decode PyModel.python (PyStr.strip Cases.fenced_response) = None /\
  Recover.first_parsed PyModel.python
    (Re.findall true EntityExtractor.code_block_pattern Cases.fenced_response)
  = Some (Py.PDict [("entities", Py.PList [])]) /\
  EntityExtractor.recovered PyModel.python Cases.fenced_response
  = Some (Py.PDict [("entities", Py.PList [])]) /\
  EntityExtractor.recovered PyModel.python "no valid data" = None.
Proof. repeat split; vm_compute; reflexivity. Qed.

(** C1, on the code of [RAGAnythingEntityExtractor._parse_json_response]:
    its two patterns are raw strings with doubled backslashes, so they ask
    for literal backslashes and find neither the fenced block nor the brace
    span of the example; the only candidate is the whole response, which
    does not decode, and the method returns [None] where
    [EntityExtractor._parse_llm_response] returns the record. *)
Theorem parse_json_response_misses_fenced_block :
  Re.findall true RAGAnythingEntityExtractor.code_block_pattern Cases.fenced_response = [] /\
  Re.findall false RAGAnythingEntityExtractor.brace_pattern Cases.fenced_response = [] /\
  RAGAnythingEntityExtractor._parse_json_response PyModel.python (Some Cases.fenced_response)
  = Py.PNone /\
  EntityExtractor._parse_llm_response PyModel.python Cases.fenced_response
  = Py.PDict [("entities", Py.PList [])].
Proof. repeat split; vm_compute; reflexivity. Qed.

(** ** Table rendering *)

Module TableFacts.
Import Py StringFacts.

(** [s[:n]] has at most [n] characters and is the start of [s]. *)
Lemma slice_to_len (n : nat) (s : string) : (PyStr.len (PyStr.slice_to n s) <= n)%nat.
Proof.
  unfold PyStr.len, PyStr.slice_to. rewrite length_of_chars, length_take. lia.
Qed.

Lemma slice_to_prefix (n : nat) (s : string) :
  exists rest, s = PyStr.slice_to n s +:+ rest.
Proof.
  exists (PyStr.of_chars (drop n (PyStr.chars s))). unfold PyStr.slice_to.
  now rewrite <- of_chars_app, take_drop, of_chars_chars.
Qed.

(** The elements a loop runs over after a slice [v[:n]]: at most [n]. *)
Lemma iter_slice_length (n : nat) (v first : pyval) (items : list pyval) :
  py_slice_to n v = Ok first -> py_iter first = Ok items ->
  (length items <= n)%nat.
Proof.
  destruct v; simpl; try discriminate; intros [= <-]; simpl; intros [= <-].
  - unfold PyStr.slice_to. rewrite chars_of_chars, length_map, length_take. lia.
  - rewrite length_take. lia.
Qed.

(** The elements of a sliced list are its first [n] elements. *)
Lemma iter_slice_list (n : nat) (l : list pyval) :
  (let+ first := py_slice_to n (PList l) in py_iter first) = Ok (take n l).
Proof. reflexivity. Qed.

Section Bounds.

Variable rt : runtime.

Lemma row_cells_bounds (cols : nat) (row : pyval) (cells : list string) :
  TableText.row_cells rt cols row = Ok cells ->
  (length cells <= cols)%nat /\ Forall (fun c => (PyStr.len c <= 50)%nat) cells.
Proof.
  unfold TableText.row_cells.
  destruct (py_slice_to cols row) as [first|] eqn:Hs; simpl; [|discriminate].
  destruct (py_iter first) as [items|] eqn:Hi; simpl; [|discriminate].
  intros [= <-]. split.
  - rewrite length_map. eapply iter_slice_length; eauto.
  - apply Forall_map, Forall_forall. intros x _. apply slice_to_len.
Qed.

Lemma table_cells_bounds (cols : nat) (rows : list pyval) (out : list (list string)) :
  TableText.table_cells rt cols rows = Ok out ->
  length out = length rows /\
  Forall (fun cells => (length cells <= cols)%nat
                       /\ Forall (fun c => (PyStr.len c <= 50)%nat) cells) out.
Proof.
  revert out. induction rows as [|row rest IH]; simpl; intros out.
  - intros [= <-]. auto.
  - destruct (TableText.row_cells rt cols row) as [cells|] eqn:Hr; simpl; [|discriminate].
    destruct (TableText.table_cells rt cols rest) as [more|]; simpl; [|discriminate].
    intros [= <-]. destruct (IH more eq_refl) as [Hl Hf]. split.
    + simpl. now rewrite Hl.
    + constructor; [now apply row_cells_bounds with row|assumption].
Qed.

(** Whatever the table, the rendering keeps at most [rows] rows, at most
    [cols] cells in each and at most 50 characters in each cell. *)
Lemma rendered_cells_bounds (rows cols : nat) (table_body : pyval)
  (out : list (list string)) :
  TableText.rendered_cells rt rows cols table_body = Ok out ->
  (length out <= rows)%nat /\
  Forall (fun cells => (length cells <= cols)%nat
                       /\ Forall (fun c => (PyStr.len c <= 50)%nat) cells) out.
Proof.
  unfold TableText.rendered_cells.
  destruct (py_slice_to rows table_body) as [first|] eqn:Hs; simpl; [|discriminate].
  destruct (py_iter first) as [items|] eqn:Hi; simpl; [|discriminate].
  intros H. destruct (table_cells_bounds _ _ _ H) as [Hl Hf]. split; [|assumption].
  rewrite Hl. eapply iter_slice_length; eauto.
Qed.

(** On a table given as a list of rows, each a list of cells, the cells
    rendered are the first [cols] cells of the first [rows] rows, each cut
    to 50 characters. *)
Lemma rendered_cells_lists (rows cols : nat) (table : list (list pyval)) :
  TableText.rendered_cells rt rows cols (PList (map PList table)) =
  Ok (map (fun row => map (fun cell => PyStr.slice_to 50 (py_str rt cell)) (take cols row))
        (take rows table)).
Proof.
  unfold TableText.rendered_cells. simpl. rewrite firstn_map.
  induction (take rows table) as [|row rest IH]; simpl; [reflexivity|].
  now rewrite IH.
Qed.

End Bounds.

End TableFacts.

(** [RAGAnythingEntityExtractor._format_table_data] keeps at most 10 rows,
    8 cells a row and 50 characters a cell, and renders exactly those. *)
Lemma format_table_data_bounds (rt : Py.runtime) (table_body : Py.pyval) :
  Py.truthy table_body = true ->
  (exists cells,
      TableText.rendered_cells rt 10 8 table_body = Py.Ok cells /\
      RAGAnythingEntityExtractor._format_table_data rt table_body
      = Py.Ok (TableText.render_rows cells) /\
      (length cells <= 10)%nat /\
      Forall (fun row => (length row <= 8)%nat
                         /\ Forall (fun c => (PyStr.len c <= 50)%nat) row) cells)
  \/ (exists e, RAGAnythingEntityExtractor._format_table_data rt table_body = Py.Raise e).
Proof.
  intros Ht. unfold RAGAnythingEntityExtractor._format_table_data, TableText.format_table.
  rewrite Ht. destruct (TableText.rendered_cells rt 10 8 table_body) as [cells|e] eqn:H.
  - left. exists cells. simpl. destruct (TableFacts.rendered_cells_bounds _ _ _ _ _ H).
    auto.
  - right. exists e. reflexivity.
Qed.

(** C3, on the code of [EntityExtractor._format_table_for_llm]: the row
    slice is [row[:10]], so a row of nine columns is rendered with all
    nine, where [_format_table_data] keeps eight. *)
Theorem format_table_for_llm_emits_nine_columns :
  TableText.rendered_cells PyModel.python 10 10 Cases.nine_columns
  = Py.Ok [["a"; "b"; "c"; "d"; "e"; "f"; "g"; "h"; "i"]] /\
  EntityExtractor._format_table_for_llm PyModel.python Cases.nine_columns
  = Py.Ok (TableText.row_label +:+ "1: a | b | c | d | e | f | g | h | i") /\
  RAGAnythingEntityExtractor._format_table_data PyModel.python Cases.nine_columns
  = Py.Ok (TableText.row_label +:+ "1: a | b | c | d | e | f | g | h").
Proof. repeat split; vm_compute; reflexivity. Qed.

(** ** Dictionaries *)

Module DictFacts.
Import Py.

Lemma assoc_get_set_eq (k : string) (v : pyval) (d : list (string * pyval)) :
  assoc_get k (assoc_set k v d) = Some v.
Proof.
  induction d as [|[k' v'] d IH]; simpl.
  - now rewrite String.eqb_refl.
  - destruct (String.eqb k k') eqn:E; simpl; rewrite ?String.eqb_refl, ?E; auto.
Qed.

Lemma assoc_get_set_ne (k k' : string) (v : pyval) (d : list (string * pyval)) :
  k <> k' -> assoc_get k' (assoc_set k v d) = assoc_get k' d.
Proof.
  intros Hne. induction d as [|[k0 v0] d IH]; simpl.
  - destruct (String.eqb k' k) eqn:E; [|reflexivity].
    apply String.eqb_eq in E. congruence.
  - destruct (String.eqb k k0) eqn:E; simpl.
    + apply String.eqb_eq in E. subst k0.
      destruct (String.eqb k' k) eqn:E'; [|reflexivity].
      apply String.eqb_eq in E'. congruence.
    + now rewrite IH.
Qed.

Lemma dict_get_set_eq (k : string) (v dflt : pyval) (d : list (string * pyval)) :
  dict_get k dflt (assoc_set k v d) = v.
Proof. unfold dict_get. now rewrite assoc_get_set_eq. Qed.

Lemma dict_get_set_ne (k k' : string) (v dflt : pyval) (d : list (string * pyval)) :
  k <> k' -> dict_get k' dflt (assoc_set k v d) = dict_get k' dflt d.
Proof. intros. unfold dict_get. now rewrite assoc_get_set_ne. Qed.

End DictFacts.

(** ** The merger of text blocks *)

Module MergeFacts.
Import Py Cases DictFacts.

Lemma mergeable_inv (b : pyval) :
  mergeable b = true ->
  exists d s, b = PDict d /\ assoc_get "text" d = Some (PStr s) /\
              (assoc_get "merged_blocks" d = None
               \/ exists l, assoc_get "merged_blocks" d = Some (PList l)).
Proof.
  destruct b as [| | | | |l|d]; simpl; try discriminate.
  destruct (assoc_get "text" d) as [[| | | |s| |]|] eqn:Ht; try discriminate.
  destruct (assoc_get "merged_blocks" d) as [[| | | | |l|]|] eqn:Hm; try discriminate;
    intros _; exists d, s; eauto.
Qed.

Lemma unit_text_mergeable (d : list (string * pyval)) (s : string) :
  assoc_get "text" d = Some (PStr s) -> unit_text (PDict d) = s.
Proof. intros H. unfold unit_text, text_of. now rewrite H. Qed.

(** What absorbing a block does to the accumulator: the text grows by a
    newline and the stripped text of the block, the subsumed indices by the
    index of the block, and the index of the unit stays. *)
Lemma absorb_spec (c b : pyval) :
  mergeable c = true ->
  mergeable (absorb c b) = true /\
  unit_text (absorb c b) = unit_text c +:+ PyStr.nl +:+ PyStr.strip (unit_text b) /\
  subsumed (absorb c b) = (subsumed c ++ [block_index_of b])%list /\
  block_index_of (absorb c b) = block_index_of c.
Proof.
  intros Hc. destruct (mergeable_inv c Hc) as (d & s & -> & Ht & Hm).
  unfold absorb. repeat split.
  - simpl. rewrite assoc_get_set_ne, assoc_get_set_eq by discriminate.
    now rewrite assoc_get_set_eq.
  - unfold unit_text at 1, text_of.
    now rewrite assoc_get_set_ne, assoc_get_set_eq by discriminate.
  - unfold subsumed at 1. now rewrite assoc_get_set_eq.
  - unfold block_index_of. now rewrite !dict_get_set_ne by discriminate.
Qed.

(** The three cases of one turn of the loop. *)
Lemma merge_step_first (merged : list pyval) (b : pyval) :
  mergeable b = true ->
  EntityExtractor.merge_step (merged, None) b = Ok (merged, Some b).
Proof.
  intros Hb. destruct (mergeable_inv b Hb) as (d & s & -> & Ht & _).
  unfold EntityExtractor.merge_step. simpl. unfold dict_get. now rewrite Ht.
Qed.

Lemma merge_step_flush (merged : list pyval) (c b : pyval) :
  mergeable b = true -> (200 <= trimmed_len b)%nat ->
  EntityExtractor.merge_step (merged, Some c) b = Ok ((merged ++ [c])%list, Some b).
Proof.
  intros Hb Hlen. destruct (mergeable_inv b Hb) as (d & s & -> & Ht & _).
  unfold trimmed_len in Hlen. rewrite (unit_text_mergeable _ _ Ht) in Hlen.
  unfold EntityExtractor.merge_step. simpl. unfold dict_get. rewrite Ht. simpl.
  destruct (Nat.ltb_spec (PyStr.len (PyStr.strip s)) 200); [lia|reflexivity].
Qed.

Lemma merge_step_absorb (merged : list pyval) (c b : pyval) :
  mergeable c = true -> mergeable b = true -> (trimmed_len b < 200)%nat ->
  EntityExtractor.merge_step (merged, Some c) b = Ok (merged, Some (absorb c b)).
Proof.
  intros Hc Hb Hlen.
  destruct (mergeable_inv b Hb) as (d & s & -> & Ht & _).
  destruct (mergeable_inv c Hc) as (dc & sc & -> & Htc & Hmc).
  unfold trimmed_len in Hlen. rewrite (unit_text_mergeable _ _ Ht) in Hlen.
  unfold EntityExtractor.merge_step, absorb.
  rewrite (unit_text_mergeable _ _ Ht), (unit_text_mergeable _ _ Htc).
  simpl. unfold dict_get at 1. rewrite Ht. simpl.
  destruct (Nat.ltb_spec (PyStr.len (PyStr.strip s)) 200); [|lia].
  rewrite Htc. simpl. unfold dict_get at 1.
  rewrite assoc_get_set_ne by discriminate.
  destruct Hmc as [Hm|[l Hm]]; rewrite Hm; reflexivity.
Qed.

Lemma merge_loop_cons (st : list pyval * option pyval) (b : pyval) (rest : list pyval) :
  EntityExtractor.merge_loop st (b :: rest) =
  (let+ st' := EntityExtractor.merge_step st b in EntityExtractor.merge_loop st' rest).
Proof. reflexivity. Qed.



(** The loop over a list that is cut in two. *)
Lemma merge_loop_app (a b : list pyval) (st : list pyval * option pyval) :
  EntityExtractor.merge_loop st (a ++ b) =
  (let+ st' := EntityExtractor.merge_loop st a in EntityExtractor.merge_loop st' b).
Proof.
  revert st. induction a as [|x a IH]; intros st; [reflexivity|].
  rewrite <- app_comm_cons, !merge_loop_cons.
  destruct (EntityExtractor.merge_step st x); cbn [obind]; auto.
Qed.

(** The units flushed so far are a prefix of those flushed at the end. *)
Lemma merge_loop_keeps (blocks merged merged' : list pyval) (cur cur' : option pyval) :
  EntityExtractor.merge_loop (merged, cur) blocks = Ok (merged', cur') ->
  exists more, merged' = (merged ++ more)%list.
Proof.
  revert merged cur. induction blocks as [|b rest IH]; intros merged cur.
  - intros [= <- <-]. exists []. now rewrite app_nil_r.
  - rewrite merge_loop_cons.
    destruct (EntityExtractor.merge_step (merged, cur) b) as [[m1 c1]|] eqn:Hs;
      cbn [obind]; [|discriminate].
    intros H. destruct (IH _ _ H) as [more ->].
    assert (exists x, m1 = (merged ++ x)%list) as [x ->].
    { unfold EntityExtractor.merge_step in Hs.
      destruct (py_get b "text" (PStr "")) as [raw|]; simpl in Hs; [|discriminate].
      destruct (py_strip raw) as [text|]; simpl in Hs; [|discriminate].
      destruct cur as [c|]; [|injection Hs as <- _; exists []; now rewrite app_nil_r].
      destruct (PyStr.len text <? 200)%nat;
        [|injection Hs as <- _; eexists; reflexivity].
      destruct (py_getitem c "text") as [old|]; simpl in Hs; [|discriminate].
      destruct (py_iadd_str old _) as [new|]; simpl in Hs; [|discriminate].
      destruct (py_setitem c "text" new) as [cur1|]; simpl in Hs; [|discriminate].
      destruct (py_get cur1 "merged_blocks" _) as [mb|]; simpl in Hs; [|discriminate].
      destruct (py_get b "block_index" _) as [bi|]; simpl in Hs; [|discriminate].
      destruct (py_add_list mb _) as [mb'|]; simpl in Hs; [|discriminate].
      destruct (py_setitem cur1 "merged_blocks" mb') as [cur2|]; simpl in Hs;
        [|discriminate].
      injection Hs as <- _. exists []. now rewrite app_nil_r. }
    exists (x ++ more)%list. now rewrite app_assoc.
Qed.

End MergeFacts.




(** ** Runs of the service monad *)

Module ServiceFacts.
Import Py Service.

Lemma bind_Ok {A B} (m : M A) (f : A -> M B) (tr tr' : trace) (b : B) :
  bind m f tr = (Ok b, tr') ->
  exists a tr1, m tr = (Ok a, tr1) /\ f a tr1 = (Ok b, tr').
Proof.
  unfold bind. destruct (m tr) as [[a|e] tr1]; [eauto|discriminate].
Qed.

Lemma bind_run {A B} (m : M A) (f : A -> M B) (tr tr1 : trace) (a : A) :
  m tr = (Ok a, tr1) -> bind m f tr = f a tr1.
Proof. unfold bind. now intros ->. Qed.

Lemma bind_raise {A B} (m : M A) (f : A -> M B) (tr tr1 : trace) (e : exn) :
  m tr = (Raise e, tr1) -> bind m f tr = (Raise e, tr1).
Proof. unfold bind. now intros ->. Qed.

Lemma ret_Ok {A} (a b : A) (tr tr' : trace) :
  ret a tr = (Ok b, tr') -> a = b /\ tr = tr'.
Proof. unfold ret. now intros [= -> ->]. Qed.

(** A handler that returns makes the whole [try] return. *)
Lemma catch_ret_total {A} (m : M A) (h : exn -> A) (tr : trace) :
  exists a tr', catch m (fun e => ret (h e)) tr = (Ok a, tr').
Proof.
  unfold catch. destruct (m tr) as [[a|e] tr']; unfold ret; eauto.
Qed.

(** The trace only grows. *)
Definition extends (tr tr' : trace) : Prop := exists more, tr' = (tr ++ more)%list.

Lemma extends_refl (tr : trace) : extends tr tr.
Proof. exists []. now rewrite app_nil_r. Qed.

Lemma extends_trans (a b c : trace) : extends a b -> extends b c -> extends a c.
Proof. intros [x ->] [y ->]. exists (x ++ y)%list. now rewrite app_assoc. Qed.

End ServiceFacts.

(** ** The statistics of a result *)

Module ResultFacts.
Import Py Service Cases ServiceFacts.

Lemma error_result_shaped (rt : runtime) (e : exn) :
  error_shaped (EntityExtractor.error_result rt e) /\
  error_shaped (RAGAnythingEntityExtractor.error_result rt e) /\
  error_shaped (LightRAGEntityExtractor.error_result rt e).
Proof. repeat split; eexists; reflexivity. Qed.

Section Shapes.

Variable rt : runtime.
Variable has_client : bool.
Variable llm : nat -> string -> option string.

Lemma extract_classified_counted (h : gmap Heap.loc pyval)
  (content_list text_blocks table_blocks : list Heap.loc) (extract_relations : bool)
  (tr tr' : trace) (r : pyval) :
  EntityExtractor.extract_classified rt has_client llm h content_list
    text_blocks table_blocks extract_relations tr = (Ok r, tr') ->
  counted r.
Proof.
  unfold EntityExtractor.extract_classified. intros H.
  apply bind_Ok in H as (text_found & tr1 & _ & H).
  apply bind_Ok in H as (table_found & tr2 & _ & H).
  apply bind_Ok in H as (doc & tr3 & _ & H).
  apply bind_Ok in H as (rels & tr4 & _ & H).
  apply ret_Ok in H as [<- _].
  exists (text_found ++ table_found)%list, rels, doc. eexists.
  split; [reflexivity|]. split; reflexivity.
Qed.

Lemma entity_extractor_counted (h : gmap Heap.loc pyval) (content_list : list Heap.loc)
  (extract_relations : bool) (tr tr' : trace) (r : pyval) :
  snd (EntityExtractor.extract_entities_from_content_list rt has_client llm
         h content_list extract_relations) tr = (Ok r, tr') ->
  counted r.
Proof.
  unfold EntityExtractor.extract_entities_from_content_list.
  destruct (EntityExtractor.classify h content_list) as [[h' tb] tab]. simpl.
  apply extract_classified_counted.
Qed.

Lemma raganything_counted (content_list : list pyval) (extract_relations : bool)
  (tr tr' : trace) (r : pyval) :
  RAGAnythingEntityExtractor.extract_entities_from_content_list rt has_client llm
    content_list extract_relations tr = (Ok r, tr') ->
  counted r.
Proof.
  unfold RAGAnythingEntityExtractor.extract_entities_from_content_list. intros H.
  apply bind_Ok in H as (found & tr1 & _ & H).
  apply bind_Ok in H as (doc & tr2 & _ & H).
  apply ret_Ok in H as [<- _].
  exists (fst found), (snd found), doc. eexists.
  split; [reflexivity|]. split; reflexivity.
Qed.

Lemma lightrag_counted (mdhash : string -> string) (lightrag : pyval -> option pyval)
  (content_list : list pyval) (r : pyval) :
  LightRAGEntityExtractor.extraction rt mdhash lightrag content_list = Ok r ->
  counted r.
Proof.
  unfold LightRAGEntityExtractor.extraction.
  destruct (LightRAGEntityExtractor._convert_to_lightrag_chunks rt mdhash content_list)
    as [chunks|]; cbn [obind]; [|discriminate].
  destruct (LightRAGEntityExtractor._process_chunk_results rt _) as [found|];
    cbn [obind]; [|discriminate].
  destruct (LightRAGEntityExtractor._analyze_document_structure rt content_list)
    as [doc|]; cbn [obind]; [|discriminate].
  intros [= <-]. exists (fst found), (snd found), doc. eexists.
  split; [reflexivity|]. split; reflexivity.
Qed.

End Shapes.

End ResultFacts.

(** C4.  Whatever the content list, the runtime and the answers of the
    service, a result that an extraction run returns carries statistics
    whose [total_entities] and [total_relationships] are the lengths of its
    [entities] and [relationships]; when the run fails, the synchronous
    entry point (for the LightRAG variant the entry point itself) returns
    instead the result with empty sequences and the single statistic
    [error]. *)
Theorem statistics_count_the_sequences (rt : Py.runtime) (has_client : bool)
  (llm : nat -> string -> option string)
  (mdhash : string -> string) (lightrag : Py.pyval -> option Py.pyval)
  (h : gmap Heap.loc Py.pyval) (content_list : list Heap.loc)
  (values : list Py.pyval) (extract_relations : bool) (tr : Service.trace) :
  (* EntityExtractor *)
  match snd (EntityExtractor.extract_entities_from_content_list rt has_client llm
               h content_list extract_relations) tr with
  | (Py.Ok r, _) => Cases.counted r
  | (Py.Raise _, _) => True
  end /\
  match snd (EntityExtractor.extract_entities_from_content_list rt has_client llm
               h content_list true) tr,
        snd (EntityExtractor.extract_entities_sync rt has_client llm h content_list) tr
  with
  | (Py.Ok r, _), (r', _) => r' = Py.Ok r /\ Cases.counted r
  | (Py.Raise e, _), (r', _) =>
      r' = Py.Ok (EntityExtractor.error_result rt e)
      /\ Cases.error_shaped (EntityExtractor.error_result rt e)
  end /\
  (* RAGAnythingEntityExtractor *)
  match RAGAnythingEntityExtractor.extract_entities_from_content_list rt has_client llm
          values true tr,
        RAGAnythingEntityExtractor.extract_entities_sync rt has_client llm values tr
  with
  | (Py.Ok r, _), (r', _) => r' = Py.Ok r /\ Cases.counted r
  | (Py.Raise e, _), (r', _) =>
      r' = Py.Ok (RAGAnythingEntityExtractor.error_result rt e)
      /\ Cases.error_shaped (RAGAnythingEntityExtractor.error_result rt e)
  end /\
  (* LightRAGEntityExtractor *)
  match LightRAGEntityExtractor.extraction rt mdhash lightrag values with
  | Py.Ok r =>
      LightRAGEntityExtractor.extract_entities_from_content_list rt mdhash lightrag
        values extract_relations = r /\ Cases.counted r
  | Py.Raise e =>
      LightRAGEntityExtractor.extract_entities_from_content_list rt mdhash lightrag
        values extract_relations = LightRAGEntityExtractor.error_result rt e
      /\ Cases.error_shaped (LightRAGEntityExtractor.error_result rt e)
  end.
Proof.
  repeat split.
  - destruct (snd (EntityExtractor.extract_entities_from_content_list rt has_client llm
                    h content_list extract_relations) tr) as [[r|e] tr'] eqn:H;
      [|exact I].
    eapply ResultFacts.entity_extractor_counted; eauto.
  - unfold EntityExtractor.extract_entities_sync.
    destruct (EntityExtractor.extract_entities_from_content_list rt has_client llm
                h content_list true) as [h' run] eqn:Hrun.
    cbn [snd]. unfold Service.catch.
    destruct (run tr) as [[r|e] tr'] eqn:H.
    + split; [reflexivity|].
      eapply (ResultFacts.entity_extractor_counted rt has_client llm h content_list true).
      rewrite Hrun. exact H.
    + split; [reflexivity|]. apply ResultFacts.error_result_shaped.
  - unfold RAGAnythingEntityExtractor.extract_entities_sync, Service.catch.
    destruct (RAGAnythingEntityExtractor.extract_entities_from_content_list _ _ _ _ _ tr)
      as [[r|e] tr'] eqn:H.
    + split; [reflexivity|]. eapply ResultFacts.raganything_counted; eauto.
    + split; [reflexivity|]. apply ResultFacts.error_result_shaped.
  - unfold LightRAGEntityExtractor.extract_entities_from_content_list.
    destruct (LightRAGEntityExtractor.extraction rt mdhash lightrag values) as [r|e] eqn:H.
    + split; [reflexivity|]. eapply ResultFacts.lightrag_counted; eauto.
    + split; [reflexivity|]. apply ResultFacts.error_result_shaped.
Qed.

(** ** The classification loop and the heap *)

Module ClassifyFacts.
Import Py Heap Cases DictFacts.

Lemma assoc_set_set (k : string) (v w : pyval) (d : list (string * pyval)) :
  assoc_set k w (assoc_set k v d) = assoc_set k w d.
Proof.
  induction d as [|[k' v'] d IH]; simpl.
  - now rewrite String.eqb_refl.
  - destruct (String.eqb k k') eqn:E; simpl; rewrite ?String.eqb_refl, ?E; congruence.
Qed.

Lemma indexed_indexed (i j : nat) (o : option pyval) :
  indexed j (indexed i o) = indexed j o.
Proof.
  destruct o as [[| | | | | |d]|]; simpl; try reflexivity.
  now rewrite assoc_set_set.
Qed.

(** One turn of the loop changes the heap at the block it visits, and only
    when that block is a dict. *)
Lemma classify_step_heap (i : nat) (x : loc) (st : gmap loc pyval * list loc * list loc)
  (l : loc) :
  fst (fst (EntityExtractor.classify_step i x st)) !! l
  = if decide (l = x) then indexed i (fst (fst st) !! l) else fst (fst st) !! l.
Proof.
  destruct st as [[h tb] tab]. unfold EntityExtractor.classify_step. cbn [fst].
  destruct (h !! x) as [[| | | | | |d]|] eqn:Hx;
    try (cbn [fst]; destruct (decide (l = x)) as [->|]; [rewrite Hx|]; reflexivity).
  assert (fst (fst (if is_str_eq "text" (dict_get "type" (PStr "unknown") d)
                    then (<[x:=PDict (assoc_set "block_index" (PInt (Z.of_nat i)) d)]> h,
                          (tb ++ [x])%list, tab)
                    else if is_str_eq "table" (dict_get "type" (PStr "unknown") d)
                         then (<[x:=PDict (assoc_set "block_index" (PInt (Z.of_nat i)) d)]> h,
                               tb, (tab ++ [x])%list)
                         else (<[x:=PDict (assoc_set "block_index" (PInt (Z.of_nat i)) d)]> h,
                               tb, tab)))
          = <[x:=PDict (assoc_set "block_index" (PInt (Z.of_nat i)) d)]> h) as ->.
  { destruct (is_str_eq "text" _); [reflexivity|].
    destruct (is_str_eq "table" _); reflexivity. }
  destruct (decide (l = x)) as [->|Hne].
  - rewrite lookup_insert_eq, Hx. reflexivity.
  - now rewrite lookup_insert_ne.
Qed.

Lemma classify_loop_heap (content_list : list loc) (i : nat)
  (st : gmap loc pyval * list loc * list loc) (l : loc) :
  fst (fst (EntityExtractor.classify_loop i content_list st)) !! l
  = match last_pos l content_list with
    | Some j => indexed (i + j) (fst (fst st) !! l)
    | None => fst (fst st) !! l
    end.
Proof.
  revert i st. induction content_list as [|x rest IH]; intros i st; simpl.
  - reflexivity.
  - rewrite IH, classify_step_heap.
    destruct (last_pos l rest) as [j|].
    + replace (i + S j)%nat with (S (i + j)) by lia.
      destruct (decide (l = x)); [apply indexed_indexed|reflexivity].
    + destruct (decide (l = x)); [rewrite Nat.add_0_r|]; reflexivity.
Qed.

(** The heap the call leaves: every object of the list that is a dict has
    the last of its positions as [block_index]; nothing else changes. *)
Lemma classify_heap (h : gmap loc pyval) (content_list : list loc) (l : loc) :
  fst (fst (EntityExtractor.classify h content_list)) !! l
  = match last_pos l content_list with
    | Some j => indexed j (h !! l)
    | None => h !! l
    end.
Proof. unfold EntityExtractor.classify. now rewrite classify_loop_heap. Qed.

Lemma last_pos_lookup (l : loc) (content_list : list loc) (j : nat) :
  last_pos l content_list = Some j -> content_list !! j = Some l.
Proof.
  revert j. induction content_list as [|x rest IH]; intros j; simpl; [discriminate|].
  destruct (last_pos l rest) as [j'|].
  - intros [= <-]. now apply IH.
  - destruct (decide (l = x)) as [->|]; [|discriminate]. now intros [= <-].
Qed.

Lemma last_pos_None (l : loc) (content_list : list loc) :
  last_pos l content_list = None <-> ~ In l content_list.
Proof.
  induction content_list as [|x rest IH]; simpl; [tauto|].
  destruct (last_pos l rest) as [j|] eqn:Hrest.
  - apply last_pos_lookup in Hrest.
    assert (In l rest) by (apply list_elem_of_In, list_elem_of_lookup; eauto).
    split; [discriminate|tauto].
  - destruct (decide (l = x)) as [->|Hne].
    + split; [discriminate|tauto].
    + split; [|reflexivity]. intros _ [->|Hin]; [congruence|].
      now apply (proj1 IH).
Qed.

(** An element that occurs once is indexed by its position. *)
Lemma last_pos_NoDup (l : loc) (content_list : list loc) (i : nat) :
  List.NoDup content_list -> content_list !! i = Some l ->
  last_pos l content_list = Some i.
Proof.
  intros Hnd. revert i. induction Hnd as [|x rest Hx Hnd IH]; intros i; [discriminate|].
  destruct i as [|i]; simpl.
  - intros [= ->]. apply last_pos_None in Hx. rewrite Hx.
    now destruct (decide (l = l)).
  - intros Hi. now rewrite (IH i Hi).
Qed.

End ClassifyFacts.

(** C9, as amended.  The call leaves the content list as it is and changes
    the heap in one way: every object of the list that is a dict has its
    [block_index] set to the last position at which the list holds it,
    which is its position when the list holds it once.  Every other key of
    such a dict, every object that is not a dict and every object outside
    the list is as before; the merger works on copies. *)
Theorem block_index_is_last_position (rt : Py.runtime) (has_client : bool)
  (llm : nat -> string -> option string) (h : gmap Heap.loc Py.pyval)
  (content_list : list Heap.loc) (extract_relations : bool) :
  let h' := fst (EntityExtractor.extract_entities_from_content_list rt has_client llm
                   h content_list extract_relations) in
  (forall l, h' !! l = match Cases.last_pos l content_list with
                       | Some j => Cases.indexed j (h !! l)
                       | None => h !! l
                       end) /\
  (forall l i, List.NoDup content_list -> content_list !! i = Some l ->
               h' !! l = Cases.indexed i (h !! l)) /\
  (forall l, ~ In l content_list -> h' !! l = h !! l) /\
  (forall l, Py.is_dict (Heap.deref h l) = false -> h' !! l = h !! l) /\
  (forall j d k, k <> "block_index" ->
     Py.assoc_get k (Py.assoc_set "block_index" (Py.PInt (Z.of_nat j)) d) = Py.assoc_get k d) /\
  (forall j d,
     Py.assoc_get "block_index" (Py.assoc_set "block_index" (Py.PInt (Z.of_nat j)) d)
     = Some (Py.PInt (Z.of_nat j))).
Proof.
  assert (forall l,
    fst (EntityExtractor.extract_entities_from_content_list rt has_client llm
           h content_list extract_relations) !! l
    = match Cases.last_pos l content_list with
      | Some j => Cases.indexed j (h !! l)
      | None => h !! l
      end) as Hheap.
  { intros l. rewrite <- ClassifyFacts.classify_heap.
    unfold EntityExtractor.extract_entities_from_content_list.
    now destruct (EntityExtractor.classify h content_list) as [[h1 tb] tab]. }
  cbv zeta. repeat split.
  - exact Hheap.
  - intros l i Hnd Hi. rewrite Hheap.
    now rewrite (ClassifyFacts.last_pos_NoDup l content_list i Hnd Hi).
  - intros l Hl. rewrite Hheap.
    now rewrite (proj2 (ClassifyFacts.last_pos_None l content_list) Hl).
  - intros l Hl. rewrite Hheap. unfold Heap.deref in Hl.
    destruct (Cases.last_pos l content_list); [|reflexivity].
    destruct (h !! l) as [[| | | | | |d]|]; try reflexivity. discriminate.
  - intros j d k Hk. apply DictFacts.assoc_get_set_ne. congruence.
  - intros j d. apply DictFacts.assoc_get_set_eq.
Qed.

(** C9, as stated, fails when the list holds one dict twice: the object
    ends with the later position as [block_index], so the element at
    position 0 does not carry 0. *)
Lemma aliased_block_counterexample :
  ~ Cases.indexed_by_position Cases.one_block_heap Cases.same_block_twice
      (fst (EntityExtractor.extract_entities_from_content_list PyModel.python true
              Cases.silent Cases.one_block_heap Cases.same_block_twice true)).
Proof.
  intros H.
  destruct (H 0%nat 0%nat [("type", Py.PStr "text"); ("text", Py.PStr "shared")]
              eq_refl eq_refl) as (d' & Hd' & Hi).
  vm_compute in Hd'. injection Hd' as <-. vm_compute in Hi. discriminate Hi.
Qed.

(** ** Elements of the content list that are not dicts *)

Module SkipFacts.
Import Py Service Heap Cases.

Lemma same_dicts_refl (v : pyval) : same_dicts v v.
Proof. now left. Qed.

Lemma same_dicts_is_dict (v v' : pyval) :
  same_dicts v v' -> is_dict v = is_dict v'.
Proof. intros [->|[-> ->]]; reflexivity. Qed.

Lemma same_dicts_dict (v v' : pyval) :
  same_dicts v v' -> is_dict v = true -> v = v'.
Proof. intros [->|[H _]] Hd; [reflexivity|congruence]. Qed.

Lemma deref_dict (h : gmap loc pyval) (l : loc) (d : list (string * pyval)) :
  deref h l = PDict d <-> h !! l = Some (PDict d).
Proof.
  unfold deref. destruct (h !! l) as [v|]; split; intros H; try discriminate.
  - now subst.
  - now injection H.
Qed.

Lemma deref_insert (h : gmap loc pyval) (x l : loc) (v : pyval) :
  deref (<[x := v]> h) l = if decide (l = x) then v else deref h l.
Proof.
  unfold deref. destruct (decide (l = x)) as [->|Hne].
  - now rewrite lookup_insert_eq.
  - now rewrite lookup_insert_ne.
Qed.

(** A block that is not a dict is passed over by the classification loop:
    no index, no place among the text or table blocks. *)
Lemma classify_step_skip (i : nat) (x : loc) (st : gmap loc pyval * list loc * list loc) :
  is_dict (deref (fst (fst st)) x) = false ->
  EntityExtractor.classify_step i x st = st.
Proof.
  destruct st as [[h tb] tab]. unfold EntityExtractor.classify_step, deref. cbn [fst].
  destruct (h !! x) as [[| | | | | |d]|]; try reflexivity. discriminate.
Qed.

(** On a dict the step is determined by the dict. *)
Lemma classify_step_dict (i : nat) (x : loc) (h : gmap loc pyval) (tb tab : list loc)
  (d : list (string * pyval)) :
  deref h x = PDict d ->
  EntityExtractor.classify_step i x (h, tb, tab)
  = (<[x := PDict (assoc_set "block_index" (PInt (Z.of_nat i)) d)]> h,
     if is_str_eq "text" (dict_get "type" (PStr "unknown") d)
     then (tb ++ [x])%list else tb,
     if is_str_eq "text" (dict_get "type" (PStr "unknown") d) then tab
     else if is_str_eq "table" (dict_get "type" (PStr "unknown") d)
          then (tab ++ [x])%list else tab).
Proof.
  intros H. apply deref_dict in H. unfold EntityExtractor.classify_step. rewrite H.
  destruct (is_str_eq "text" _); [reflexivity|].
  destruct (is_str_eq "table" _); reflexivity.
Qed.

Lemma classify_step_same (i : nat) (x : loc) (h1 h2 : gmap loc pyval) (tb tab : list loc) :
  heaps_same_dicts h1 h2 ->
  exists h1' h2' tb' tab',
    EntityExtractor.classify_step i x (h1, tb, tab) = (h1', tb', tab') /\
    EntityExtractor.classify_step i x (h2, tb, tab) = (h2', tb', tab') /\
    heaps_same_dicts h1' h2' /\
    (forall l, is_dict (deref h1 l) = true -> is_dict (deref h1' l) = true) /\
    (forall l, In l tb' -> In l tb \/ is_dict (deref h1' l) = true) /\
    (forall l, In l tab' -> In l tab \/ is_dict (deref h1' l) = true).
Proof.
  intros Hrel. destruct (deref h1 x) as [| | | | | |d] eqn:Hx.
  7: {
    assert (deref h2 x = PDict d) as Hx2.
    { rewrite <- Hx. symmetry. apply same_dicts_dict; [apply Hrel|now rewrite Hx]. }
    rewrite (classify_step_dict i x h1 tb tab d Hx).
    rewrite (classify_step_dict i x h2 tb tab d Hx2).
    do 4 eexists. split; [reflexivity|]. split; [reflexivity|].
    assert (forall l, is_dict (deref (<[x:=PDict (assoc_set "block_index"
                                                   (PInt (Z.of_nat i)) d)]> h1) l) = true
                      \/ l <> x) as Hnew.
    { intros l. rewrite deref_insert. destruct (decide (l = x)); auto. }
    repeat split.
    - intros l. rewrite !deref_insert. destruct (decide (l = x)); [now left|apply Hrel].
    - intros l Hl. rewrite deref_insert. destruct (decide (l = x)); auto.
    - intros l Hl. destruct (is_str_eq "text" _); [|now left].
      apply in_app_or in Hl as [Hl|[<-|[]]]; [now left|right].
      rewrite deref_insert. now destruct (decide (x = x)).
    - intros l Hl. destruct (is_str_eq "text" _); [now left|].
      destruct (is_str_eq "table" _); [|now left].
      apply in_app_or in Hl as [Hl|[<-|[]]]; [now left|right].
      rewrite deref_insert. now destruct (decide (x = x)). }
  all: assert (is_dict (deref h2 x) = false)
         by (rewrite <- (same_dicts_is_dict _ _ (Hrel x)), Hx; reflexivity).
  all: rewrite (classify_step_skip i x (h1, tb, tab)) by (cbn [fst]; now rewrite Hx).
  all: rewrite (classify_step_skip i x (h2, tb, tab)) by (cbn [fst]; assumption).
  all: exists h1, h2, tb, tab; repeat split; auto.
Qed.

Lemma classify_loop_same (content_list : list loc) (i : nat) (h1 h2 : gmap loc pyval)
  (tb tab : list loc) :
  heaps_same_dicts h1 h2 ->
  (forall l, In l tb \/ In l tab -> is_dict (deref h1 l) = true) ->
  exists h1' h2' tb' tab',
    EntityExtractor.classify_loop i content_list (h1, tb, tab) = (h1', tb', tab') /\
    EntityExtractor.classify_loop i content_list (h2, tb, tab) = (h2', tb', tab') /\
    heaps_same_dicts h1' h2' /\
    (forall l, In l tb' \/ In l tab' -> is_dict (deref h1' l) = true).
Proof.
  revert i h1 h2 tb tab. induction content_list as [|x rest IH];
    intros i h1 h2 tb tab Hrel Hdict; cbn [EntityExtractor.classify_loop].
  - exists h1, h2, tb, tab. auto.
  - destruct (classify_step_same i x h1 h2 tb tab Hrel)
      as (h1' & h2' & tb' & tab' & -> & -> & Hrel' & Hkeep & Htb & Htab).
    apply IH; [assumption|].
    intros l [Hl|Hl].
    + destruct (Htb l Hl); auto.
    + destruct (Htab l Hl); auto.
Qed.

Lemma map_deref_same (h1 h2 : gmap loc pyval) (ls : list loc) :
  heaps_same_dicts h1 h2 ->
  (forall l, In l ls -> is_dict (deref h1 l) = true) ->
  map (deref h1) ls = map (deref h2) ls.
Proof.
  intros Hrel Hd. apply map_ext_in. intros l Hl.
  apply same_dicts_dict; [apply Hrel|now apply Hd].
Qed.

Section Variants.

Variable rt : runtime.
Variable has_client : bool.
Variable llm : nat -> string -> option string.

(** A block that is not a dict has no entry in the structure request. *)
Lemma structure_entry_skip (v : pyval) :
  is_dict v = false -> EntityExtractor.structure_entry rt v = [].
Proof. destruct v; simpl; congruence. Qed.

Lemma structure_entry_same (v v' : pyval) :
  same_dicts v v' ->
  EntityExtractor.structure_entry rt v = EntityExtractor.structure_entry rt v'.
Proof.
  intros [->|[H H']]; [reflexivity|].
  now rewrite !structure_entry_skip.
Qed.

Lemma analyze_same (h1 h2 : gmap loc pyval) (content_list : list loc) :
  heaps_same_dicts h1 h2 ->
  EntityExtractor._analyze_document_structure rt has_client llm (map (deref h1) content_list)
  = EntityExtractor._analyze_document_structure rt has_client llm (map (deref h2) content_list).
Proof.
  intros Hrel. unfold EntityExtractor._analyze_document_structure.
  rewrite !firstn_map, !map_map.
  rewrite (map_ext (fun l => EntityExtractor.structure_entry rt (deref h1 l))
                   (fun l => EntityExtractor.structure_entry rt (deref h2 l)));
    [reflexivity|].
  intros l. apply structure_entry_same, Hrel.
Qed.

(** The run of [EntityExtractor] does not depend on what the elements that
    are not dicts are. *)
Lemma entity_extractor_same (h1 h2 : gmap loc pyval) (content_list : list loc)
  (extract_relations : bool) :
  heaps_same_dicts h1 h2 ->
  snd (EntityExtractor.extract_entities_from_content_list rt has_client llm
         h1 content_list extract_relations)
  = snd (EntityExtractor.extract_entities_from_content_list rt has_client llm
           h2 content_list extract_relations)
  /\ heaps_same_dicts
       (fst (EntityExtractor.extract_entities_from_content_list rt has_client llm
               h1 content_list extract_relations))
       (fst (EntityExtractor.extract_entities_from_content_list rt has_client llm
               h2 content_list extract_relations)).
Proof.
  intros Hrel. unfold EntityExtractor.extract_entities_from_content_list,
    EntityExtractor.classify.
  destruct (classify_loop_same content_list 0 h1 h2 [] [] Hrel)
    as (h1' & h2' & tb & tab & -> & -> & Hrel' & Hd).
  { intros l [[]|[]]. }
  cbn [fst snd]. split; [|assumption].
  unfold EntityExtractor.extract_classified.
  rewrite (map_deref_same h1' h2' tb Hrel') by auto.
  rewrite (map_deref_same h1' h2' tab Hrel') by auto.
  now rewrite (analyze_same h1' h2' content_list Hrel').
Qed.

(** [RAGAnythingEntityExtractor]: an element that is not a dict is passed
    over by the main loop and counts neither as a content type nor as a
    page. *)
Lemma content_loop_skip (i : nat) (v : pyval) (rest : list pyval) (tr : trace) :
  is_dict v = false ->
  RAGAnythingEntityExtractor.content_loop rt has_client llm i (v :: rest) tr
  = RAGAnythingEntityExtractor.content_loop rt has_client llm (S i) rest tr.
Proof.
  intros Hv. cbn [RAGAnythingEntityExtractor.content_loop]. rewrite Hv.
  unfold bind, ret.
  destruct (RAGAnythingEntityExtractor.content_loop rt has_client llm (S i) rest tr)
    as [[[ents rels]|e] tr']; reflexivity.
Qed.

Lemma content_loop_same (vs vs' : list pyval) (i : nat) :
  Forall2 same_dicts vs vs' ->
  RAGAnythingEntityExtractor.content_loop rt has_client llm i vs
  = RAGAnythingEntityExtractor.content_loop rt has_client llm i vs'.
Proof.
  intros H. revert i. induction H as [|v v' vs vs' Hv _ IH]; intros i; [reflexivity|].
  cbn [RAGAnythingEntityExtractor.content_loop]. rewrite (IH (S i)).
  destruct Hv as [->|[-> ->]]; reflexivity.
Qed.

Lemma counted_types_same (vs vs' : list pyval) :
  Forall2 same_dicts vs vs' ->
  concat (map RAGAnythingEntityExtractor.content_type_of vs)
  = concat (map RAGAnythingEntityExtractor.content_type_of vs')
  /\ concat (map RAGAnythingEntityExtractor.page_of vs)
     = concat (map RAGAnythingEntityExtractor.page_of vs').
Proof.
  induction 1 as [|v v' vs vs' Hv _ [IH1 IH2]]; [split; reflexivity|].
  simpl. rewrite IH1, IH2.
  destruct Hv as [->|[H H']]; [split; reflexivity|].
  destruct v, v'; try discriminate; split; reflexivity.
Qed.

Lemma raganything_same (vs vs' : list pyval) (extract_relations : bool) :
  Forall2 same_dicts vs vs' ->
  RAGAnythingEntityExtractor.extract_entities_from_content_list rt has_client llm
    vs extract_relations
  = RAGAnythingEntityExtractor.extract_entities_from_content_list rt has_client llm
      vs' extract_relations.
Proof.
  intros H. unfold RAGAnythingEntityExtractor.extract_entities_from_content_list,
    RAGAnythingEntityExtractor._analyze_document_structure,
    RAGAnythingEntityExtractor.statistics.
  rewrite (content_loop_same vs vs' 0 H).
  destruct (counted_types_same vs vs' H) as [-> ->].
  now rewrite (Forall2_length _ _ _ H).
Qed.

Variable mdhash : string -> string.
Variable lightrag : pyval -> option pyval.

(** [LightRAGEntityExtractor]: an element that is not a dict gives no
    chunk. *)
Lemma convert_loop_skip (i : nat) (v : pyval) (rest : list pyval)
  (chunks : list (string * pyval)) :
  is_dict v = false ->
  LightRAGEntityExtractor.convert_loop rt mdhash i (v :: rest) chunks
  = LightRAGEntityExtractor.convert_loop rt mdhash (S i) rest chunks.
Proof. intros Hv. cbn [LightRAGEntityExtractor.convert_loop]. now rewrite Hv. Qed.

Lemma convert_loop_same (vs vs' : list pyval) (i : nat) (chunks : list (string * pyval)) :
  Forall2 same_dicts vs vs' ->
  LightRAGEntityExtractor.convert_loop rt mdhash i vs chunks
  = LightRAGEntityExtractor.convert_loop rt mdhash i vs' chunks.
Proof.
  intros H. revert i chunks.
  induction H as [|v v' vs vs' Hv _ IH]; intros i chunks; [reflexivity|].
  cbn [LightRAGEntityExtractor.convert_loop].
  destruct Hv as [->|[-> ->]].
  - destruct (is_dict v'); [|apply IH].
    destruct (LightRAGEntityExtractor._extract_text_content rt v'); cbn [obind];
      [|reflexivity].
    destruct (LightRAGEntityExtractor.chunk_data i v' a); cbn [obind]; [|reflexivity].
    apply IH.
  - apply IH.
Qed.

Lemma lightrag_same (vs vs' : list pyval) (extract_relations : bool) :
  Forall2 same_dicts vs vs' ->
  LightRAGEntityExtractor.extract_entities_from_content_list rt mdhash lightrag
    vs extract_relations
  = LightRAGEntityExtractor.extract_entities_from_content_list rt mdhash lightrag
      vs' extract_relations.
Proof.
  intros H. unfold LightRAGEntityExtractor.extract_entities_from_content_list,
    LightRAGEntityExtractor.extraction,
    LightRAGEntityExtractor._convert_to_lightrag_chunks,
    LightRAGEntityExtractor._analyze_document_structure,
    LightRAGEntityExtractor.statistics.
  rewrite (convert_loop_same vs vs' 0 [] H).
  destruct (counted_types_same vs vs' H) as [-> ->].
  now rewrite (Forall2_length _ _ _ H).
Qed.

End Variants.

End SkipFacts.

(** C10.  An element of the content list that is not a dict is passed over
    by every variant.  [EntityExtractor]: the classification loop leaves
    it without index and outside the text and table blocks, the object is
    unchanged in the heap and has no entry in the structure request.
    [RAGAnythingEntityExtractor]: the main loop goes on to the next element
    with the trace and the results as they were, and the document analysis
    counts neither a type nor a page for it.  [LightRAGEntityExtractor]: it
    gives no chunk.  In all three the whole run (result, requests, error or
    not) is the same whatever the elements that are not dicts are, so such
    an element raises nothing and the blocks around it are processed as
    without it. *)
Theorem non_dict_elements_are_skipped (rt : Py.runtime) (has_client : bool)
  (llm : nat -> string -> option string)
  (mdhash : string -> string) (lightrag : Py.pyval -> option Py.pyval)
  (h1 h2 : gmap Heap.loc Py.pyval) (content_list : list Heap.loc)
  (vs vs' : list Py.pyval) (extract_relations : bool) (tr : Service.trace)
  (i : nat) (x : Heap.loc) (st : gmap Heap.loc Py.pyval * list Heap.loc * list Heap.loc)
  (v : Py.pyval) (rest : list Py.pyval) (chunks : list (string * Py.pyval)) :
  Cases.heaps_same_dicts h1 h2 ->
  Forall2 Cases.same_dicts vs vs' ->
  Py.is_dict (Heap.deref (fst (fst st)) x) = false ->
  Py.is_dict v = false ->
  (* EntityExtractor *)
  EntityExtractor.classify_step i x st = st /\
  EntityExtractor.structure_entry rt v = [] /\
  (forall l, Py.is_dict (Heap.deref h1 l) = false ->
     fst (EntityExtractor.extract_entities_from_content_list rt has_client llm
            h1 content_list extract_relations) !! l = h1 !! l) /\
  snd (EntityExtractor.extract_entities_from_content_list rt has_client llm
         h1 content_list extract_relations) tr
  = snd (EntityExtractor.extract_entities_from_content_list rt has_client llm
           h2 content_list extract_relations) tr /\
  (* RAGAnythingEntityExtractor *)
  RAGAnythingEntityExtractor.content_loop rt has_client llm i (v :: rest) tr
  = RAGAnythingEntityExtractor.content_loop rt has_client llm (S i) rest tr /\
  RAGAnythingEntityExtractor.content_type_of v = [] /\
  RAGAnythingEntityExtractor.page_of v = [] /\
  RAGAnythingEntityExtractor.extract_entities_from_content_list rt has_client llm
    vs extract_relations tr
  = RAGAnythingEntityExtractor.extract_entities_from_content_list rt has_client llm
      vs' extract_relations tr /\
  (* LightRAGEntityExtractor *)
  LightRAGEntityExtractor.convert_loop rt mdhash i (v :: rest) chunks
  = LightRAGEntityExtractor.convert_loop rt mdhash (S i) rest chunks /\
  LightRAGEntityExtractor.extract_entities_from_content_list rt mdhash lightrag
    vs extract_relations
  = LightRAGEntityExtractor.extract_entities_from_content_list rt mdhash lightrag
      vs' extract_relations.
Proof.
  intros Hheaps Hvalues Hx Hv. repeat split.
  - now apply SkipFacts.classify_step_skip.
  - now apply SkipFacts.structure_entry_skip.
  - intros l Hl.
    replace (fst (EntityExtractor.extract_entities_from_content_list rt has_client llm
                    h1 content_list extract_relations))
      with (fst (fst (EntityExtractor.classify h1 content_list))).
    + rewrite ClassifyFacts.classify_heap. unfold Heap.deref in Hl.
      destruct (Cases.last_pos l content_list); [|reflexivity].
      destruct (h1 !! l) as [[| | | | | |d]|]; try reflexivity. discriminate.
    + unfold EntityExtractor.extract_entities_from_content_list.
      now destruct (EntityExtractor.classify h1 content_list) as [[h' tb] tab].
  - now rewrite (proj1 (SkipFacts.entity_extractor_same rt has_client llm h1 h2
                          content_list extract_relations Hheaps)).
  - now apply SkipFacts.content_loop_skip.
  - destruct v; try reflexivity; discriminate.
  - destruct v; try reflexivity; discriminate.
  - now rewrite (SkipFacts.raganything_same rt has_client llm vs vs'
                   extract_relations Hvalues).
  - now apply SkipFacts.convert_loop_skip.
  - now apply SkipFacts.lightrag_same.
Qed.

(** The skip property on two lists that differ in an element that is not a
    dict: an integer in one, a string in the other. *)
Lemma non_dict_elements_are_skipped_witness :
  snd (EntityExtractor.extract_entities_from_content_list PyModel.python true
         Cases.silent Cases.heap_with_int Cases.both_refs true) []
  = snd (EntityExtractor.extract_entities_from_content_list PyModel.python true
           Cases.silent Cases.heap_with_str Cases.both_refs true) [] /\
  RAGAnythingEntityExtractor.extract_entities_from_content_list PyModel.python true
    Cases.silent [Cases.text_block; Py.PInt 3] true []
  = RAGAnythingEntityExtractor.extract_entities_from_content_list PyModel.python true
      Cases.silent [Cases.text_block; Py.PStr "stray"] true [].
Proof.
  assert (Cases.heaps_same_dicts Cases.heap_with_int Cases.heap_with_str) as Hheaps.
  { intros l. unfold Cases.heap_with_int, Cases.heap_with_str.
    rewrite !SkipFacts.deref_insert.
    destruct (decide (l = 0%nat)); [apply SkipFacts.same_dicts_refl|].
    destruct (decide (l = 1%nat)); [now right|apply SkipFacts.same_dicts_refl]. }
  assert (Forall2 Cases.same_dicts [Cases.text_block; Py.PInt 3]
            [Cases.text_block; Py.PStr "stray"]) as Hvalues.
  { constructor; [apply SkipFacts.same_dicts_refl|].
    constructor; [now right|constructor]. }
  pose proof (non_dict_elements_are_skipped PyModel.python true Cases.silent
                (fun s => s) (fun _ => None)
                Cases.heap_with_int Cases.heap_with_str Cases.both_refs
                [Cases.text_block; Py.PInt 3] [Cases.text_block; Py.PStr "stray"]
                true [] 1%nat 1%nat (Cases.heap_with_int, [], [])
                (Py.PInt 3) [] [] Hheaps Hvalues eq_refl eq_refl) as H.
  destruct H as (_ & _ & _ & Hrun & _ & _ & _ & Hvalues_run & _).
  split; [exact Hrun|exact Hvalues_run].
Defined.

(** ** Short text *)




(** ** The variants side by side *)



(** ** The batch orchestrator *)

Module BatchFacts.
Import Py RAGAnythingCL BatchCases.

Lemma finished_of_app (l1 l2 : list event) :
  finished_of (l1 ++ l2) = (finished_of l1 ++ finished_of l2)%list.
Proof.
  induction l1 as [|[t|t] l1 IH]; simpl; [reflexivity|exact IH|now rewrite IH].
Qed.

Lemma started_of_app (l1 l2 : list event) :
  started_of (l1 ++ l2) = (started_of l1 ++ started_of l2)%list.
Proof.
  induction l1 as [|[t|t] l1 IH]; simpl; [reflexivity|now rewrite IH|exact IH].
Qed.

Lemma in_finished_of (t : task) (l : list event) :
  In t (finished_of l) <-> In (Finished t) l.
Proof.
  induction l as [|[t0|t0] l IH]; simpl.
  - reflexivity.
  - rewrite IH. split; [now right|]. intros [H|H]; [discriminate H|exact H].
  - rewrite IH. split; (intros [H|H]; [left; congruence|now right]).
Qed.

Lemma in_started_of (t : task) (l : list event) :
  In t (started_of l) <-> In (Started t) l.
Proof.
  induction l as [|[t0|t0] l IH]; simpl.
  - reflexivity.
  - rewrite IH. split; (intros [H|H]; [left; congruence|now right]).
  - rewrite IH. split; [now right|]. intros [H|H]; [discriminate H|exact H].
Qed.

(** Where an event of a log extended by one event lies. *)
Lemma split_snoc {A : Type} (l1 l2 l : list A) (x e : A) :
  (l1 ++ x :: l2 = l ++ [e])%list ->
  (l2 = [] /\ l1 = l /\ x = e)
  \/ exists l2', l2 = (l2' ++ [e])%list /\ l = (l1 ++ x :: l2')%list.
Proof.
  destruct l2 as [|y l2' _] using rev_ind.
  - intros H. left. apply (app_inj_tail l1 l x e) in H. tauto.
  - intros H. right. exists l2'.
    change (l1 ++ x :: l2' ++ [y])%list with (l1 ++ (x :: l2') ++ [y])%list in H.
    rewrite app_assoc in H. apply app_inj_tail in H as [H1 H2].
    subst. split; reflexivity.
Qed.

Section Invariant.

Variable parse_document : string -> outcome (list pyval).
Variable chunks : list (list task).
Variable workers : nat.

(** Every file of the chunk at [j] carries the number [j]. *)
Hypothesis tagged :
  forall j c t, chunks !! j = Some c -> In t c -> fst t = j.

Lemma invariant_initial :
  run_invariant parse_document chunks workers
    {| todo := chunks; queued := []; running := []; log := [];
       results := ∅; failed_files := [] |}.
Proof.
  exists [], [], []. cbn. split_and!; try reflexivity.
  - now left.
  - lia.
  - intros l1 t l2 t' H. destruct l1; discriminate H.
Qed.

(** A file of an earlier chunk than the open one has finished. *)
Lemma earlier_chunk_finished (s : state) (prev : list (list task)) (c : list task)
  (done : list task) (t t' : task) :
  chunks = (prev ++ [c] ++ todo s)%list ->
  finished_of (log s) ≡ₚ (concat prev ++ done)%list ->
  In t c -> In t' (concat chunks) -> (fst t' < fst t)%nat ->
  In (Finished t') (log s).
Proof.
  intros Hchunks Hfin Ht Ht' Hlt. unfold task in *.
  assert (fst t = length prev) as Hj.
  { apply (tagged (length prev) c t); [|exact Ht].
    rewrite Hchunks, lookup_app_r by lia. now rewrite Nat.sub_diag. }
  apply in_concat in Ht' as (c' & Hc' & Ht').
  apply list_elem_of_In, list_elem_of_lookup in Hc' as (j & Hc').
  pose proof (tagged j c' t' Hc' Ht') as Hj'.
  assert (prev !! j = Some c') as Hprev.
  { rewrite Hchunks, lookup_app_l in Hc' by lia. exact Hc'. }
  apply in_finished_of.
  apply (Permutation_in _ (Permutation_sym Hfin)).
  apply in_or_app. left. apply in_concat. exists c'. split; [|exact Ht'].
  apply list_elem_of_In, list_elem_of_lookup. now exists j.
Qed.

Lemma invariant_step (s s' : state) :
  run_invariant parse_document chunks workers s ->
  step parse_document workers s s' ->
  run_invariant parse_document chunks workers s'.
Proof.
  intros (prev & cur & done & Hchunks & Hcur & Hperm & Hfin & Hstart & Hlen
          & Horder & Hres) Hstep.
  destruct Hstep as [s c rest Htodo Hq Hr | s t rest Hq Hfree | s before t after Hr].
  - exists (prev ++ cur)%list, [c], []. cbn. split_and!.
    + rewrite Hchunks, Htodo. now rewrite <- app_assoc.
    + right. now exists c.
    + now rewrite app_nil_r.
    + rewrite Hq, Hr, !app_nil_r in Hperm.
      now rewrite Hfin, concat_app, app_nil_r, Hperm.
    + now rewrite Hr in Hstart.
    + lia.
    + exact Horder.
    + exact Hres.
  - exists prev, cur, done. cbn. split_and!.
    + exact Hchunks.
    + exact Hcur.
    + rewrite Hperm, Hq, <- app_assoc. reflexivity.
    + now rewrite finished_of_app, app_nil_r.
    + rewrite started_of_app, finished_of_app, app_nil_r, Hstart.
      now rewrite app_assoc.
    + rewrite length_app. simpl. lia.
    + intros l1 t0 l2 t' Hlog Hin Hlt.
      symmetry in Hlog. apply split_snoc in Hlog as [(_ & -> & Ht0)|(l2' & _ & Hlog)].
      * injection Ht0 as ->.
        assert (In t (concat cur)) as Ht.
        { apply (Permutation_in _ (Permutation_sym Hperm)).
          rewrite Hq. apply in_or_app. right. apply in_or_app. right. now left. }
        destruct Hcur as [->|(c & ->)]; [destruct Ht|].
        simpl in Ht. rewrite app_nil_r in Ht.
        now apply (earlier_chunk_finished s prev c done t t').
      * now apply (Horder l1 t0 l2' t').
    + now rewrite finished_of_app, app_nil_r.
  - exists prev, cur, (done ++ [t])%list. cbn. split_and!.
    + exact Hchunks.
    + exact Hcur.
    + rewrite Hperm, Hr, <- !app_assoc. apply Permutation_app_head.
      simpl. symmetry. apply Permutation_middle.
    + rewrite finished_of_app, Hfin. now rewrite app_assoc.
    + rewrite started_of_app, finished_of_app, app_nil_r, Hstart, Hr.
      rewrite <- !app_assoc. apply Permutation_app_head.
      simpl. symmetry. apply Permutation_middle.
    + rewrite Hr, length_app in Hlen. rewrite length_app. simpl in Hlen. lia.
    + intros l1 t0 l2 t' Hlog Hin Hlt.
      symmetry in Hlog. apply split_snoc in Hlog as [(_ & _ & Ht0)|(l2' & _ & Hlog)];
        [discriminate Ht0|].
      now apply (Horder l1 t0 l2' t').
    + rewrite finished_of_app, map_app, fold_left_app. unfold task in *.
      rewrite <- Hres. simpl.
      symmetry. apply surjective_pairing.
Qed.



End Invariant.

(** *** The chunks of a file list *)

Lemma all_chunks_tagged (file_paths : list string) (bsize j : nat)
  (c : list task) (t : task) :
  all_chunks file_paths bsize !! j = Some c -> In t c -> fst t = j.
Proof.
  unfold all_chunks. rewrite list_lookup_imap.
  destruct (batches file_paths bsize !! j) as [b|]; simpl; [|discriminate].
  intros [= <-]. unfold chunk_tasks. rewrite in_map_iff.
  now intros (p & <- & _).
Qed.

Lemma batches_prefix (file_paths : list string) (bsize m : nat) :
  concat (map (batch_at file_paths bsize) (map (fun k => k * bsize)%nat (seq 0 m)))
  = take (m * bsize) file_paths.
Proof.
  induction m as [|m IH]; [reflexivity|].
  rewrite seq_S, !map_app, concat_app, IH. simpl.
  rewrite app_nil_r. unfold batch_at.
  rewrite take_take_drop. f_equal. lia.
Qed.

Lemma chunk_count (n bsize : nat) :
  (0 < bsize)%nat -> (n <= (n + bsize - 1) / bsize * bsize)%nat.
Proof.
  intros Hpos.
  pose proof (Nat.div_mod_eq (n + bsize - 1) bsize) as Hdiv.
  pose proof (Nat.mod_upper_bound (n + bsize - 1) bsize) as Hmod.
  rewrite (Nat.mul_comm _ bsize). lia.
Qed.

(** The chunks are consecutive segments that cover the list. *)
Lemma batches_concat (file_paths : list string) (bsize : nat) :
  (0 < bsize)%nat -> concat (batches file_paths bsize) = file_paths.
Proof.
  intros Hpos. unfold batches, chunk_starts. rewrite batches_prefix.
  apply take_ge. now apply chunk_count.
Qed.


Lemma imap_paths (f : nat -> list string -> list task) (bs : list (list string)) :
  (forall i b, map snd (f i b) = b) ->
  map snd (concat (imap f bs)) = concat bs.
Proof.
  revert f. induction bs as [|b bs IH]; intros f Hf; [reflexivity|].
  simpl. rewrite map_app, Hf. f_equal. apply IH. intros i b'. apply Hf.
Qed.

Lemma all_chunks_paths (file_paths : list string) (bsize : nat) :
  (0 < bsize)%nat -> map snd (concat (all_chunks file_paths bsize)) = file_paths.
Proof.
  intros Hpos. unfold all_chunks. rewrite imap_paths.
  - now apply batches_concat.
  - intros i b. unfold chunk_tasks. rewrite map_map. simpl. apply map_id.
Qed.


(** *** What the loop accumulates *)

Section Results.

Variable parse_document : string -> outcome (list pyval).

Lemma fold_collect_failed (ps : list string)
  (st : gmap string (list pyval) * list string) :
  snd (fold_left (collect parse_document) ps st)
  = (snd st ++ raising parse_document ps)%list.
Proof.
  revert st. induction ps as [|p ps IH]; intros st; simpl.
  - now rewrite app_nil_r.
  - rewrite IH. unfold collect.
    destruct (parse_document p); simpl; [reflexivity|].
    now rewrite <- app_assoc.
Qed.

Lemma fold_collect_lookup (ps : list string)
  (st : gmap string (list pyval) * list string) (f : string) :
  fst (fold_left (collect parse_document) ps st) !! f
  = match parse_document f with
    | Ok content_list => if decide (f ∈ ps) then Some content_list else fst st !! f
    | Raise _ => fst st !! f
    end.
Proof.
  revert st. induction ps as [|p ps IH]; intros st; cbn [fold_left].
  - destruct (parse_document f); [|reflexivity].
    destruct (decide (f ∈ [])) as [Hin|_]; [|reflexivity].
    now apply elem_of_nil in Hin.
  - rewrite IH. unfold collect.
    destruct (decide (p = f)) as [->|Hne].
    + destruct (parse_document f) as [content_list|e] eqn:Hf; cbn [fst]; [|reflexivity].
      rewrite lookup_insert_eq.
      destruct (decide (f ∈ ps)), (decide (f ∈ f :: ps)) as [|Hout];
        try reflexivity; destruct Hout; apply elem_of_cons; now left.
    + destruct (parse_document f) as [content_list|e] eqn:Hf;
        destruct (parse_document p) as [content_p|e_p]; cbn [fst];
        rewrite ?lookup_insert_ne by exact Hne; try reflexivity;
        destruct (decide (f ∈ ps)) as [Hin|Hout],
                 (decide (f ∈ p :: ps)) as [Hin'|Hout'];
        try reflexivity; exfalso; rewrite elem_of_cons in *; intuition congruence.
Qed.

Lemma parsed_lookup (ps : list string) (f : string) :
  parsed parse_document ps !! f
  = match parse_document f with
    | Ok content_list => if decide (f ∈ ps) then Some content_list else None
    | Raise _ => None
    end.
Proof.
  induction ps as [|p ps IH]; cbn [parsed].
  - rewrite lookup_empty. destruct (parse_document f); [|reflexivity].
    destruct (decide (f ∈ [])) as [Hin|_]; [|reflexivity].
    now apply elem_of_nil in Hin.
  - destruct (decide (p = f)) as [->|Hne].
    + destruct (parse_document f) as [content_list|e] eqn:Hf.
      * rewrite lookup_insert_eq.
        destruct (decide (f ∈ f :: ps)) as [|Hout]; [reflexivity|].
        destruct Hout. apply elem_of_cons. now left.
      * exact IH.
    + destruct (parse_document p) as [content_p|e_p];
        rewrite ?lookup_insert_ne by exact Hne; rewrite IH;
        destruct (parse_document f); try reflexivity;
        destruct (decide (f ∈ ps)) as [Hin|Hout],
                 (decide (f ∈ p :: ps)) as [Hin'|Hout'];
        try reflexivity; exfalso; rewrite elem_of_cons in *; intuition congruence.
Qed.

(** The mapping of a file list: a file is mapped to its content when it
    is in the list and parses. *)
Lemma parsed_spec (ps : list string) (f : string) (content_list : list pyval) :
  parsed parse_document ps !! f = Some content_list
  <-> In f ps /\ parse_document f = Ok content_list.
Proof.
  rewrite parsed_lookup, <- list_elem_of_In.
  destruct (parse_document f) as [c|e].
  - destruct (decide (f ∈ ps)); split.
    + intros [= ->]. now split.
    + intros [_ [= ->]]. reflexivity.
    + discriminate.
    + tauto.
  - split; [discriminate|]. intros [_ H]. discriminate H.
Qed.

Lemma raising_spec (ps : list string) (f : string) :
  In f (raising parse_document ps)
  <-> In f ps /\ exists e, parse_document f = Raise e.
Proof.
  induction ps as [|p ps IH]; simpl; [tauto|].
  destruct (parse_document p) as [c|e] eqn:Hp; simpl; rewrite IH.
  - split.
    + intros [Hin He]. tauto.
    + intros [[->|Hin] [e He]]; [congruence|]. split; [exact Hin|now exists e].
  - split.
    + intros [->|[Hin He]]; [|tauto]. split; [now left|now exists e].
    + intros [[->|Hin] He]; [now left|right; tauto].
Qed.

Lemma raising_Permutation (ps qs : list string) :
  ps ≡ₚ qs -> raising parse_document ps ≡ₚ raising parse_document qs.
Proof.
  induction 1 as [|x l l' _ IH|x y l|l l' l'' _ IH1 _ IH2]; simpl.
  - reflexivity.
  - destruct (parse_document x); [exact IH|now constructor].
  - destruct (parse_document x), (parse_document y);
      try reflexivity; constructor.
  - now rewrite IH1.
Qed.

(** The mapping depends on the files collected, not on their order. *)
Lemma fold_collect_parsed (ps qs : list string) :
  ps ≡ₚ qs ->
  fst (fold_left (collect parse_document) ps (∅, [])) = parsed parse_document qs.
Proof.
  intros Hperm. apply map_eq. intros f.
  rewrite fold_collect_lookup, parsed_lookup. simpl. rewrite lookup_empty.
  destruct (parse_document f); [|reflexivity].
  destruct (decide (f ∈ ps)) as [Hin|Hout], (decide (f ∈ qs)) as [Hin'|Hout'];
    try reflexivity.
  - destruct Hout'. now rewrite <- Hperm.
  - destruct Hout. now rewrite Hperm.
Qed.

Lemma fold_batches {A B : Type} (f : A -> B -> A) (bs : list (list B)) (a : A) :
  fold_left (fun st b => fold_left f b st) bs a = fold_left f (concat bs) a.
Proof.
  revert a. induction bs as [|b bs IH]; intros a; simpl; [reflexivity|].
  now rewrite fold_left_app, IH.
Qed.

End Results.


(** *** The runs of a call *)

Section Runs.

Variable parse_document : string -> outcome (list pyval).

Lemma reachable_invariant (file_paths : list string) (bsize workers : nat) (s : state) :
  reachable parse_document file_paths bsize workers s ->
  run_invariant parse_document (all_chunks file_paths bsize) workers s.
Proof.
  unfold reachable. revert s. apply rtc_ind_r.
  - apply invariant_initial.
  - intros s1 s2 _ Hstep IH.
    apply (invariant_step parse_document (all_chunks file_paths bsize) workers
             (all_chunks_tagged file_paths bsize) s1 s2 IH Hstep).
Qed.

(** When every future has been collected, the files finished are the
    files of the call. *)
Lemma complete_finished (chunks : list (list task)) (workers : nat) (s : state) :
  run_invariant parse_document chunks workers s -> complete s ->
  finished_of (log s) ≡ₚ concat chunks.
Proof.
  intros (prev & cur & done & Hchunks & _ & Hperm & Hfin & _) (Htodo & Hq & Hr).
  rewrite Hq, Hr, !app_nil_r in Hperm.
  rewrite Hfin, Hchunks, Htodo, app_nil_r, concat_app. now rewrite Hperm.
Qed.

Lemma complete_results (file_paths : list string) (bsize workers : nat) (s : state) :
  (0 < bsize)%nat ->
  reachable parse_document file_paths bsize workers s -> complete s ->
  results s = parsed parse_document file_paths
  /\ failed_files s ≡ₚ raising parse_document file_paths.
Proof.
  intros Hpos Hrun Hdone.
  pose proof (reachable_invariant file_paths bsize workers s Hrun) as Hinv.
  pose proof (complete_finished _ _ s Hinv Hdone) as Hfin.
  destruct Hinv as (_ & _ & _ & _ & _ & _ & _ & _ & _ & _ & Hres).
  assert (map snd (finished_of (log s)) ≡ₚ file_paths) as Hpaths.
  { rewrite Hfin. now rewrite all_chunks_paths. }
  split.
  - change (results s) with (fst (results s, failed_files s)). rewrite Hres.
    now apply fold_collect_parsed.
  - change (failed_files s) with (snd (results s, failed_files s)). rewrite Hres.
    rewrite fold_collect_failed. simpl. now apply raising_Permutation.
Qed.

(** With a worker, the files queued can all be run. *)
Lemma drain (workers : nat) (q : list task) (s : state) :
  (0 < workers)%nat -> queued s = q -> running s = [] ->
  exists s', rtc (step parse_document workers) s s'
             /\ todo s' = todo s /\ queued s' = [] /\ running s' = [].
Proof.
  intros Hpos. revert s. induction q as [|t rest IH]; intros s Hq Hr.
  - exists s. split; [apply rtc_refl|]. now split_and!.
  - pose proof (step_start parse_document workers s t rest Hq) as Hstart.
    rewrite Hr in Hstart. specialize (Hstart Hpos).
    match type of Hstart with step _ _ _ ?s1 =>
      pose proof (step_finish parse_document workers s1 [] t [] eq_refl) as Hfinish
    end.
    match type of Hfinish with step _ _ _ ?s2 =>
      destruct (IH s2 eq_refl eq_refl) as (s' & Hrun & Htodo & Hq' & Hr')
    end.
    exists s'. split; [|now split_and!].
    eapply rtc_l; [exact Hstart|]. eapply rtc_l; [exact Hfinish|]. exact Hrun.
Qed.

(** With a worker, every state between two chunks leads to a complete one. *)
Lemma run_to_completion (workers : nat) (chunks : list (list task)) (s : state) :
  (0 < workers)%nat -> todo s = chunks -> queued s = [] -> running s = [] ->
  exists s', rtc (step parse_document workers) s s' /\ complete s'.
Proof.
  intros Hpos. revert s. induction chunks as [|c rest IH]; intros s Htodo Hq Hr.
  - exists s. split; [apply rtc_refl|]. now split_and!.
  - pose proof (step_submit parse_document workers s c rest Htodo Hq Hr) as Hsubmit.
    match type of Hsubmit with step _ _ _ ?s1 =>
      destruct (drain workers c s1 Hpos eq_refl eq_refl)
        as (s2 & Hrun & Htodo2 & Hq2 & Hr2)
    end.
    destruct (IH s2 Htodo2 Hq2 Hr2) as (s' & Hrun' & Hdone).
    exists s'. split; [|exact Hdone].
    eapply rtc_l; [exact Hsubmit|]. now transitivity s2.
Qed.

Lemma complete_run_exists (file_paths : list string) (bsize workers : nat) :
  (0 < workers)%nat ->
  exists s, reachable parse_document file_paths bsize workers s /\ complete s.
Proof.
  intros Hpos. unfold reachable.
  now apply (run_to_completion workers (all_chunks file_paths bsize)).
Qed.

(** The sequential run returns the mapping of the files that parse. *)
Lemma sequential_run (cfg : config) (file_paths : list string) :
  0 < batch_size cfg -> 0 < max_workers cfg ->
  parse_documents_batch parse_document cfg file_paths
  = Ok (parsed parse_document file_paths).
Proof.
  intros Hsize Hworkers. unfold parse_documents_batch.
  destruct (Z.eqb_spec (batch_size cfg) 0) as [|_]; [lia|].
  destruct (Z.ltb_spec (batch_size cfg) 0) as [|_]; [lia|].
  destruct (Z.leb_spec (max_workers cfg) 0) as [|_]; [lia|].
  cbn [andb]. f_equal. rewrite fold_batches, batches_concat by lia.
  now apply fold_collect_parsed.
Qed.

(** Every call with a positive chunk size and a worker returns, and what
    it returns is the mapping of the files that parse. *)
Lemma returns_parsed (cfg : config) (file_paths : list string)
  (ret : outcome (gmap string (list pyval))) :
  0 < batch_size cfg -> 0 < max_workers cfg ->
  returns parse_document cfg file_paths ret
  <-> ret = Ok (parsed parse_document file_paths).
Proof.
  intros Hsize Hworkers. split.
  - intros Hret. destruct Hret as [| | | |s _ _ Hrun Hdone]; try lia.
    f_equal. eapply complete_results; [|exact Hrun|exact Hdone]. lia.
  - intros ->.
    destruct (complete_run_exists file_paths (Z.to_nat (batch_size cfg))
                (Z.to_nat (max_workers cfg))) as (s & Hrun & Hdone); [lia|].
    assert (results s = parsed parse_document file_paths) as <-.
    { eapply complete_results; [|exact Hrun|exact Hdone]. lia. }
    now apply returns_results.
Qed.

End Runs.


End BatchFacts.



(** C5, amended.  A call with a positive chunk size and a worker returns,
    whatever the order in which the files finish, the mapping of the files
    that parse to their contents, and nothing else: a file is mapped when
    it is in the list and its parse succeeds, so a failure removes no other
    file; the files whose parse raises are gathered, without the cause, in
    a list of the call that is not returned. *)
Theorem batch_isolates_failures (parse_document : string -> Py.outcome (list Py.pyval))
  (cfg : RAGAnythingCL.config) (file_paths : list string) :
  0 < RAGAnythingCL.batch_size cfg -> 0 < RAGAnythingCL.max_workers cfg ->
  (forall ret, RAGAnythingCL.returns parse_document cfg file_paths ret
               <-> ret = Py.Ok (RAGAnythingCL.parsed parse_document file_paths)) /\
  RAGAnythingCL.parse_documents_batch parse_document cfg file_paths
  = Py.Ok (RAGAnythingCL.parsed parse_document file_paths) /\
  (forall f content_list,
      RAGAnythingCL.parsed parse_document file_paths !! f = Some content_list
      <-> In f file_paths /\ parse_document f = Py.Ok content_list) /\
  (forall s,
      RAGAnythingCL.reachable parse_document file_paths
        (Z.to_nat (RAGAnythingCL.batch_size cfg))
        (Z.to_nat (RAGAnythingCL.max_workers cfg)) s ->
      RAGAnythingCL.complete s ->
      RAGAnythingCL.failed_files s
      ≡ₚ RAGAnythingCL.raising parse_document file_paths) /\
  (forall f, In f (RAGAnythingCL.raising parse_document file_paths)
             <-> In f file_paths /\ exists e, parse_document f = Py.Raise e).
Proof.
  intros Hsize Hworkers.
  split; [intros ret; now apply BatchFacts.returns_parsed|].
  split; [now apply BatchFacts.sequential_run|].
  split; [intros f content_list; apply BatchFacts.parsed_spec|].
  split; [|intros f; apply BatchFacts.raising_spec].
  intros s Hrun Hdone.
  eapply BatchFacts.complete_results; [|exact Hrun|exact Hdone]. lia.
Qed.

(** Three files of which the second fails, in chunks of two: the call
    returns and maps the first file and the third. *)
Lemma batch_isolates_failures_witness :
  0 < RAGAnythingCL.batch_size BatchCases.small_config /\
  0 < RAGAnythingCL.max_workers BatchCases.small_config /\
  RAGAnythingCL.parse_documents_batch BatchCases.second_fails BatchCases.small_config
    BatchCases.three_files
  = Py.Ok (<["a.pdf" := [Py.PStr "a.pdf"]]> (<["c.pdf" := [Py.PStr "c.pdf"]]> ∅)).
Proof.
  destruct (batch_isolates_failures BatchCases.second_fails BatchCases.small_config
              BatchCases.three_files) as (_ & Hseq & _).
  - reflexivity.
  - reflexivity.
  - split; [reflexivity|]. split; [reflexivity|]. exact Hseq.
Defined.

(** C5, as stated, fails: the value returned holds no failure list.  With
    a parser that fails on the second file, the call on the three files
    and the call on the first and the third return the same mapping, and
    only the first has a failure. *)
Lemma failures_not_returned_counterexample : ~ BatchCases.failures_returned.
Proof.
  intros (read & Hread).
  assert (forall file_paths,
    RAGAnythingCL.returns BatchCases.second_fails BatchCases.small_config file_paths
      (Py.Ok (RAGAnythingCL.parsed BatchCases.second_fails file_paths))) as Hret.
  { intros file_paths. now apply BatchFacts.returns_parsed. }
  pose proof (Hread _ _ _ _ (Hret BatchCases.three_files) "b.pdf" Py.ValueError) as H3.
  pose proof (Hread _ _ _ _ (Hret BatchCases.two_files) "b.pdf" Py.ValueError) as H2.
  change (RAGAnythingCL.parsed BatchCases.second_fails BatchCases.two_files)
    with (RAGAnythingCL.parsed BatchCases.second_fails BatchCases.three_files) in H2.
  assert (In "b.pdf" BatchCases.two_files -> False) as Hout.
  { intros [H|[H|[]]]; discriminate H. }
  apply Hout, H2, H3. split; [|reflexivity]. right. now left.
Qed.

(** * Further properties *)

(** ** The batch orchestrator: progress, counts and chunks *)

Module BatchMore.
Import Py RAGAnythingCL BatchCases BatchMeasure BatchFacts.

Section Runs.

Variable parse_document : string -> outcome (list pyval).






Lemma files_accounted (chunks : list (list task)) (workers : nat) (s : state) :
  run_invariant parse_document chunks workers s ->
  (started_of (log s) ++ queued s ++ concat (todo s))%list ≡ₚ concat chunks.
Proof.
  intros (prev & cur & done & Hchunks & _ & Hperm & Hfin & Hstart & _).
  rewrite Hstart, Hfin, Hchunks, !concat_app, Hperm.
  now rewrite <- !app_assoc.
Qed.

Lemma parsed_size (ps : list string) :
  (size (parsed parse_document ps) + length (raising parse_document ps) <= length ps)%nat
  /\ (NoDup ps ->
      (size (parsed parse_document ps) + length (raising parse_document ps))%nat
      = length ps).
Proof.
  induction ps as [|p ps [IHle IHeq]]; cbn [parsed raising length].
  - rewrite map_size_empty. split; [lia|reflexivity].
  - destruct (parse_document p) as [content_list|e] eqn:Hp; cbn [length].
    + rewrite map_size_insert. split.
      * destruct (parsed parse_document ps !! p); simpl; lia.
      * intros Hnd. apply NoDup_cons in Hnd as [Hout Hnd].
        assert (parsed parse_document ps !! p = None) as ->.
        { destruct (parsed parse_document ps !! p) as [c|] eqn:Hlook; [|reflexivity].
          apply parsed_spec in Hlook as [Hin _].
          destruct Hout. now apply list_elem_of_In. }
        simpl. rewrite <- (IHeq Hnd). lia.
    + split; [lia|]. intros Hnd. apply NoDup_cons in Hnd as [_ Hnd].
      rewrite <- (IHeq Hnd). lia.
Qed.

End Runs.

(** *** The shape of the chunks *)

Lemma length_batches (file_paths : list string) (bsize : nat) :
  length (batches file_paths bsize) = number_of_chunks (length file_paths) bsize.
Proof.
  unfold batches, chunk_starts, number_of_chunks. now rewrite !length_map, length_seq.
Qed.

Lemma batches_lookup (file_paths : list string) (bsize i : nat) (b : list string) :
  batches file_paths bsize !! i = Some b ->
  (i < number_of_chunks (length file_paths) bsize)%nat
  /\ b = take bsize (drop (i * bsize) file_paths).
Proof.
  unfold batches, chunk_starts. rewrite !list_lookup_fmap.
  destruct (seq 0 _ !! i) as [k|] eqn:Hk; [|discriminate].
  apply lookup_seq in Hk as [-> Hlt]. simpl. intros [= <-]. now split.
Qed.

Lemma number_of_chunks_bounds (n bsize : nat) :
  (0 < bsize)%nat -> (0 < n)%nat ->
  ((number_of_chunks n bsize - 1) * bsize < n)%nat
  /\ (n <= number_of_chunks n bsize * bsize)%nat.
Proof.
  intros Hpos Hn. unfold number_of_chunks.
  pose proof (Nat.div_mod_eq (n + bsize - 1) bsize) as Hdiv.
  pose proof (Nat.mod_upper_bound (n + bsize - 1) bsize) as Hmod.
  set (q := ((n + bsize - 1) / bsize)%nat) in *.
  set (r := ((n + bsize - 1) mod bsize)%nat) in *.
  assert (0 < q)%nat by nia. split; nia.
Qed.

Lemma length_log (l : list event) :
  length l = (length (started_of l) + length (finished_of l))%nat.
Proof.
  induction l as [|[t|t] l IH]; cbn [started_of finished_of length]; lia.
Qed.

End BatchMore.



(** X2.  No file is lost and none is run twice: in every state of a run
    the files started, those queued and those of the chunks to come are,
    with their multiplicity, the files of the call; when the run is
    complete the files finished are the files of the call. *)
Theorem every_file_runs_once (parse_document : string -> Py.outcome (list Py.pyval))
  (file_paths : list string) (bsize workers : nat) (s : RAGAnythingCL.state) :
  (0 < bsize)%nat ->
  RAGAnythingCL.reachable parse_document file_paths bsize workers s ->
  map snd (RAGAnythingCL.started_of (RAGAnythingCL.log s)
           ++ RAGAnythingCL.queued s
           ++ concat (RAGAnythingCL.todo s))%list ≡ₚ file_paths
  /\ (RAGAnythingCL.complete s ->
      map snd (RAGAnythingCL.finished_of (RAGAnythingCL.log s)) ≡ₚ file_paths
      /\ length (RAGAnythingCL.log s) = (2 * length file_paths)%nat).
Proof.
  intros Hsize Hrun.
  pose proof (BatchFacts.reachable_invariant parse_document file_paths bsize
                workers s Hrun) as Hinv.
  pose proof (BatchMore.files_accounted parse_document _ _ s Hinv) as Hall.
  split.
  - rewrite Hall. now rewrite BatchFacts.all_chunks_paths.
  - intros Hdone.
    pose proof (BatchFacts.complete_finished parse_document _ _ s Hinv Hdone) as Hfin.
    assert (map snd (RAGAnythingCL.finished_of (RAGAnythingCL.log s)) ≡ₚ file_paths)
      as Hpaths.
    { rewrite Hfin. now rewrite BatchFacts.all_chunks_paths. }
    split; [exact Hpaths|].
    destruct Hinv as (_ & _ & _ & _ & _ & _ & _ & Hstart & _).
    destruct Hdone as (_ & _ & Hr). rewrite Hr, app_nil_r in Hstart.
    rewrite (BatchMore.length_log (RAGAnythingCL.log s)).
    rewrite (Permutation_length Hstart).
    rewrite <- (Permutation_length Hpaths), length_map.
    unfold RAGAnythingCL.task. lia.
Qed.

(** The files of the run over three files in chunks of two, when the first
    has started. *)
Lemma every_file_runs_once_witness :
  map snd (RAGAnythingCL.started_of (RAGAnythingCL.log BatchCases.first_started)
           ++ RAGAnythingCL.queued BatchCases.first_started
           ++ concat (RAGAnythingCL.todo BatchCases.first_started))%list
  ≡ₚ BatchCases.three_files.
Proof.
  assert (RAGAnythingCL.reachable BatchCases.second_fails BatchCases.three_files 2 2
            BatchCases.first_started) as Hrun.
  { unfold RAGAnythingCL.reachable.
    eapply rtc_l.
    { apply (RAGAnythingCL.step_submit BatchCases.second_fails 2
               (RAGAnythingCL.initial BatchCases.three_files 2)
               [(0%nat, "a.pdf"); (0%nat, "b.pdf")] [[(1%nat, "c.pdf")]]);
        reflexivity. }
    eapply rtc_l.
    { eapply (RAGAnythingCL.step_start BatchCases.second_fails 2 _
                (0%nat, "a.pdf") [(0%nat, "b.pdf")]); [reflexivity|].
      simpl. lia. }
    apply rtc_refl. }
  destruct (every_file_runs_once BatchCases.second_fails BatchCases.three_files
              2 2 BatchCases.first_started) as (Hall & _).
  - lia.
  - exact Hrun.
  - exact Hall.
Defined.

(** X3.  The two counts that the call reports: when a run is complete the
    files mapped and the files failed are together at most the files of
    the call, and exactly as many when no file is listed twice. *)
Theorem batch_counts (parse_document : string -> Py.outcome (list Py.pyval))
  (file_paths : list string) (bsize workers : nat) (s : RAGAnythingCL.state) :
  (0 < bsize)%nat ->
  RAGAnythingCL.reachable parse_document file_paths bsize workers s ->
  RAGAnythingCL.complete s ->
  (size (RAGAnythingCL.results s) + length (RAGAnythingCL.failed_files s)
   <= length file_paths)%nat
  /\ (NoDup file_paths ->
      (size (RAGAnythingCL.results s) + length (RAGAnythingCL.failed_files s))%nat
      = length file_paths).
Proof.
  intros Hsize Hrun Hdone.
  destruct (BatchFacts.complete_results parse_document file_paths bsize workers s
              Hsize Hrun Hdone) as [-> Hfailed].
  rewrite (Permutation_length Hfailed).
  apply BatchMore.parsed_size.
Qed.

(** A complete run over three files of which the second fails: two files
    mapped and one failed. *)
Lemma batch_counts_witness :
  exists s,
    RAGAnythingCL.reachable BatchCases.second_fails BatchCases.three_files 2 2 s
    /\ RAGAnythingCL.complete s
    /\ (size (RAGAnythingCL.results s) + length (RAGAnythingCL.failed_files s))%nat
       = length BatchCases.three_files.
Proof.
  destruct (BatchFacts.complete_run_exists BatchCases.second_fails
              BatchCases.three_files 2 2) as (s & Hrun & Hdone); [lia|].
  exists s. split; [exact Hrun|]. split; [exact Hdone|].
  destruct (batch_counts BatchCases.second_fails BatchCases.three_files 2 2 s)
    as (_ & Heq).
  - lia.
  - exact Hrun.
  - exact Hdone.
  - apply Heq. apply (bool_decide_unpack _). vm_compute. reflexivity.
Defined.

(** X4.  The chunks of a call with a positive chunk size: there are
    [len(file_paths) / batch_size] of them, rounded up; the chunk at [i] is
    [file_paths[i * batch_size : (i + 1) * batch_size]]; none is empty, and
    all but the last hold exactly [batch_size] files. *)
Theorem chunks_shape (file_paths : list string) (bsize i : nat) (b : list string) :
  (0 < bsize)%nat ->
  RAGAnythingCL.batches file_paths bsize !! i = Some b ->
  length (RAGAnythingCL.batches file_paths bsize)
  = BatchMeasure.number_of_chunks (length file_paths) bsize
  /\ b = take bsize (drop (i * bsize) file_paths)
  /\ (0 < length b <= bsize)%nat
  /\ ((S i < length (RAGAnythingCL.batches file_paths bsize))%nat ->
      length b = bsize).
Proof.
  intros Hsize Hlook.
  pose proof (BatchMore.length_batches file_paths bsize) as Hlen.
  apply BatchMore.batches_lookup in Hlook as [Hi ->].
  assert (0 < length file_paths)%nat as Hn.
  { destruct file_paths; [|simpl; lia].
    unfold BatchMeasure.number_of_chunks in Hi. simpl in Hi.
    rewrite Nat.div_small in Hi by lia. lia. }
  destruct (BatchMore.number_of_chunks_bounds (length file_paths) bsize Hsize Hn)
    as [Hlow Hhigh].
  rewrite Hlen, length_take, length_drop.
  split; [reflexivity|]. split; [reflexivity|]. split; [nia|]. intros Hnext. nia.
Qed.

(** The first chunk of three files in chunks of two. *)
Lemma chunks_shape_witness :
  RAGAnythingCL.batches BatchCases.three_files 2 !! 0%nat = Some ["a.pdf"; "b.pdf"]
  /\ length (RAGAnythingCL.batches BatchCases.three_files 2)
     = BatchMeasure.number_of_chunks (length BatchCases.three_files) 2
  /\ (0 < length ["a.pdf"; "b.pdf"] <= 2)%nat.
Proof.
  destruct (chunks_shape BatchCases.three_files 2 0 ["a.pdf"; "b.pdf"])
    as (Hlen & _ & Hbounds & _).
  - lia.
  - reflexivity.
  - split; [reflexivity|]. split; [exact Hlen|exact Hbounds].
Defined.

(** X5.  What a call returns is determined by the configuration and the
    files, whatever the order in which the futures complete, and it is
    what the sequential run gives: a chunk size of zero raises; a negative
    one gives an empty mapping and parses nothing; with a positive chunk
    size and no worker the call raises unless there is no file; otherwise
    the call returns the mapping of the files that parse. *)
Theorem batch_outcome_is_determined
  (parse_document : string -> Py.outcome (list Py.pyval))
  (cfg : RAGAnythingCL.config) (file_paths : list string) :
  (forall ret, RAGAnythingCL.returns parse_document cfg file_paths ret
               <-> ret = RAGAnythingCL.parse_documents_batch parse_document cfg
                           file_paths)
  /\ RAGAnythingCL.parse_documents_batch parse_document cfg file_paths
     = (if decide (RAGAnythingCL.batch_size cfg = 0) then Py.Raise Py.ValueError
        else if decide (RAGAnythingCL.batch_size cfg < 0) then Py.Ok ∅
        else if decide (RAGAnythingCL.max_workers cfg <= 0 /\ file_paths <> [])
             then Py.Raise Py.ValueError
        else Py.Ok (RAGAnythingCL.parsed parse_document file_paths)).
Proof.
  assert (RAGAnythingCL.parse_documents_batch parse_document cfg file_paths
     = (if decide (RAGAnythingCL.batch_size cfg = 0) then Py.Raise Py.ValueError
        else if decide (RAGAnythingCL.batch_size cfg < 0) then Py.Ok ∅
        else if decide (RAGAnythingCL.max_workers cfg <= 0 /\ file_paths <> [])
             then Py.Raise Py.ValueError
        else Py.Ok (RAGAnythingCL.parsed parse_document file_paths))) as Hseq.
  { unfold RAGAnythingCL.parse_documents_batch.
    destruct (Z.eqb_spec (RAGAnythingCL.batch_size cfg) 0) as [Hz|Hz];
      destruct (decide (RAGAnythingCL.batch_size cfg = 0)); try lia; [reflexivity|].
    destruct (Z.ltb_spec (RAGAnythingCL.batch_size cfg) 0) as [Hn|Hn];
      destruct (decide (RAGAnythingCL.batch_size cfg < 0)); try lia; [reflexivity|].
    destruct (Z.leb_spec (RAGAnythingCL.max_workers cfg) 0) as [Hw|Hw]; cbn [andb].
    - destruct file_paths as [|f rest].
      + destruct (decide _) as [[_ Hne]|_]; [now destruct Hne|].
        f_equal. rewrite BatchFacts.fold_batches, BatchFacts.batches_concat by lia.
        now apply BatchFacts.fold_collect_parsed.
      + destruct (decide _) as [_|Hno]; [reflexivity|].
        destruct Hno. split; [exact Hw|discriminate].
    - destruct (decide _) as [[Hle _]|_]; [lia|].
      f_equal. rewrite BatchFacts.fold_batches, BatchFacts.batches_concat by lia.
      now apply BatchFacts.fold_collect_parsed. }
  split; [|exact Hseq].
  intros ret. rewrite Hseq.
  destruct (decide (RAGAnythingCL.batch_size cfg = 0)) as [Hz|Hz].
  { split; [|intros ->; now constructor].
    intros Hret. destruct Hret; try lia. reflexivity. }
  destruct (decide (RAGAnythingCL.batch_size cfg < 0)) as [Hn|Hn].
  { split; [|intros ->; now constructor].
    intros Hret. destruct Hret; try lia. reflexivity. }
  destruct (decide (RAGAnythingCL.max_workers cfg <= 0 /\ file_paths <> []))
    as [[Hw Hne]|Hno].
  { split; [|intros ->; apply RAGAnythingCL.returns_no_worker; [lia|exact Hw|exact Hne]].
    intros Hret. destruct Hret; try lia; try reflexivity. now destruct Hne. }
  destruct (Z.le_gt_cases (RAGAnythingCL.max_workers cfg) 0) as [Hw|Hw].
  - assert (file_paths = []) as ->.
    { destruct file_paths; [reflexivity|]. destruct Hno. split; [exact Hw|discriminate]. }
    split; [|intros ->; apply RAGAnythingCL.returns_nothing; [lia|exact Hw|reflexivity]].
    intros Hret. destruct Hret; try lia; try reflexivity. congruence.
  - apply BatchFacts.returns_parsed; lia.
Qed.

(** ** Counting the requests *)

Module RequestFacts.
Import Py Service Requests.

Lemma at_most_mono {A} (k k' : nat) (m : M A) :
  (k <= k')%nat -> at_most k m -> at_most k' m.
Proof.
  intros Hle Hm tr. destruct (Hm tr) as (more & Htr & Hlen).
  exists more. split; [exact Htr|lia].
Qed.

Lemma at_most_ret {A} (a : A) : at_most 0 (ret a).
Proof. intros tr. exists []. simpl. rewrite app_nil_r. split; [reflexivity|simpl; lia]. Qed.

Lemma at_most_lift {A} (o : outcome A) : at_most 0 (lift o).
Proof. intros tr. exists []. simpl. rewrite app_nil_r. split; [reflexivity|simpl; lia]. Qed.

Lemma at_most_request (llm : nat -> string -> option string) (prompt : string) :
  at_most 1 (request llm prompt).
Proof. intros tr. exists [prompt]. split; [reflexivity|simpl; lia]. Qed.

Lemma at_most_bind {A B} (a b : nat) (m : M A) (f : A -> M B) :
  at_most a m -> (forall x, at_most b (f x)) -> at_most (a + b) (bind m f).
Proof.
  intros Hm Hf tr. destruct (Hm tr) as (more & Htr & Hlen). unfold bind.
  destruct (m tr) as [[x|e] tr1]; simpl in Htr; subst tr1.
  - destruct (Hf x (tr ++ more)%list) as (more' & Htr' & Hlen').
    exists (more ++ more')%list. rewrite Htr', app_assoc, length_app.
    split; [reflexivity|lia].
  - exists more. split; [reflexivity|lia].
Qed.

Lemma at_most_catch {A} (a b : nat) (m : M A) (handler : exn -> M A) :
  at_most a m -> (forall e, at_most b (handler e)) -> at_most (a + b) (catch m handler).
Proof.
  intros Hm Hh tr. destruct (Hm tr) as (more & Htr & Hlen). unfold catch.
  destruct (m tr) as [[x|e] tr1]; simpl in Htr; subst tr1.
  - exists more. split; [reflexivity|lia].
  - destruct (Hh e (tr ++ more)%list) as (more' & Htr' & Hlen').
    exists (more ++ more')%list. rewrite Htr', app_assoc, length_app.
    split; [reflexivity|lia].
Qed.

(** The forms the code is written in. *)
Lemma at_most_bind_lift {A B} (b : nat) (o : outcome A) (f : A -> M B) :
  (forall x, at_most b (f x)) -> at_most b (bind (lift o) f).
Proof. intros Hf. apply (at_most_bind 0 b); [apply at_most_lift|exact Hf]. Qed.

Lemma at_most_catch_ret {A} (a : nat) (m : M A) (dflt : exn -> A) :
  at_most a m -> at_most a (catch m (fun e => ret (dflt e))).
Proof.
  intros Hm. apply (at_most_mono (a + 0)); [lia|].
  apply at_most_catch; [exact Hm|]. intros e. apply at_most_ret.
Qed.

Lemma at_most_zero {A} (m : M A) (tr : trace) :
  at_most 0 m -> snd (m tr) = tr.
Proof.
  intros Hm. destruct (Hm tr) as (more & -> & Hlen).
  destruct more; [now rewrite app_nil_r|simpl in Hlen; lia].
Qed.

Lemma at_most_ret_any {A} (k : nat) (a : A) : at_most k (ret a).
Proof. apply (at_most_mono 0); [lia|apply at_most_ret]. Qed.

Lemma at_most_lift_any {A} (k : nat) (o : outcome A) : at_most k (lift o).
Proof. apply (at_most_mono 0); [lia|apply at_most_lift]. Qed.

(** A computation that issues one more request than another. *)
Lemma at_most_bind_first {A B} (a b : nat) (m : M A) (f : A -> M B) :
  at_most a m -> (forall x, at_most 0 (f x)) -> at_most (a + b) (bind m f).
Proof.
  intros Hm Hf. apply (at_most_mono (a + 0)); [lia|]. now apply at_most_bind.
Qed.

Lemma bind_lift {A B} (o : outcome A) (f : A -> M B) (tr : trace) :
  bind (lift o) f tr
  = match o with Ok a => f a tr | Raise e => (Raise e, tr) end.
Proof. unfold bind, lift. now destruct o. Qed.

Lemma bind_unfold {A B} (m : M A) (f : A -> M B) (tr : trace) :
  bind m f tr
  = match m tr with (Ok a, tr') => f a tr' | (Raise e, tr') => (Raise e, tr') end.
Proof. reflexivity. Qed.

Lemma at_most_bind_lift_Ok {A B} (b : nat) (x : A) (f : A -> M B) :
  at_most b (f x) -> at_most b (bind (lift (Ok x)) f).
Proof. intros Hf tr. exact (Hf tr). Qed.

Lemma at_most_bind_lift_Raise {A B} (b : nat) (e : exn) (f : A -> M B) :
  at_most b (bind (lift (Raise e)) f).
Proof.
  intros tr. exists []. unfold bind, lift. simpl. rewrite app_nil_r.
  split; [reflexivity|lia].
Qed.

End RequestFacts.

(** The steps that count the requests of a computation written with
    [lift], [ret], [catch] and conditionals. *)
Ltac count_requests :=
  repeat first
    [ apply RequestFacts.at_most_ret_any
    | apply RequestFacts.at_most_lift_any
    | apply RequestFacts.at_most_bind_lift; intros ?
    | apply RequestFacts.at_most_catch_ret
    | match goal with
      | |- Requests.at_most _ (if ?b then _ else _) => destruct b
      | |- Requests.at_most _ (match ?x with _ => _ end) => destruct x
      end ].

(** ** [EntityExtractor]: requests *)

Module EntityExtractorRequests.
Import Py Service Requests RequestFacts.

(** One turn of the merger keeps the units flushed, or flushes the
    accumulator; it always leaves an accumulator. *)
Lemma merge_step_shape (m m' : list pyval) (cur cur' : option pyval) (b : pyval) :
  EntityExtractor.merge_step (m, cur) b = Ok (m', cur') ->
  (exists c', cur' = Some c')
  /\ (m' = m \/ exists c, cur = Some c /\ m' = (m ++ [c])%list).
Proof.
  unfold EntityExtractor.merge_step. intros Hs.
  destruct (py_get b "text" (PStr "")) as [raw|]; simpl in Hs; [|discriminate].
  destruct (py_strip raw) as [text|]; simpl in Hs; [|discriminate].
  destruct cur as [c|].
  2:{ injection Hs as <- <-. split; [eexists; reflexivity|now left]. }
  destruct (PyStr.len text <? 200)%nat.
  2:{ injection Hs as <- <-. split; [eexists; reflexivity|].
      right. exists c. now split. }
  destruct (py_getitem c "text") as [old|]; simpl in Hs; [|discriminate].
  destruct (py_iadd_str old _) as [new|]; simpl in Hs; [|discriminate].
  destruct (py_setitem c "text" new) as [cur1|]; simpl in Hs; [|discriminate].
  destruct (py_get cur1 "merged_blocks" _) as [mb|]; simpl in Hs; [|discriminate].
  destruct (py_get b "block_index" _) as [bi|]; simpl in Hs; [|discriminate].
  destruct (py_add_list mb _) as [mb'|]; simpl in Hs; [|discriminate].
  destruct (py_setitem cur1 "merged_blocks" mb') as [cur2|]; simpl in Hs;
    [|discriminate].
  injection Hs as <- <-. split; [eexists; reflexivity|now left].
Qed.

Definition pending (cur : option pyval) : nat :=
  match cur with Some _ => 1%nat | None => 0%nat end.

Lemma merge_loop_length (blocks m m' : list pyval) (cur cur' : option pyval) :
  EntityExtractor.merge_loop (m, cur) blocks = Ok (m', cur') ->
  (length m' + pending cur' <= length m + pending cur + length blocks)%nat.
Proof.
  revert m cur. induction blocks as [|b rest IH]; intros m cur.
  - intros [= <- <-]. simpl. lia.
  - rewrite MergeFacts.merge_loop_cons.
    destruct (EntityExtractor.merge_step (m, cur) b) as [[m1 c1]|] eqn:Hs;
      cbn [obind]; [|discriminate].
    intros H. apply IH in H.
    apply merge_step_shape in Hs as [[c' ->] [->|(c & -> & ->)]].
    + cbn [pending] in *. destruct cur; cbn [pending length]; lia.
    + rewrite length_app in H. cbn [pending length] in *. lia.
Qed.

(** The merger gives at most as many units as it gets blocks. *)
Lemma merge_length (text_blocks units : list pyval) :
  EntityExtractor._merge_text_blocks text_blocks = Ok units ->
  (length units <= length text_blocks)%nat.
Proof.
  unfold EntityExtractor._merge_text_blocks.
  destruct (EntityExtractor.merge_loop ([], None) text_blocks) as [[m cur]|] eqn:Hl;
    cbn [obind]; [|discriminate].
  intros [= <-]. apply merge_loop_length in Hl. cbn [pending length] in Hl.
  destruct cur; cbn [fst snd pending] in *; rewrite ?length_app; cbn [length]; lia.
Qed.

Section Extractor.

Variable rt : runtime.
Variable has_client : bool.
Variable llm : nat -> string -> option string.

Local Abbreviation c := (per_call has_client).

Lemma call_at_most (prompt : string) :
  at_most c (EntityExtractor._async_openai_call has_client llm prompt).
Proof.
  unfold EntityExtractor._async_openai_call, per_call.
  destruct has_client; [apply at_most_request|apply at_most_ret].
Qed.

Lemma extraction_at_most (prompt : string) :
  at_most c (EntityExtractor._call_llm_for_extraction rt has_client llm prompt).
Proof.
  unfold EntityExtractor._call_llm_for_extraction.
  apply (at_most_mono (c + 0)); [lia|].
  apply at_most_bind; [apply call_at_most|]. intros response. count_requests.
Qed.

Lemma text_unit_at_most (block : pyval) (text_content : string) :
  at_most c (EntityExtractor.text_unit_entities rt has_client llm block text_content).
Proof.
  unfold EntityExtractor.text_unit_entities. apply at_most_catch_ret.
  apply (at_most_mono (c + 0)); [lia|].
  apply at_most_bind; [apply extraction_at_most|]. intros r. count_requests.
Qed.

Lemma text_loop_at_most (blocks : list pyval) :
  at_most (c * length blocks) (EntityExtractor.text_loop rt has_client llm blocks).
Proof.
  induction blocks as [|b rest IH]; cbn [EntityExtractor.text_loop].
  - count_requests.
  - apply at_most_bind_lift. intros raw. apply at_most_bind_lift. intros text.
    apply (at_most_mono (c + (c * length rest + 0))).
    { cbn [length]. rewrite Nat.mul_succ_r. lia. }
    apply at_most_bind.
    + destruct (PyStr.len text <? 10)%nat; [count_requests|apply text_unit_at_most].
    + intros added. apply at_most_bind; [exact IH|]. intros more. count_requests.
Qed.

Lemma text_entities_at_most (text_blocks : list pyval) :
  at_most (c * length text_blocks)
    (EntityExtractor._extract_text_entities rt has_client llm text_blocks).
Proof.
  unfold EntityExtractor._extract_text_entities.
  destruct (EntityExtractor._merge_text_blocks text_blocks) as [units|e] eqn:Hm.
  - apply at_most_bind_lift_Ok.
    apply (at_most_mono (c * length units + 0)).
    { apply merge_length in Hm. rewrite Nat.add_0_r. now apply Nat.mul_le_mono_l. }
    apply at_most_bind; [apply text_loop_at_most|]. intros all. count_requests.
  - apply at_most_bind_lift_Raise.
Qed.

Lemma table_unit_at_most (block table_caption table_body : pyval) :
  at_most c (EntityExtractor.table_unit_entities rt has_client llm block
               table_caption table_body).
Proof.
  unfold EntityExtractor.table_unit_entities. apply at_most_catch_ret.
  apply at_most_bind_lift. intros table_data.
  apply (at_most_mono (c + 0)); [lia|].
  apply at_most_bind; [apply extraction_at_most|]. intros r. count_requests.
Qed.

Lemma table_loop_at_most (blocks : list pyval) :
  at_most (c * length blocks) (EntityExtractor.table_loop rt has_client llm blocks).
Proof.
  induction blocks as [|b rest IH]; cbn [EntityExtractor.table_loop].
  - count_requests.
  - apply at_most_bind_lift. intros caption. apply at_most_bind_lift. intros body.
    apply (at_most_mono (c + (c * length rest + 0))).
    { cbn [length]. rewrite Nat.mul_succ_r. lia. }
    apply at_most_bind.
    + destruct (truthy body); [apply table_unit_at_most|count_requests].
    + intros added. apply at_most_bind; [exact IH|]. intros more. count_requests.
Qed.

Lemma table_entities_at_most (table_blocks : list pyval) :
  at_most (c * length table_blocks)
    (EntityExtractor._extract_table_entities rt has_client llm table_blocks).
Proof.
  unfold EntityExtractor._extract_table_entities.
  apply (at_most_mono (c * length table_blocks + 0)); [lia|].
  apply at_most_bind; [apply table_loop_at_most|]. intros all. count_requests.
Qed.

Lemma structure_at_most (content_list : list pyval) :
  at_most c (EntityExtractor._analyze_document_structure rt has_client llm content_list).
Proof.
  unfold EntityExtractor._analyze_document_structure. apply at_most_catch_ret.
  apply at_most_bind_lift. intros content_blocks.
  apply (at_most_mono (c + 0)); [lia|].
  apply at_most_bind; [apply extraction_at_most|]. intros r. count_requests.
Qed.

Lemma relationships_at_most (entities : list pyval) :
  at_most c (EntityExtractor._extract_entity_relationships rt has_client llm entities).
Proof.
  unfold EntityExtractor._extract_entity_relationships.
  destruct (length entities <? 2)%nat; [count_requests|].
  apply at_most_bind_lift. intros names. apply at_most_bind_lift. intros listed.
  apply at_most_catch_ret.
  apply (at_most_mono (c + 0)); [lia|].
  apply at_most_bind; [apply extraction_at_most|]. intros r. count_requests.
Qed.

Lemma entities_of_at_most (result : pyval) :
  at_most 0 (EntityExtractor.entities_of result).
Proof. unfold EntityExtractor.entities_of. count_requests. Qed.

Lemma extract_classified_at_most (h : gmap Heap.loc pyval)
  (content_list text_blocks table_blocks : list Heap.loc) (extract_relations : bool) :
  at_most (c * (length text_blocks + length table_blocks + 2))
    (EntityExtractor.extract_classified rt has_client llm h content_list
       text_blocks table_blocks extract_relations).
Proof.
  unfold EntityExtractor.extract_classified.
  apply (at_most_mono
           (c * length text_blocks + (c * length table_blocks + (c + (c + 0)))));
    [lia|].
  apply at_most_bind.
  { destruct text_blocks as [|l rest]; [count_requests|].
    apply (at_most_mono (c * length (l :: rest) + 0)); [lia|].
    apply at_most_bind; [|intros r; apply entities_of_at_most].
    rewrite <- (length_map (Heap.deref h) (l :: rest)). apply text_entities_at_most. }
  intros text_found. apply at_most_bind.
  { destruct table_blocks as [|l rest]; [count_requests|].
    apply (at_most_mono (c * length (l :: rest) + 0)); [lia|].
    apply at_most_bind; [|intros r; apply entities_of_at_most].
    rewrite <- (length_map (Heap.deref h) (l :: rest)). apply table_entities_at_most. }
  intros table_found. apply at_most_bind; [apply structure_at_most|].
  intros doc. apply at_most_bind.
  { destruct (extract_relations && _); [|count_requests].
    apply (at_most_mono (c + 0)); [lia|].
    apply at_most_bind; [apply relationships_at_most|]. intros r. count_requests. }
  intros rels. count_requests.
Qed.

(** The classification keeps at most one reference for each element. *)
Lemma classify_loop_length (content_list : list Heap.loc) (i : nat)
  (st : gmap Heap.loc pyval * list Heap.loc * list Heap.loc) :
  (length (snd (fst (EntityExtractor.classify_loop i content_list st)))
   + length (snd (EntityExtractor.classify_loop i content_list st))
   <= length (snd (fst st)) + length (snd st) + length content_list)%nat.
Proof.
  revert i st. induction content_list as [|l rest IH]; intros i st;
    cbn [EntityExtractor.classify_loop length]; [lia|].
  etransitivity; [apply IH|].
  destruct st as [[h tb] tab]. unfold EntityExtractor.classify_step.
  destruct (h !! l) as [[| | | | | |d]|]; cbn [fst snd]; try lia.
  destruct (is_str_eq "text" _); [cbn [fst snd]; rewrite length_app; simpl; lia|].
  destruct (is_str_eq "table" _); cbn [fst snd]; rewrite ?length_app; simpl; lia.
Qed.

Lemma entity_extractor_at_most (h : gmap Heap.loc pyval) (content_list : list Heap.loc)
  (extract_relations : bool) :
  at_most (c * (length content_list + 2))
    (snd (EntityExtractor.extract_entities_from_content_list rt has_client llm
            h content_list extract_relations)).
Proof.
  unfold EntityExtractor.extract_entities_from_content_list.
  pose proof (classify_loop_length content_list 0 (h, [], [])) as Hlen.
  fold (EntityExtractor.classify h content_list) in Hlen.
  destruct (EntityExtractor.classify h content_list) as [[h' tb] tab].
  cbn [fst snd length] in *.
  eapply at_most_mono; [|apply extract_classified_at_most].
  apply Nat.mul_le_mono_l. lia.
Qed.

(** *** Without a client *)

Definition runs_to {A} (m : M A) (a : A) : Prop := forall tr, m tr = (Ok a, tr).

Definition runs_to_or_raises {A} (m : M A) (a : A) : Prop :=
  forall tr, m tr = (Ok a, tr) \/ exists e, m tr = (Raise e, tr).

Lemma extraction_no_client (prompt : string) :
  runs_to (EntityExtractor._call_llm_for_extraction rt false llm prompt) PNone.
Proof. intros tr. reflexivity. Qed.

Lemma text_unit_no_client (block : pyval) (text_content : string) :
  runs_to (EntityExtractor.text_unit_entities rt false llm block text_content) [].
Proof.
  intros tr. unfold EntityExtractor.text_unit_entities, catch, bind.
  now rewrite extraction_no_client.
Qed.

Lemma text_loop_no_client (blocks : list pyval) :
  runs_to_or_raises (EntityExtractor.text_loop rt false llm blocks) [].
Proof.
  induction blocks as [|b rest IH]; intros tr; cbn [EntityExtractor.text_loop].
  - now left.
  - rewrite bind_lift.
    destruct (py_get b "text" (PStr "")) as [raw|e]; [|right; now exists e].
    rewrite bind_lift. destruct (py_strip raw) as [text|e]; [|right; now exists e].
    rewrite bind_unfold.
    assert ((if (PyStr.len text <? 10)%nat then ret []
             else EntityExtractor.text_unit_entities rt false llm b text) tr
            = (Ok [], tr)) as ->.
    { destruct (PyStr.len text <? 10)%nat; [reflexivity|apply text_unit_no_client]. }
    rewrite bind_unfold.
    destruct (IH tr) as [->|[e ->]]; [now left|right; now exists e].
Qed.

Lemma text_entities_no_client (text_blocks : list pyval) :
  runs_to_or_raises
    (EntityExtractor._extract_text_entities rt false llm text_blocks)
    (PDict [("entities", PList [])]).
Proof.
  intros tr. unfold EntityExtractor._extract_text_entities, bind, lift.
  destruct (EntityExtractor._merge_text_blocks text_blocks) as [units|e];
    [|right; now exists e].
  destruct (text_loop_no_client units tr) as [->|[e ->]];
    [now left|right; now exists e].
Qed.

Lemma table_unit_no_client (block table_caption table_body : pyval) :
  runs_to (EntityExtractor.table_unit_entities rt false llm block
             table_caption table_body) [].
Proof.
  intros tr. unfold EntityExtractor.table_unit_entities, catch, bind, lift.
  destruct (EntityExtractor._format_table_for_llm rt table_body); [|reflexivity].
  now rewrite extraction_no_client.
Qed.

Lemma table_loop_no_client (blocks : list pyval) :
  runs_to_or_raises (EntityExtractor.table_loop rt false llm blocks) [].
Proof.
  induction blocks as [|b rest IH]; intros tr; cbn [EntityExtractor.table_loop].
  - now left.
  - rewrite bind_lift.
    destruct (py_get b "table_caption" _) as [caption|e]; [|right; now exists e].
    rewrite bind_lift.
    destruct (py_get b "table_body" _) as [body|e]; [|right; now exists e].
    rewrite bind_unfold.
    assert ((if truthy body
             then EntityExtractor.table_unit_entities rt false llm b caption body
             else ret []) tr = (Ok [], tr)) as ->.
    { destruct (truthy body); [apply table_unit_no_client|reflexivity]. }
    rewrite bind_unfold.
    destruct (IH tr) as [->|[e ->]]; [now left|right; now exists e].
Qed.

Lemma table_entities_no_client (table_blocks : list pyval) :
  runs_to_or_raises
    (EntityExtractor._extract_table_entities rt false llm table_blocks)
    (PDict [("entities", PList [])]).
Proof.
  intros tr. unfold EntityExtractor._extract_table_entities, bind.
  destruct (table_loop_no_client table_blocks tr) as [->|[e ->]];
    [now left|right; now exists e].
Qed.

Lemma structure_no_client (content_list : list pyval) :
  runs_to (EntityExtractor._analyze_document_structure rt false llm content_list)
    (PDict []).
Proof.
  intros tr. unfold EntityExtractor._analyze_document_structure, catch, bind, lift.
  destruct (EntityExtractor.dumps rt _); [|reflexivity].
  now rewrite extraction_no_client.
Qed.

Lemma extract_classified_no_client (h : gmap Heap.loc pyval)
  (content_list text_blocks table_blocks : list Heap.loc) (extract_relations : bool) :
  runs_to_or_raises
    (EntityExtractor.extract_classified rt false llm h content_list
       text_blocks table_blocks extract_relations)
    (PDict [("entities", PList []);
            ("relationships", PList []);
            ("document_analysis", PDict []);
            ("statistics",
             EntityExtractor.statistics [] [] text_blocks table_blocks)]).
Proof.
  intros tr. unfold EntityExtractor.extract_classified.
  assert (runs_to_or_raises
            match text_blocks with
            | [] => ret []
            | _ => let* text_entities :=
                     EntityExtractor._extract_text_entities rt false llm
                       (map (Heap.deref h) text_blocks) in
                   EntityExtractor.entities_of text_entities
            end []) as Htext.
  { destruct text_blocks as [|l rest]; [now left|]. intros tr0.
    rewrite bind_unfold.
    destruct (text_entities_no_client (map (Heap.deref h) (l :: rest)) tr0)
      as [->|[e ->]]; [left; reflexivity|right; now exists e]. }
  assert (runs_to_or_raises
            match table_blocks with
            | [] => ret []
            | _ => let* table_entities :=
                     EntityExtractor._extract_table_entities rt false llm
                       (map (Heap.deref h) table_blocks) in
                   EntityExtractor.entities_of table_entities
            end []) as Htable.
  { destruct table_blocks as [|l rest]; [now left|]. intros tr0.
    rewrite bind_unfold.
    destruct (table_entities_no_client (map (Heap.deref h) (l :: rest)) tr0)
      as [->|[e ->]]; [left; reflexivity|right; now exists e]. }
  rewrite bind_unfold.
  destruct (Htext tr) as [->|[e ->]]; [|right; now exists e].
  rewrite bind_unfold.
  destruct (Htable tr) as [->|[e ->]]; [|right; now exists e].
  rewrite bind_unfold, structure_no_client.
  rewrite bind_unfold. cbn [app length]. rewrite andb_false_r. now left.
Qed.

End Extractor.

End EntityExtractorRequests.

(** ** [RAGAnythingEntityExtractor]: requests *)

Module RAGAnythingRequests.
Import Py Service Requests RequestFacts.

Section Extractor.

Variable rt : runtime.
Variable has_client : bool.
Variable llm : nat -> string -> option string.

Local Abbreviation c := (per_call has_client).

Lemma call_llm_at_most (prompt : string) :
  at_most c (RAGAnythingEntityExtractor._call_llm has_client llm prompt).
Proof.
  unfold RAGAnythingEntityExtractor._call_llm, per_call.
  destruct has_client; [apply at_most_request|apply at_most_ret].
Qed.

Lemma process_content_at_most (content_type item : pyval) (i : nat) :
  at_most c (RAGAnythingEntityExtractor.process_content rt has_client llm
               content_type item i).
Proof.
  unfold RAGAnythingEntityExtractor.process_content.
  destruct (is_str_eq "text" content_type).
  { unfold RAGAnythingEntityExtractor._process_text_content.
    apply at_most_bind_lift. intros raw. apply at_most_bind_lift. intros text.
    destruct (PyStr.len text <? 10)%nat; [count_requests|].
    apply (at_most_mono (c + 0)); [lia|].
    apply at_most_bind; [apply call_llm_at_most|]. intros r. count_requests. }
  destruct (is_str_eq "table" content_type).
  { unfold RAGAnythingEntityExtractor._process_table_content.
    apply at_most_bind_lift. intros caption. apply at_most_bind_lift. intros body.
    destruct (truthy body); [|count_requests].
    apply at_most_bind_lift. intros table_str. apply at_most_bind_lift. intros short.
    apply at_most_bind_lift. intros img_path. apply at_most_bind_lift. intros footnote.
    apply (at_most_mono (c + 0)); [lia|].
    apply at_most_bind; [apply call_llm_at_most|]. intros r. count_requests. }
  destruct (is_str_eq "image" content_type).
  { unfold RAGAnythingEntityExtractor._process_image_content.
    apply at_most_bind_lift. intros caption. apply at_most_bind_lift. intros short.
    apply at_most_bind_lift. intros img_path. apply at_most_bind_lift. intros footnotes.
    apply (at_most_mono (c + 0)); [lia|].
    apply at_most_bind; [apply call_llm_at_most|]. intros r. count_requests. }
  unfold RAGAnythingEntityExtractor._process_generic_content.
  apply at_most_bind_lift. intros fallback. apply at_most_bind_lift. intros found.
  destruct (PyStr.len _ <? 5)%nat; [count_requests|].
  apply (at_most_mono (c + 0)); [lia|].
  apply at_most_bind; [apply call_llm_at_most|]. intros r. count_requests.
Qed.

Lemma item_results_at_most (item : pyval) (i : nat) :
  at_most c (RAGAnythingEntityExtractor.item_results rt has_client llm item i).
Proof.
  unfold RAGAnythingEntityExtractor.item_results. apply at_most_catch_ret.
  apply at_most_bind_lift. intros content_type.
  apply (at_most_mono (c + 0)); [lia|].
  apply at_most_bind; [apply process_content_at_most|]. intros r. count_requests.
Qed.

Lemma content_loop_at_most (content_list : list pyval) (i : nat) :
  at_most (c * length (List.filter is_dict content_list))
    (RAGAnythingEntityExtractor.content_loop rt has_client llm i content_list).
Proof.
  revert i. induction content_list as [|item rest IH]; intros i;
    cbn [RAGAnythingEntityExtractor.content_loop List.filter].
  - count_requests.
  - destruct (is_dict item); cbn [length].
    + apply (at_most_mono (c + (c * length (List.filter is_dict rest) + 0))).
      { rewrite Nat.mul_succ_r. lia. }
      apply at_most_bind; [apply item_results_at_most|]. intros added.
      apply at_most_bind; [apply IH|]. intros more. count_requests.
    + apply (at_most_mono (0 + (c * length (List.filter is_dict rest) + 0))); [lia|].
      apply at_most_bind; [apply at_most_ret|]. intros added.
      apply at_most_bind; [apply IH|]. intros more. count_requests.
Qed.

Lemma extract_at_most (content_list : list pyval) (extract_relations : bool) :
  at_most (c * length (List.filter is_dict content_list))
    (RAGAnythingEntityExtractor.extract_entities_from_content_list rt has_client llm
       content_list extract_relations).
Proof.
  unfold RAGAnythingEntityExtractor.extract_entities_from_content_list.
  apply (at_most_mono (c * length (List.filter is_dict content_list) + 0)); [lia|].
  apply at_most_bind; [apply content_loop_at_most|]. intros found. count_requests.
Qed.

(** *** The main loop does not raise *)

Lemma content_loop_total (content_list : list pyval) (i : nat) :
  total (RAGAnythingEntityExtractor.content_loop rt has_client llm i content_list).
Proof.
  revert i. induction content_list as [|item rest IH]; intros i tr;
    cbn [RAGAnythingEntityExtractor.content_loop].
  - now exists ([], []).
  - rewrite bind_unfold.
    assert (exists added tr1,
      (if is_dict item
       then RAGAnythingEntityExtractor.item_results rt has_client llm item i
       else ret ([], [])) tr = (Ok added, tr1)) as (added & tr1 & ->).
    { destruct (is_dict item); [|now exists ([], []), tr].
      unfold RAGAnythingEntityExtractor.item_results.
      apply (ServiceFacts.catch_ret_total _ (fun _ => ([], []))). }
    rewrite bind_unfold. destruct (IH (S i) tr1) as [more Hmore].
    destruct (RAGAnythingEntityExtractor.content_loop rt has_client llm (S i) rest tr1)
      as [[found|e] tr2]; simpl in Hmore; [|discriminate].
    eexists. reflexivity.
Qed.

End Extractor.

(** *** Without a client *)

Section NoClient.

Variable rt : runtime.
Variable llm : nat -> string -> option string.

Lemma modal_result_None (entity_name kind : string) :
  RAGAnythingEntityExtractor.modal_result PNone entity_name kind = Ok PNone.
Proof. reflexivity. Qed.




End NoClient.

End RAGAnythingRequests.

(** X6.  [EntityExtractor] issues at most one request for each element of
    the content list and two more (the structure analysis and the
    relationships), and none at all without a client; this holds for
    [extract_entities_from_content_list] and for [extract_entities_sync],
    whatever the blocks hold and whatever the service answers. *)
Theorem entity_extractor_requests (rt : Py.runtime) (has_client : bool)
  (llm : nat -> string -> option string) (h : gmap Heap.loc Py.pyval)
  (content_list : list Heap.loc) (extract_relations : bool) :
  Requests.at_most (Requests.per_call has_client * (length content_list + 2))
    (snd (EntityExtractor.extract_entities_from_content_list rt has_client llm
            h content_list extract_relations))
  /\ Requests.at_most (Requests.per_call has_client * (length content_list + 2))
       (snd (EntityExtractor.extract_entities_sync rt has_client llm h content_list)).
Proof.
  split; [apply EntityExtractorRequests.entity_extractor_at_most|].
  unfold EntityExtractor.extract_entities_sync.
  pose proof (EntityExtractorRequests.entity_extractor_at_most rt has_client llm
                h content_list true) as Hrun.
  destruct (EntityExtractor.extract_entities_from_content_list rt has_client llm
              h content_list true) as [h' run].
  cbn [snd] in *. now apply RequestFacts.at_most_catch_ret.
Qed.

(** X7.  [RAGAnythingEntityExtractor] issues at most one request for each
    dict of the content list, and none without a client: an element that
    is not a dict, a text of fewer than 10 characters and a table without
    a body cost nothing, and the structure analysis is computed locally. *)
Theorem raganything_requests (rt : Py.runtime) (has_client : bool)
  (llm : nat -> string -> option string) (content_list : list Py.pyval)
  (extract_relations : bool) :
  Requests.at_most
    (Requests.per_call has_client * length (List.filter Py.is_dict content_list))
    (RAGAnythingEntityExtractor.extract_entities_from_content_list rt has_client llm
       content_list extract_relations)
  /\ Requests.at_most
       (Requests.per_call has_client * length (List.filter Py.is_dict content_list))
       (RAGAnythingEntityExtractor.extract_entities_sync rt has_client llm content_list).
Proof.
  split; [apply RAGAnythingRequests.extract_at_most|].
  unfold RAGAnythingEntityExtractor.extract_entities_sync.
  apply RequestFacts.at_most_catch_ret. apply RAGAnythingRequests.extract_at_most.
Qed.

(** X8.  Without a client (an empty API key) [extract_entities_sync] of
    [EntityExtractor] returns, from any content list, a result with no
    entity, no relationship and an empty document analysis, and leaves
    the trace of requests as it was. *)
Theorem entity_extractor_without_client (rt : Py.runtime)
  (llm : nat -> string -> option string) (h : gmap Heap.loc Py.pyval)
  (content_list : list Heap.loc) (tr : Service.trace) :
  exists stats,
    snd (EntityExtractor.extract_entities_sync rt false llm h content_list) tr
    = (Py.Ok (Py.PDict [("entities", Py.PList []);
                        ("relationships", Py.PList []);
                        ("document_analysis", Py.PDict []);
                        ("statistics", stats)]), tr).
Proof.
  unfold EntityExtractor.extract_entities_sync,
    EntityExtractor.extract_entities_from_content_list.
  destruct (EntityExtractor.classify h content_list) as [[h' tb] tab].
  cbn [snd]. unfold Service.catch.
  destruct (EntityExtractorRequests.extract_classified_no_client rt llm h'
              content_list tb tab true tr) as [->|[e ->]];
    eexists; reflexivity.
Qed.


(** X10.  The main loop of [RAGAnythingEntityExtractor] does not raise,
    whatever the blocks hold and whatever the service answers: a block
    whose processing fails adds nothing and the loop goes on.  The whole
    call returns whenever the structure analysis, which is outside the
    loop, does. *)
Theorem raganything_loop_is_total (rt : Py.runtime) (has_client : bool)
  (llm : nat -> string -> option string) (content_list : list Py.pyval)
  (extract_relations : bool) (document_analysis : Py.pyval) (tr : Service.trace) :
  RAGAnythingEntityExtractor._analyze_document_structure rt content_list
  = Py.Ok document_analysis ->
  exists entities relationships tr',
    RAGAnythingEntityExtractor.content_loop rt has_client llm 0 content_list tr
    = (Py.Ok (entities, relationships), tr')
    /\ RAGAnythingEntityExtractor.extract_entities_from_content_list rt has_client llm
         content_list extract_relations tr
       = (Py.Ok (Py.PDict
                   [("entities", Py.PList entities);
                    ("relationships", Py.PList relationships);
                    ("document_analysis", document_analysis);
                    ("statistics",
                     RAGAnythingEntityExtractor.statistics entities relationships
                       content_list)]), tr').
Proof.
  intros Hdoc.
  destruct (RAGAnythingRequests.content_loop_total rt has_client llm content_list 0 tr)
    as [[entities relationships] Hloop].
  destruct (RAGAnythingEntityExtractor.content_loop rt has_client llm 0 content_list tr)
    as [[found|e] tr'] eqn:Hrun; simpl in Hloop; [|discriminate].
  injection Hloop as ->.
  exists entities, relationships, tr'. split; [reflexivity|].
  unfold RAGAnythingEntityExtractor.extract_entities_from_content_list.
  rewrite RequestFacts.bind_unfold, Hrun, RequestFacts.bind_lift, Hdoc.
  reflexivity.
Qed.

(** ** The tags of the entities *)

Module TagFacts.
Import Py Service ServiceFacts Provenance DictFacts.

Lemma set_items_cons (k : string) (v : pyval) (tags : list (string * pyval))
  (e e' : pyval) :
  set_items ((k, v) :: tags) e = Ok e' ->
  exists d, e = PDict d /\ set_items tags (PDict (assoc_set k v d)) = Ok e'.
Proof.
  destruct e as [| | | | | |d]; cbn [set_items py_setitem obind]; try discriminate.
  intros H. now exists d.
Qed.

Lemma tag_all_Forall2 (tags : list (string * pyval)) (items es : list pyval) :
  tag_all tags items = Ok es ->
  Forall2 (fun x e => set_items tags x = Ok e) items es.
Proof.
  revert es. induction items as [|x rest IH]; intros es; cbn [tag_all].
  - intros [= <-]. constructor.
  - destruct (set_items tags x) as [e|] eqn:He; cbn [obind]; [|discriminate].
    destruct (tag_all tags rest) as [es'|]; cbn [obind]; [|discriminate].
    intros [= <-]. constructor; [exact He|now apply IH].
Qed.

Lemma tag_all_Forall (tags : list (string * pyval)) (items es : list pyval)
  (P : pyval -> Prop) :
  (forall x e, set_items tags x = Ok e -> P e) ->
  tag_all tags items = Ok es -> Forall P es.
Proof.
  intros HP H. apply tag_all_Forall2 in H.
  induction H as [|x e items es Hx _ IH]; constructor; [now apply (HP x)|exact IH].
Qed.

End TagFacts.

Module RAGAnythingTags.
Import Py Service ServiceFacts Provenance DictFacts TagFacts RequestFacts.

Lemma bind_lift_Ok {A B} (o : outcome A) (f : A -> M B) (tr tr' : trace) (b : B) :
  bind (lift o) f tr = (Ok b, tr') -> exists a, o = Ok a /\ f a tr = (Ok b, tr').
Proof. rewrite bind_lift. destruct o as [a|e]; [eauto|discriminate]. Qed.

Section Extractor.

Variable rt : runtime.
Variable has_client : bool.
Variable llm : nat -> string -> option string.

(** The tags of what the dict [item] at position [i] adds. *)
Definition entity_of (item : list (string * pyval)) (i : nat) (e : pyval) : Prop :=
  exists d,
    e = PDict d /\
    assoc_get "source_block" d = Some (PInt (Z.of_nat i)) /\
    assoc_get "source_page" d = Some (dict_get "page_idx" (PInt 0) item) /\
    assoc_get "source_type" d = Some (dict_get "type" (PStr "text") item).

Definition rel_of (item : list (string * pyval)) (i : nat) (r : pyval) : Prop :=
  exists d,
    r = PDict d /\
    assoc_get "source_block" d = Some (PInt (Z.of_nat i)) /\
    assoc_get "source_page" d = Some (dict_get "page_idx" (PInt 0) item).

Lemma item_results_tags (item : list (string * pyval)) (i : nat) (tr tr' : trace)
  (es rs : list pyval) :
  RAGAnythingEntityExtractor.item_results rt has_client llm (PDict item) i tr
  = (Ok (es, rs), tr') ->
  Forall (entity_of item i) es /\ Forall (rel_of item i) rs.
Proof.
  unfold RAGAnythingEntityExtractor.item_results, catch.
  match goal with |- context [match ?body tr with _ => _ end] =>
    destruct (body tr) as [[res|e] tr1] eqn:Hbody
  end.
  2:{ intros H. apply ret_Ok in H as [[= <- <-] _]. split; constructor. }
  intros [= -> ->].
  apply bind_lift_Ok in Hbody as (content_type & [= <-] & Hbody).
  apply bind_Ok in Hbody as (result & tr2 & _ & Hbody).
  destruct (truthy result).
  2:{ apply ret_Ok in Hbody as [[= <- <-] _]. split; constructor. }
  apply bind_lift_Ok in Hbody as (entities & _ & Hbody).
  apply bind_lift_Ok in Hbody as (relationships & _ & Hbody).
  apply bind_lift_Ok in Hbody as (entity_items & _ & Hbody).
  apply bind_lift_Ok in Hbody as (source_page & [= <-] & Hbody).
  apply bind_lift_Ok in Hbody as (tagged & Htagged & Hbody).
  apply bind_lift_Ok in Hbody as (relationship_items & _ & Hbody).
  apply bind_lift_Ok in Hbody as (tagged_rels & Hrels & Hbody).
  apply ret_Ok in Hbody as [[= <- <-] _].
  split.
  - eapply tag_all_Forall; [|exact Htagged]. intros x e Hx.
    apply set_items_cons in Hx as (d & _ & Hx).
    apply set_items_cons in Hx as (d1 & [= <-] & Hx).
    apply set_items_cons in Hx as (d2 & [= <-] & Hx).
    injection Hx as <-. eexists. split; [reflexivity|].
    split_and!; rewrite ?assoc_get_set_ne by discriminate; apply assoc_get_set_eq.
  - eapply tag_all_Forall; [|exact Hrels]. intros x e Hx.
    apply set_items_cons in Hx as (d & _ & Hx).
    apply set_items_cons in Hx as (d1 & [= <-] & Hx).
    injection Hx as <-. eexists. split; [reflexivity|].
    split_and!; rewrite ?assoc_get_set_ne by discriminate; apply assoc_get_set_eq.
Qed.

Lemma content_loop_tags (content_list : list pyval) (i : nat) (tr tr' : trace)
  (es rs : list pyval) :
  RAGAnythingEntityExtractor.content_loop rt has_client llm i content_list tr
  = (Ok (es, rs), tr') ->
  Forall (fun e => exists j item, content_list !! j = Some (PDict item)
                                  /\ entity_of item (i + j) e) es
  /\ Forall (fun r => exists j item, content_list !! j = Some (PDict item)
                                     /\ rel_of item (i + j) r) rs.
Proof.
  revert i tr tr' es rs.
  induction content_list as [|x rest IH]; intros i tr tr' es rs;
    cbn [RAGAnythingEntityExtractor.content_loop].
  - intros H. apply ret_Ok in H as [[= <- <-] _]. split; constructor.
  - intros H. apply bind_Ok in H as ([es1 rs1] & tr1 & Hitem & H).
    apply bind_Ok in H as ([es2 rs2] & tr2 & Hrest & H).
    apply ret_Ok in H as [[= <- <-] _]. cbn [fst snd].
    apply IH in Hrest as [Hes2 Hrs2].
    assert (Forall (fun e => exists j item, (x :: rest) !! j = Some (PDict item)
                                            /\ entity_of item (i + j) e) es1
            /\ Forall (fun r => exists j item, (x :: rest) !! j = Some (PDict item)
                                               /\ rel_of item (i + j) r) rs1)
      as [Hes1 Hrs1].
    { destruct x as [| | | | | |item]; cbn [is_dict] in Hitem;
        try (apply ret_Ok in Hitem as [[= <- <-] _]; split; constructor).
      apply item_results_tags in Hitem as [He Hr]. split.
      - eapply Forall_impl; [exact He|]. intros e Hent. exists 0%nat, item.
        rewrite Nat.add_0_r. now split.
      - eapply Forall_impl; [exact Hr|]. intros r Hrel. exists 0%nat, item.
        rewrite Nat.add_0_r. now split. }
    split; apply Forall_app; split; try assumption.
    + eapply Forall_impl; [exact Hes2|]. intros e (j & item & Hj & Hent).
      exists (S j), item. split; [exact Hj|].
      now replace (i + S j)%nat with (S i + j)%nat by lia.
    + eapply Forall_impl; [exact Hrs2|]. intros r (j & item & Hj & Hrel).
      exists (S j), item. split; [exact Hj|].
      now replace (i + S j)%nat with (S i + j)%nat by lia.
Qed.

End Extractor.

End RAGAnythingTags.

(** X11.  Every entity that [RAGAnythingEntityExtractor] returns is a dict
    that carries, under [source_block], [source_page] and [source_type],
    the position, the page and the type of one dict of the content list;
    every relationship carries the position and the page of one. *)
Theorem raganything_provenance (rt : Py.runtime) (has_client : bool)
  (llm : nat -> string -> option string) (content_list : list Py.pyval)
  (extract_relations : bool) (tr tr' : Service.trace) (r : Py.pyval) :
  RAGAnythingEntityExtractor.extract_entities_from_content_list rt has_client llm
    content_list extract_relations tr = (Py.Ok r, tr') ->
  exists entities relationships,
    Cases.get_key "entities" r = Some (Py.PList entities) /\
    Cases.get_key "relationships" r = Some (Py.PList relationships) /\
    Forall (Provenance.from_item content_list) entities /\
    Forall (Provenance.rel_from_item content_list) relationships.
Proof.
  unfold RAGAnythingEntityExtractor.extract_entities_from_content_list. intros H.
  apply ServiceFacts.bind_Ok in H as ([es rs] & tr1 & Hloop & H).
  apply RAGAnythingTags.bind_lift_Ok in H as (doc & _ & H).
  apply ServiceFacts.ret_Ok in H as [<- _].
  apply RAGAnythingTags.content_loop_tags in Hloop as [Hes Hrs].
  exists es, rs. split; [reflexivity|]. split; [reflexivity|]. split.
  - eapply Forall_impl; [exact Hes|].
    intros e (j & item & Hj & d & -> & Hb & Hp & Ht).
    exists d, j, item. now split_and!.
  - eapply Forall_impl; [exact Hrs|].
    intros x (j & item & Hj & d & -> & Hb & Hp).
    exists d, j, item. now split_and!.
Qed.

(** The provenance of the entity found in one text block. *)
Lemma raganything_provenance_witness :
  exists r tr',
    RAGAnythingEntityExtractor.extract_entities_from_content_list PyModel.python true
      Cases.one_entity [Cases.text_block] true [] = (Py.Ok r, tr')
    /\ exists entities relationships,
         Cases.get_key "entities" r = Some (Py.PList entities) /\
         Cases.get_key "relationships" r = Some (Py.PList relationships) /\
         Forall (Provenance.from_item [Cases.text_block]) entities /\
         Forall (Provenance.rel_from_item [Cases.text_block]) relationships.
Proof.
  assert (exists r tr',
    RAGAnythingEntityExtractor.extract_entities_from_content_list PyModel.python true
      Cases.one_entity [Cases.text_block] true [] = (Py.Ok r, tr'))
    as (r & tr' & Hrun).
  { vm_compute. eexists _, _. reflexivity. }
  exists r, tr'. split; [exact Hrun|].
  exact (raganything_provenance PyModel.python true Cases.one_entity
           [Cases.text_block] true [] tr' r Hrun).
Defined.

(** The loop over a text block and an element that is not a dict. *)
Lemma raganything_loop_is_total_witness :
  exists entities relationships tr',
    RAGAnythingEntityExtractor.content_loop PyModel.python true Cases.one_entity 0
      [Cases.text_block; Py.PInt 3] []
    = (Py.Ok (entities, relationships), tr').
Proof.
  assert (exists doc,
    RAGAnythingEntityExtractor._analyze_document_structure PyModel.python
      [Cases.text_block; Py.PInt 3] = Py.Ok doc) as [doc Hdoc].
  { vm_compute. eexists. reflexivity. }
  destruct (raganything_loop_is_total PyModel.python true Cases.one_entity
              [Cases.text_block; Py.PInt 3] true doc [] Hdoc)
    as (entities & relationships & tr' & Hloop & _).
  exists entities, relationships, tr'. exact Hloop.
Defined.

(** ** [EntityExtractor]: the tags of the entities *)

Module EntityExtractorTags.
Import Py Service ServiceFacts Provenance DictFacts TagFacts RequestFacts.

Section Extractor.

Variable rt : runtime.
Variable has_client : bool.
Variable llm : nat -> string -> option string.

Lemma text_unit_tags (block : pyval) (text_content : string) (tr tr' : trace)
  (es : list pyval) :
  EntityExtractor.text_unit_entities rt has_client llm block text_content tr
  = (Ok es, tr') ->
  Forall tagged_entity es.
Proof.
  unfold EntityExtractor.text_unit_entities, catch.
  match goal with |- context [match ?body tr with _ => _ end] =>
    destruct (body tr) as [[res|e] tr1] eqn:Hbody
  end.
  2:{ intros H. apply ret_Ok in H as [<- _]. constructor. }
  intros [= -> ->].
  apply bind_Ok in Hbody as (result & tr2 & _ & Hbody).
  destruct (truthy result); [|apply ret_Ok in Hbody as [<- _]; constructor].
  apply RAGAnythingTags.bind_lift_Ok in Hbody as (has & _ & Hbody).
  destruct has; [|apply ret_Ok in Hbody as [<- _]; constructor].
  apply RAGAnythingTags.bind_lift_Ok in Hbody as (found & _ & Hbody).
  apply RAGAnythingTags.bind_lift_Ok in Hbody as (items & _ & Hbody).
  apply RAGAnythingTags.bind_lift_Ok in Hbody as (source_block & _ & Hbody).
  apply RAGAnythingTags.bind_lift_Ok in Hbody as (source_page & _ & Hbody).
  injection Hbody as Htag _.
  eapply tag_all_Forall; [|exact Htag]. intros x e Hx.
  apply set_items_cons in Hx as (d & _ & Hx).
  apply set_items_cons in Hx as (d1 & [= <-] & Hx).
  apply set_items_cons in Hx as (d2 & [= <-] & Hx).
  injection Hx as <-. eexists _, source_block, source_page.
  split; [reflexivity|]. split_and!; [..|left];
    rewrite ?assoc_get_set_ne by discriminate; apply assoc_get_set_eq.
Qed.

Lemma text_loop_tags (blocks : list pyval) (tr tr' : trace) (es : list pyval) :
  EntityExtractor.text_loop rt has_client llm blocks tr = (Ok es, tr') ->
  Forall tagged_entity es.
Proof.
  revert tr tr' es. induction blocks as [|b rest IH]; intros tr tr' es;
    cbn [EntityExtractor.text_loop].
  - intros H. apply ret_Ok in H as [<- _]. constructor.
  - intros H.
    apply RAGAnythingTags.bind_lift_Ok in H as (raw & _ & H).
    apply RAGAnythingTags.bind_lift_Ok in H as (text & _ & H).
    apply bind_Ok in H as (added & tr1 & Hadded & H).
    apply bind_Ok in H as (more & tr2 & Hmore & H).
    apply ret_Ok in H as [<- _]. apply Forall_app. split.
    + destruct (PyStr.len text <? 10)%nat.
      * apply ret_Ok in Hadded as [<- _]. constructor.
      * now apply text_unit_tags in Hadded.
    + now apply IH in Hmore.
Qed.

Lemma table_unit_tags (block table_caption table_body : pyval) (tr tr' : trace)
  (es : list pyval) :
  EntityExtractor.table_unit_entities rt has_client llm block table_caption
    table_body tr = (Ok es, tr') ->
  Forall tagged_entity es.
Proof.
  unfold EntityExtractor.table_unit_entities, catch.
  match goal with |- context [match ?body tr with _ => _ end] =>
    destruct (body tr) as [[res|e] tr1] eqn:Hbody
  end.
  2:{ intros H. apply ret_Ok in H as [<- _]. constructor. }
  intros [= -> ->].
  apply RAGAnythingTags.bind_lift_Ok in Hbody as (table_data & _ & Hbody).
  apply bind_Ok in Hbody as (result & tr2 & _ & Hbody).
  destruct (truthy result); [|apply ret_Ok in Hbody as [<- _]; constructor].
  apply RAGAnythingTags.bind_lift_Ok in Hbody as (has & _ & Hbody).
  destruct has; [|apply ret_Ok in Hbody as [<- _]; constructor].
  apply RAGAnythingTags.bind_lift_Ok in Hbody as (found & _ & Hbody).
  apply RAGAnythingTags.bind_lift_Ok in Hbody as (items & _ & Hbody).
  apply RAGAnythingTags.bind_lift_Ok in Hbody as (source_block & _ & Hbody).
  apply RAGAnythingTags.bind_lift_Ok in Hbody as (source_page & _ & Hbody).
  injection Hbody as Htag _.
  eapply tag_all_Forall; [|exact Htag]. intros x e Hx.
  apply set_items_cons in Hx as (d & _ & Hx).
  apply set_items_cons in Hx as (d1 & [= <-] & Hx).
  apply set_items_cons in Hx as (d2 & [= <-] & Hx).
  apply set_items_cons in Hx as (d3 & [= <-] & Hx).
  injection Hx as <-. eexists _, source_block, source_page.
  split; [reflexivity|]. split_and!; [..|right; split; [|exists table_caption]];
    rewrite ?assoc_get_set_ne by discriminate; apply assoc_get_set_eq.
Qed.

Lemma table_loop_tags (blocks : list pyval) (tr tr' : trace) (es : list pyval) :
  EntityExtractor.table_loop rt has_client llm blocks tr = (Ok es, tr') ->
  Forall tagged_entity es.
Proof.
  revert tr tr' es. induction blocks as [|b rest IH]; intros tr tr' es;
    cbn [EntityExtractor.table_loop].
  - intros H. apply ret_Ok in H as [<- _]. constructor.
  - intros H.
    apply RAGAnythingTags.bind_lift_Ok in H as (caption & _ & H).
    apply RAGAnythingTags.bind_lift_Ok in H as (body & _ & H).
    apply bind_Ok in H as (added & tr1 & Hadded & H).
    apply bind_Ok in H as (more & tr2 & Hmore & H).
    apply ret_Ok in H as [<- _]. apply Forall_app. split.
    + destruct (truthy body).
      * now apply table_unit_tags in Hadded.
      * apply ret_Ok in Hadded as [<- _]. constructor.
    + now apply IH in Hmore.
Qed.

Lemma extract_classified_tags (h : gmap Heap.loc pyval)
  (content_list text_blocks table_blocks : list Heap.loc) (extract_relations : bool)
  (tr tr' : trace) (r : pyval) :
  EntityExtractor.extract_classified rt has_client llm h content_list
    text_blocks table_blocks extract_relations tr = (Ok r, tr') ->
  exists entities,
    Cases.get_key "entities" r = Some (PList entities)
    /\ Forall tagged_entity entities.
Proof.
  unfold EntityExtractor.extract_classified. intros H.
  apply bind_Ok in H as (text_found & tr1 & Htext & H).
  apply bind_Ok in H as (table_found & tr2 & Htable & H).
  apply bind_Ok in H as (doc & tr3 & _ & H).
  apply bind_Ok in H as (rels & tr4 & _ & H).
  apply ret_Ok in H as [<- _].
  exists (text_found ++ table_found)%list. split; [reflexivity|].
  apply Forall_app. split.
  - destruct text_blocks as [|l rest]; [apply ret_Ok in Htext as [<- _]; constructor|].
    apply bind_Ok in Htext as (res & tr5 & Hres & Htext).
    unfold EntityExtractor._extract_text_entities in Hres.
    apply RAGAnythingTags.bind_lift_Ok in Hres as (units & _ & Hres).
    apply bind_Ok in Hres as (all & tr6 & Hall & Hres).
    apply ret_Ok in Hres as [<- _].
    unfold EntityExtractor.entities_of in Htext.
    apply RAGAnythingTags.bind_lift_Ok in Htext as (found & [= <-] & Htext).
    injection Htext as <- _. now apply text_loop_tags in Hall.
  - destruct table_blocks as [|l rest]; [apply ret_Ok in Htable as [<- _]; constructor|].
    apply bind_Ok in Htable as (res & tr5 & Hres & Htable).
    unfold EntityExtractor._extract_table_entities in Hres.
    apply bind_Ok in Hres as (all & tr6 & Hall & Hres).
    apply ret_Ok in Hres as [<- _].
    unfold EntityExtractor.entities_of in Htable.
    apply RAGAnythingTags.bind_lift_Ok in Htable as (found & [= <-] & Htable).
    injection Htable as <- _. now apply table_loop_tags in Hall.
Qed.

End Extractor.

End EntityExtractorTags.

(** X12.  Every entity that [EntityExtractor] returns is a dict that
    carries a [source_block], a [source_page] and the [source_type] [text]
    or [table], with a [source_caption] in the second case: when one
    entity of an answer cannot be tagged (it is not a dict), the whole
    answer is dropped. *)
Theorem entity_extractor_tags (rt : Py.runtime) (has_client : bool)
  (llm : nat -> string -> option string) (h : gmap Heap.loc Py.pyval)
  (content_list : list Heap.loc) (extract_relations : bool)
  (tr tr' : Service.trace) (r : Py.pyval) :
  snd (EntityExtractor.extract_entities_from_content_list rt has_client llm
         h content_list extract_relations) tr = (Py.Ok r, tr') ->
  exists entities,
    Cases.get_key "entities" r = Some (Py.PList entities)
    /\ Forall Provenance.tagged_entity entities.
Proof.
  unfold EntityExtractor.extract_entities_from_content_list.
  destruct (EntityExtractor.classify h content_list) as [[h' tb] tab]. cbn [snd].
  apply EntityExtractorTags.extract_classified_tags.
Qed.

(** The tags of the entity found in a text block of thirteen characters
    that follows one of two. *)
Lemma entity_extractor_tags_witness :
  exists r tr',
    snd (EntityExtractor.extract_entities_from_content_list PyModel.python true
           Cases.one_entity Cases.short_then_long Cases.both_refs true) []
    = (Py.Ok r, tr')
    /\ exists entities,
         Cases.get_key "entities" r = Some (Py.PList entities)
         /\ Forall Provenance.tagged_entity entities.
Proof.
  assert (exists r tr',
    snd (EntityExtractor.extract_entities_from_content_list PyModel.python true
           Cases.one_entity Cases.short_then_long Cases.both_refs true) []
    = (Py.Ok r, tr')) as (r & tr' & Hrun).
  { vm_compute. eexists _, _. reflexivity. }
  exists r, tr'. split; [exact Hrun|].
  exact (entity_extractor_tags PyModel.python true Cases.one_entity
           Cases.short_then_long Cases.both_refs true [] tr' r Hrun).
Defined.

(** ** The merger: units and failures *)

Module MergeMore.
Import Py Cases Blocks MergeFacts.

Lemma merge_loop_count (blocks merged : list pyval) (c : pyval) :
  Forall (fun b => mergeable b = true) blocks -> mergeable c = true ->
  exists merged' c',
    EntityExtractor.merge_loop (merged, Some c) blocks = Ok (merged', Some c')
    /\ length merged' = (length merged + length (List.filter long_text blocks))%nat.
Proof.
  intros Hblocks. revert merged c.
  induction Hblocks as [|b rest Hb Hrest IH]; intros merged c Hc.
  - exists merged, c. split; [reflexivity|]. simpl. lia.
  - rewrite merge_loop_cons. cbn [List.filter]. unfold long_text at 1.
    destruct (Nat.leb_spec 200 (trimmed_len b)) as [Hlong|Hshort].
    + rewrite merge_step_flush by assumption. cbn [obind].
      destruct (IH (merged ++ [c])%list b Hb) as (m' & c' & Hloop & Hlen).
      exists m', c'. split; [exact Hloop|].
      rewrite Hlen, length_app. cbn [length]. lia.
    + rewrite merge_step_absorb by assumption. cbn [obind].
      destruct (absorb_spec c b Hc) as (Hm & _).
      destruct (IH merged (absorb c b) Hm) as (m' & c' & Hloop & Hlen).
      exists m', c'. split; [exact Hloop|exact Hlen].
Qed.

(** A block whose text is not a string stops the merger, wherever it is. *)
Lemma merge_step_not_str (st : list pyval * option pyval) (d : list (string * pyval))
  (v : pyval) :
  assoc_get "text" d = Some v -> (forall s, v <> PStr s) ->
  EntityExtractor.merge_step st (PDict d) = Raise AttributeError.
Proof.
  intros Hv Hns. destruct st as [m cur]. unfold EntityExtractor.merge_step.
  cbn [py_get]. unfold dict_get. rewrite Hv.
  destruct v as [| | | |s| |]; try reflexivity. now destruct (Hns s).
Qed.

Lemma merge_raises (pre post : list pyval) (d : list (string * pyval)) (v : pyval) :
  assoc_get "text" d = Some v -> (forall s, v <> PStr s) ->
  exists e, EntityExtractor._merge_text_blocks (pre ++ PDict d :: post) = Raise e.
Proof.
  intros Hv Hns. unfold EntityExtractor._merge_text_blocks.
  rewrite merge_loop_app.
  destruct (EntityExtractor.merge_loop ([], None) pre) as [st|e]; cbn [obind].
  - rewrite merge_loop_cons, (merge_step_not_str st d v Hv Hns). cbn [obind].
    now exists AttributeError.
  - now exists e.
Qed.

End MergeMore.

(** X13.  On text blocks that are dicts with a string under [text], the
    merger does not raise, and it returns one unit for the first block and
    one for each later block of 200 characters or more (stripped): a
    shorter block is appended to the unit before it, however long that unit
    has become.  Without blocks it returns no unit. *)
Theorem merge_unit_count (b : Py.pyval) (rest : list Py.pyval) :
  Forall (fun x => Cases.mergeable x = true) (b :: rest) ->
  EntityExtractor._merge_text_blocks [] = Py.Ok []
  /\ exists units,
       EntityExtractor._merge_text_blocks (b :: rest) = Py.Ok units
       /\ length units = S (length (List.filter Blocks.long_text rest)).
Proof.
  intros Hall. split; [reflexivity|].
  apply Forall_cons in Hall as [Hb Hrest].
  destruct (MergeMore.merge_loop_count rest [] b Hrest Hb) as (m & c & Hloop & Hlen).
  exists (m ++ [c])%list. split.
  - unfold EntityExtractor._merge_text_blocks.
    rewrite MergeFacts.merge_loop_cons, MergeFacts.merge_step_first by assumption.
    cbn [Py.obind]. rewrite Hloop. reflexivity.
  - rewrite length_app, Hlen. simpl. lia.
Qed.

(** The blocks of 50 and 80 characters give one unit. *)
Lemma merge_unit_count_witness :
  exists units,
    EntityExtractor._merge_text_blocks [Cases.block50; Cases.block80] = Py.Ok units
    /\ length units = S (length (List.filter Blocks.long_text [Cases.block80])).
Proof.
  destruct (merge_unit_count Cases.block50 [Cases.block80]) as (_ & Hunits).
  - repeat constructor.
  - exact Hunits.
Defined.

(** ** The classification *)

Module ClassifyMore.
Import Py Service Heap Blocks DictFacts ClassifyFacts.

Lemma indexed_type (type : string) (i : nat) (o : option pyval) :
  match Cases.indexed i o with
  | Some (PDict d) => is_str_eq type (dict_get "type" (PStr "unknown") d)
  | _ => false
  end
  = match o with
    | Some (PDict d) => is_str_eq type (dict_get "type" (PStr "unknown") d)
    | _ => false
    end.
Proof.
  destruct o as [[| | | | | |d]|]; try reflexivity.
  cbn [Cases.indexed]. now rewrite dict_get_set_ne by discriminate.
Qed.

Lemma classify_step_type (type : string) (i : nat) (x l : loc)
  (st : gmap loc pyval * list loc * list loc) :
  has_type type (fst (fst (EntityExtractor.classify_step i x st))) l
  = has_type type (fst (fst st)) l.
Proof.
  unfold has_type. rewrite classify_step_heap.
  destruct (decide (l = x)); [apply indexed_type|reflexivity].
Qed.

Lemma text_is_not_table (v : pyval) :
  is_str_eq "text" v = true -> is_str_eq "table" v = false.
Proof.
  destruct v as [| | | |s| |]; try discriminate. cbn [is_str_eq].
  intros H. apply String.eqb_eq in H as <-. reflexivity.
Qed.

Lemma classify_step_lists (i : nat) (x : loc)
  (st : gmap loc pyval * list loc * list loc) :
  snd (fst (EntityExtractor.classify_step i x st))
  = (snd (fst st) ++ List.filter (has_type "text" (fst (fst st))) [x])%list
  /\ snd (EntityExtractor.classify_step i x st)
     = (snd st ++ List.filter (has_type "table" (fst (fst st))) [x])%list.
Proof.
  destruct st as [[h tb] tab]. unfold EntityExtractor.classify_step, has_type.
  cbn [fst snd List.filter].
  destruct (h !! x) as [[| | | | | |d]|]; cbn [fst snd];
    rewrite ?app_nil_r; try (split; reflexivity).
  destruct (is_str_eq "text" _) eqn:Htext.
  - rewrite (text_is_not_table _ Htext). cbn [fst snd]. now rewrite app_nil_r.
  - destruct (is_str_eq "table" _); cbn [fst snd]; now rewrite ?app_nil_r.
Qed.

Lemma classify_loop_lists (content_list : list loc) (i : nat)
  (st : gmap loc pyval * list loc * list loc) :
  snd (fst (EntityExtractor.classify_loop i content_list st))
  = (snd (fst st) ++ List.filter (has_type "text" (fst (fst st))) content_list)%list
  /\ snd (EntityExtractor.classify_loop i content_list st)
     = (snd st ++ List.filter (has_type "table" (fst (fst st))) content_list)%list.
Proof.
  revert i st. induction content_list as [|x rest IH]; intros i st;
    cbn [EntityExtractor.classify_loop].
  - cbn [List.filter]. now rewrite !app_nil_r.
  - destruct (IH (S i) (EntityExtractor.classify_step i x st)) as [-> ->].
    destruct (classify_step_lists i x st) as [-> ->].
    rewrite <- !app_assoc.
    rewrite (List.filter_ext _ _ (fun l => classify_step_type "text" i x l st)).
    rewrite (List.filter_ext _ _ (fun l => classify_step_type "table" i x l st)).
    change (x :: rest) with ([x] ++ rest)%list. rewrite !List.filter_app.
    split; reflexivity.
Qed.

Lemma classify_lists (h : gmap loc pyval) (content_list : list loc) :
  snd (fst (EntityExtractor.classify h content_list))
  = List.filter (has_type "text" h) content_list
  /\ snd (EntityExtractor.classify h content_list)
     = List.filter (has_type "table" h) content_list.
Proof. apply (classify_loop_lists content_list 0 (h, [], [])). Qed.

(** The classification leaves every key of a block but [block_index]. *)
Lemma classify_keeps (h : gmap loc pyval) (content_list : list loc) (l : loc)
  (d : list (string * pyval)) :
  h !! l = Some (PDict d) ->
  exists d', fst (fst (EntityExtractor.classify h content_list)) !! l = Some (PDict d')
             /\ forall k, k <> "block_index" -> assoc_get k d' = assoc_get k d.
Proof.
  intros Hl. rewrite classify_heap, Hl.
  destruct (Cases.last_pos l content_list) as [j|]; cbn [Cases.indexed].
  - eexists. split; [reflexivity|]. intros k Hk.
    apply assoc_get_set_ne. congruence.
  - exists d. now split.
Qed.

End ClassifyMore.

(** X14.  The classification of [EntityExtractor]: the text blocks are the
    references of the content list, in order, that denote a dict of type
    [text], the table blocks those that denote a dict of type [table];
    images, equations, dicts of any other type and elements that are not
    dicts are left out, and the two counts of the statistics are at most
    the length of the list. *)
Theorem classification_by_type (h : gmap Heap.loc Py.pyval)
  (content_list : list Heap.loc) :
  snd (fst (EntityExtractor.classify h content_list))
  = List.filter (Blocks.has_type "text" h) content_list
  /\ snd (EntityExtractor.classify h content_list)
     = List.filter (Blocks.has_type "table" h) content_list
  /\ (length (snd (fst (EntityExtractor.classify h content_list)))
      + length (snd (EntityExtractor.classify h content_list))
      <= length content_list)%nat.
Proof.
  destruct (ClassifyMore.classify_lists h content_list) as [Htext Htable].
  split; [exact Htext|]. split; [exact Htable|].
  pose proof (EntityExtractorRequests.classify_loop_length content_list 0 (h, [], []))
    as Hlen.
  exact Hlen.
Qed.

(** X15.  One malformed text block aborts [EntityExtractor]: when the
    content list holds a dict of type [text] whose [text] is present and
    not a string (a JSON [null], say), the merger raises before any
    request is made, no other block is processed, and
    [extract_entities_sync] returns the result of a failed run. *)
Theorem malformed_text_block_aborts (rt : Py.runtime) (has_client : bool)
  (llm : nat -> string -> option string) (h : gmap Heap.loc Py.pyval)
  (content_list : list Heap.loc) (l : Heap.loc) (d : list (string * Py.pyval))
  (v : Py.pyval) (tr : Service.trace) :
  In l content_list -> h !! l = Some (Py.PDict d) ->
  Py.dict_get "type" (Py.PStr "unknown") d = Py.PStr "text" ->
  Py.assoc_get "text" d = Some v -> (forall s, v <> Py.PStr s) ->
  exists e,
    snd (EntityExtractor.extract_entities_sync rt has_client llm h content_list) tr
    = (Py.Ok (EntityExtractor.error_result rt e), tr).
Proof.
  intros Hin Hl Htype Htext Hns.
  unfold EntityExtractor.extract_entities_sync,
    EntityExtractor.extract_entities_from_content_list.
  destruct (ClassifyMore.classify_lists h content_list) as [Htb _].
  destruct (ClassifyMore.classify_keeps h content_list l d Hl) as (d' & Hl' & Hkeys).
  destruct (EntityExtractor.classify h content_list) as [[h' tb] tab].
  cbn [fst snd] in *.
  assert (In l tb) as Hltb.
  { rewrite Htb. apply List.filter_In. split; [exact Hin|].
    unfold Blocks.has_type. rewrite Hl, Htype. reflexivity. }
  apply in_split in Hltb as (pre & post & Hsplit).
  assert (exists e, EntityExtractor._merge_text_blocks (map (Heap.deref h') tb)
                    = Py.Raise e) as [e He].
  { rewrite Hsplit, map_app. cbn [map]. unfold Heap.deref at 2. rewrite Hl'.
    apply (MergeMore.merge_raises _ _ d' v); [|exact Hns].
    rewrite Hkeys by discriminate. exact Htext. }
  exists e. unfold Service.catch, EntityExtractor.extract_classified.
  rewrite RequestFacts.bind_unfold.
  assert (match tb with
          | [] => Service.ret []
          | _ => let* text_entities :=
                   EntityExtractor._extract_text_entities rt has_client llm
                     (map (Heap.deref h') tb) in
                 EntityExtractor.entities_of text_entities
          end tr = (Py.Raise e, tr)) as ->.
  { destruct tb as [|x tb']; [now destruct pre|].
    rewrite RequestFacts.bind_unfold.
    unfold EntityExtractor._extract_text_entities.
    rewrite RequestFacts.bind_lift, He. reflexivity. }
  reflexivity.
Qed.

(** A content list of one text block whose text is [None]. *)
Lemma malformed_text_block_aborts_witness :
  exists e,
    snd (EntityExtractor.extract_entities_sync PyModel.python true Cases.one_entity
           Blocks.null_text_heap [0%nat]) []
    = (Py.Ok (EntityExtractor.error_result PyModel.python e), []).
Proof.
  apply (malformed_text_block_aborts PyModel.python true Cases.one_entity
           Blocks.null_text_heap [0%nat] 0%nat
           [("type", Py.PStr "text"); ("text", Py.PNone)] Py.PNone []).
  - now left.
  - reflexivity.
  - reflexivity.
  - reflexivity.
  - intros s. discriminate.
Defined.

(** ** [LightRAGEntityExtractor]: the chunks *)

Module LightRAGChunks.
Import Py DictFacts.

Lemma assoc_set_length (k : string) (v : pyval) (d : list (string * pyval)) :
  (length (assoc_set k v d) <= S (length d))%nat.
Proof.
  induction d as [|[k' v'] d IH]; cbn [assoc_set length]; [lia|].
  destruct (String.eqb k k'); cbn [length]; lia.
Qed.

Lemma assoc_set_keys (k : string) (v : pyval) (d : list (string * pyval)) :
  map fst (assoc_set k v d) = map fst d
  \/ (assoc_get k d = None /\ map fst (assoc_set k v d) = (map fst d ++ [k])%list).
Proof.
  induction d as [|[k' v'] d IH]; cbn [assoc_set assoc_get map fst app].
  - right. now split.
  - destruct (String.eqb k k') eqn:E; cbn [map fst].
    + left. apply String.eqb_eq in E as ->. reflexivity.
    + destruct IH as [->|[Hnone ->]]; [now left|right; now split].
Qed.

Lemma assoc_get_None_keys (k : string) (d : list (string * pyval)) :
  assoc_get k d = None -> ~ In k (map fst d).
Proof.
  induction d as [|[k' v'] d IH]; cbn [assoc_get map fst]; [tauto|].
  destruct (String.eqb k k') eqn:E; [discriminate|].
  intros Hnone [->|Hin]; [now rewrite String.eqb_refl in E|now apply IH].
Qed.

Lemma assoc_set_NoDup (k : string) (v : pyval) (d : list (string * pyval)) :
  List.NoDup (map fst d) -> List.NoDup (map fst (assoc_set k v d)).
Proof.
  intros Hnd. destruct (assoc_set_keys k v d) as [->|[Hnone ->]]; [exact Hnd|].
  apply NoDup_ListNoDup, NoDup_app. split_and!.
  - now apply NoDup_ListNoDup.
  - intros x Hx Hk. apply list_elem_of_In in Hx.
    apply list_elem_of_In in Hk as [<-|[]].
    now apply (assoc_get_None_keys k d).
  - apply NoDup_ListNoDup. repeat constructor. intros [].
Qed.

Section Extractor.

Variable rt : runtime.
Variable compute_mdhash_id : string -> string.

Local Abbreviation chunk_of := (Provenance.chunk_of rt compute_mdhash_id).

Lemma convert_loop_length (content_list : list pyval) (i : nat)
  (chunks out : list (string * pyval)) :
  LightRAGEntityExtractor.convert_loop rt compute_mdhash_id i content_list chunks
  = Ok out ->
  (length out <= length chunks + length (List.filter is_dict content_list))%nat
  /\ (List.NoDup (map fst chunks) -> List.NoDup (map fst out)).
Proof.
  revert i chunks. induction content_list as [|item rest IH]; intros i chunks;
    cbn [LightRAGEntityExtractor.convert_loop List.filter].
  - intros [= <-]. split; [simpl; lia|auto].
  - destruct (is_dict item).
    + destruct (LightRAGEntityExtractor._extract_text_content rt item) as [text|];
        cbn [obind]; [|discriminate].
      destruct (LightRAGEntityExtractor.chunk_data i item text) as [data|];
        cbn [obind]; [|discriminate].
      intros H. apply IH in H as [Hlen Hnd]. split.
      * pose proof (assoc_set_length (compute_mdhash_id text) data chunks).
        cbn [length]. lia.
      * intros Hc. apply Hnd. now apply assoc_set_NoDup.
    + apply IH.
Qed.

(** A chunk that is there stays there, or is replaced by that of a later
    dict with the same id. *)
Lemma convert_loop_keeps (content_list : list pyval) (i : nat)
  (chunks out : list (string * pyval)) (k : string) (data0 : pyval) :
  LightRAGEntityExtractor.convert_loop rt compute_mdhash_id i content_list chunks
  = Ok out ->
  assoc_get k chunks = Some data0 ->
  exists data,
    assoc_get k out = Some data
    /\ (data = data0
        \/ exists j item, content_list !! j = Some item
                          /\ chunk_of (i + j) item k data).
Proof.
  revert i chunks data0. induction content_list as [|item rest IH];
    intros i chunks data0; cbn [LightRAGEntityExtractor.convert_loop].
  - intros [= <-] Hk. exists data0. split; [exact Hk|now left].
  - destruct (is_dict item).
    + destruct (LightRAGEntityExtractor._extract_text_content rt item) as [text|] eqn:Ht;
        cbn [obind]; [|discriminate].
      destruct (LightRAGEntityExtractor.chunk_data i item text) as [data1|] eqn:Hd;
        cbn [obind]; [|discriminate].
      intros H Hk.
      destruct (String.eqb_spec (compute_mdhash_id text) k) as [Heq|Hne].
      * destruct (IH _ _ data1 H) as (data & Hout & Hfrom).
        { rewrite <- Heq. apply assoc_get_set_eq. }
        exists data. split; [exact Hout|]. right.
        destruct Hfrom as [->|(j & item' & Hj & Hchunk)].
        -- exists 0%nat, item. split; [reflexivity|]. rewrite Nat.add_0_r.
           now exists text.
        -- exists (S j), item'. split; [exact Hj|].
           now replace (i + S j)%nat with (S i + j)%nat by lia.
      * destruct (IH _ _ data0 H) as (data & Hout & Hfrom).
        { now rewrite assoc_get_set_ne. }
        exists data. split; [exact Hout|].
        destruct Hfrom as [->|(j & item' & Hj & Hchunk)]; [now left|right].
        exists (S j), item'. split; [exact Hj|].
        now replace (i + S j)%nat with (S i + j)%nat by lia.
    + intros H Hk. destruct (IH _ _ data0 H Hk) as (data & Hout & Hfrom).
      exists data. split; [exact Hout|].
      destruct Hfrom as [->|(j & item' & Hj & Hchunk)]; [now left|right].
      exists (S j), item'. split; [exact Hj|].
      now replace (i + S j)%nat with (S i + j)%nat by lia.
Qed.

(** Every dict of the list has a chunk under its id: its own, or that of
    a later dict with the same id. *)
Lemma convert_loop_covers (content_list : list pyval) (i : nat)
  (chunks out : list (string * pyval)) (j : nat) (item : pyval) :
  LightRAGEntityExtractor.convert_loop rt compute_mdhash_id i content_list chunks
  = Ok out ->
  content_list !! j = Some item -> is_dict item = true ->
  exists content_text j' item' data,
    LightRAGEntityExtractor._extract_text_content rt item = Ok content_text
    /\ (j <= j')%nat /\ content_list !! j' = Some item'
    /\ chunk_of (i + j') item' (compute_mdhash_id content_text) data
    /\ assoc_get (compute_mdhash_id content_text) out = Some data.
Proof.
  revert i chunks j. induction content_list as [|x rest IH]; intros i chunks j;
    [discriminate|]. cbn [LightRAGEntityExtractor.convert_loop].
  destruct j as [|j]; cbn [lookup list_lookup].
  - intros H [= ->] Hdict. rewrite Hdict in H.
    destruct (LightRAGEntityExtractor._extract_text_content rt item) as [text|] eqn:Ht;
      cbn [obind] in H; [|discriminate].
    destruct (LightRAGEntityExtractor.chunk_data i item text) as [data1|] eqn:Hd;
      cbn [obind] in H; [|discriminate].
    destruct (convert_loop_keeps rest (S i) _ out (compute_mdhash_id text) data1 H)
      as (data & Hout & Hfrom); [apply assoc_get_set_eq|].
    exists text. destruct Hfrom as [->|(j' & item' & Hj' & Hchunk)].
    + exists 0%nat, item, data1.
      split; [reflexivity|]. split; [lia|]. split; [reflexivity|].
      split; [|exact Hout]. rewrite Nat.add_0_r. now exists text.
    + exists (S j'), item', data.
      split; [reflexivity|]. split; [lia|]. split; [exact Hj'|].
      split; [|exact Hout].
      now replace (i + S j')%nat with (S i + j')%nat by lia.
  - intros H Hj Hdict.
    assert (exists chunks1,
      LightRAGEntityExtractor.convert_loop rt compute_mdhash_id (S i) rest chunks1
      = Ok out) as [chunks1 H1].
    { destruct (is_dict x); [|now exists chunks].
      destruct (LightRAGEntityExtractor._extract_text_content rt x) as [text|];
        cbn [obind] in H; [|discriminate].
      destruct (LightRAGEntityExtractor.chunk_data i x text) as [data1|];
        cbn [obind] in H; [|discriminate].
      eexists. exact H. }
    destruct (IH (S i) chunks1 j H1 Hj Hdict)
      as (text & j' & item' & data & Ht & Hle & Hj' & Hchunk & Hout).
    exists text, (S j'), item', data.
    split; [exact Ht|]. split; [lia|]. split; [exact Hj'|]. split; [|exact Hout].
    now replace (i + S j')%nat with (S i + j')%nat by lia.
Qed.

End Extractor.

End LightRAGChunks.

(** X16.  The chunks [LightRAGEntityExtractor] builds are keyed by the id
    of their content: there is at most one chunk for each dict of the
    content list, no two chunks share an id, and every dict has a chunk
    under its id, which is its own or that of a later dict with the same
    id.  So blocks with the same text fall into one chunk, the last one,
    and [chunks_processed] can be less than the number of blocks. *)
Theorem lightrag_chunks_by_content (rt : Py.runtime)
  (compute_mdhash_id : string -> string) (content_list : list Py.pyval)
  (chunks : list (string * Py.pyval)) :
  LightRAGEntityExtractor._convert_to_lightrag_chunks rt compute_mdhash_id content_list
  = Py.Ok chunks ->
  (length chunks <= length (List.filter Py.is_dict content_list))%nat
  /\ List.NoDup (map fst chunks)
  /\ forall j item,
       content_list !! j = Some item -> Py.is_dict item = true ->
       exists content_text j' item' data,
         LightRAGEntityExtractor._extract_text_content rt item = Py.Ok content_text
         /\ (j <= j')%nat /\ content_list !! j' = Some item'
         /\ Provenance.chunk_of rt compute_mdhash_id j' item'
              (compute_mdhash_id content_text) data
         /\ Py.assoc_get (compute_mdhash_id content_text) chunks = Some data.
Proof.
  unfold LightRAGEntityExtractor._convert_to_lightrag_chunks. intros H.
  destruct (LightRAGChunks.convert_loop_length rt compute_mdhash_id content_list 0 []
              chunks H) as [Hlen Hnd].
  split; [exact Hlen|]. split; [apply Hnd; constructor|].
  intros j item Hj Hdict.
  exact (LightRAGChunks.convert_loop_covers rt compute_mdhash_id content_list 0 []
           chunks j item H Hj Hdict).
Qed.

(** Two blocks with the same text give one chunk. *)
Lemma lightrag_chunks_by_content_witness :
  exists chunks,
    LightRAGEntityExtractor._convert_to_lightrag_chunks PyModel.python
      (String.append "chunk-") [Cases.text_block; Cases.text_block] = Py.Ok chunks
    /\ (length chunks
        <= length (List.filter Py.is_dict [Cases.text_block; Cases.text_block]))%nat
    /\ List.NoDup (map fst chunks).
Proof.
  assert (exists chunks,
    LightRAGEntityExtractor._convert_to_lightrag_chunks PyModel.python
      (String.append "chunk-") [Cases.text_block; Cases.text_block] = Py.Ok chunks)
    as [chunks Hrun].
  { vm_compute. eexists. reflexivity. }
  exists chunks. split; [exact Hrun|].
  destruct (lightrag_chunks_by_content PyModel.python (String.append "chunk-")
              [Cases.text_block; Cases.text_block] chunks Hrun) as (Hlen & Hnd & _).
  split; [exact Hlen|exact Hnd].
Defined.

(** X17.  A failure of LightRAG's [extract_entities] is swallowed: when
    the call raises, [extract_entities_from_content_list] returns a result
    of the normal shape with no entity and no relationship, with the
    document analysis and the counts of chunks and blocks, and not the
    result of a failed run. *)
Theorem lightrag_failure_is_silent (rt : Py.runtime)
  (compute_mdhash_id : string -> string) (lightrag_extract : Py.pyval -> option Py.pyval)
  (content_list : list Py.pyval) (extract_relations : bool)
  (chunks : list (string * Py.pyval)) (document_analysis : Py.pyval) :
  LightRAGEntityExtractor._convert_to_lightrag_chunks rt compute_mdhash_id content_list
  = Py.Ok chunks ->
  lightrag_extract (Py.PDict chunks) = None ->
  LightRAGEntityExtractor._analyze_document_structure rt content_list
  = Py.Ok document_analysis ->
  LightRAGEntityExtractor.extract_entities_from_content_list rt compute_mdhash_id
    lightrag_extract content_list extract_relations
  = Py.PDict [("entities", Py.PList []);
              ("relationships", Py.PList []);
              ("document_analysis", document_analysis);
              ("statistics",
               Py.PDict [("total_entities", Py.PInt 0);
                         ("total_relationships", Py.PInt 0);
                         ("chunks_processed", Py.PInt (Z.of_nat (length chunks)));
                         ("content_blocks_processed",
                          Py.PInt (Z.of_nat (length content_list)))])].
Proof.
  intros Hchunks Hfail Hdoc.
  unfold LightRAGEntityExtractor.extract_entities_from_content_list,
    LightRAGEntityExtractor.extraction.
  rewrite Hchunks. cbn [Py.obind].
  unfold LightRAGEntityExtractor._extract_entities_with_lightrag. rewrite Hfail.
  cbn [LightRAGEntityExtractor._process_chunk_results Py.py_iter Py.obind
       LightRAGEntityExtractor.chunk_loop].
  rewrite Hdoc. reflexivity.
Qed.

(** A text block and a LightRAG that fails. *)
Lemma lightrag_failure_is_silent_witness :
  exists (chunks : list (string * Py.pyval)) document_analysis,
    LightRAGEntityExtractor.extract_entities_from_content_list PyModel.python
      (String.append "chunk-") (fun _ => None) [Cases.text_block] true
    = Py.PDict [("entities", Py.PList []);
                ("relationships", Py.PList []);
                ("document_analysis", document_analysis);
                ("statistics",
                 Py.PDict [("total_entities", Py.PInt 0);
                           ("total_relationships", Py.PInt 0);
                           ("chunks_processed", Py.PInt (Z.of_nat (length chunks)));
                           ("content_blocks_processed",
                            Py.PInt (Z.of_nat (length [Cases.text_block])))])].
Proof.
  assert (exists chunks,
    LightRAGEntityExtractor._convert_to_lightrag_chunks PyModel.python
      (String.append "chunk-") [Cases.text_block] = Py.Ok chunks) as [chunks Hchunks].
  { vm_compute. eexists. reflexivity. }
  assert (exists doc,
    LightRAGEntityExtractor._analyze_document_structure PyModel.python
      [Cases.text_block] = Py.Ok doc) as [doc Hdoc].
  { vm_compute. eexists. reflexivity. }
  exists chunks, doc.
  exact (lightrag_failure_is_silent PyModel.python (String.append "chunk-")
           (fun _ => None) [Cases.text_block] true chunks doc Hchunks eq_refl Hdoc).
Defined.

(** ** The markdown rendering *)

Module MarkdownFacts.
Import Py Markdown.

Section Rendering.

Variable rt : runtime.

Lemma obind_Ok_r {A} (m : outcome A) : (let+ x := m in Ok x) = m.
Proof. now destruct m. Qed.

Lemma item_lines_skipped (item : pyval) :
  rendered item = false -> item_lines rt item = Ok [].
Proof.
  destruct item as [| | | | | |d]; try reflexivity.
  unfold rendered, item_lines. intros H.
  apply orb_false_iff in H as [H Hequation].
  apply orb_false_iff in H as [H Htable].
  apply orb_false_iff in H as [Htext Himage].
  now rewrite Htext, Himage, Htable, Hequation.
Qed.

Lemma markdown_lines_app (a b : list pyval) :
  markdown_lines rt (a ++ b)
  = (let+ la := markdown_lines rt a in
     let+ lb := markdown_lines rt b in
     Ok (la ++ lb)%list).
Proof.
  induction a as [|item a IH]; cbn [markdown_lines app obind].
  - now rewrite obind_Ok_r.
  - destruct (item_lines rt item) as [lines|e]; cbn [obind]; [|reflexivity].
    rewrite IH. destruct (markdown_lines rt a) as [la|e]; cbn [obind]; [|reflexivity].
    destruct (markdown_lines rt b) as [lb|e]; cbn [obind]; [|reflexivity].
    now rewrite app_assoc.
Qed.

Lemma markdown_lines_filter (content_list : list pyval) :
  markdown_lines rt (List.filter rendered content_list)
  = markdown_lines rt content_list.
Proof.
  induction content_list as [|item rest IH]; [reflexivity|].
  cbn [List.filter markdown_lines].
  destruct (rendered item) eqn:Hr.
  - cbn [markdown_lines]. now rewrite IH.
  - rewrite (item_lines_skipped item Hr), IH. cbn [obind app].
    now rewrite obind_Ok_r.
Qed.

(** The only exception of the loop is the [TypeError] of [len]. *)
Lemma item_lines_raise (item : pyval) (e : exn) :
  item_lines rt item = Raise e -> e = TypeError.
Proof.
  destruct item as [| | | | | |d]; try discriminate. unfold item_lines.
  destruct (is_str_eq "text" _); [discriminate|].
  destruct (is_str_eq "image" _).
  { destruct (truthy _); discriminate. }
  destruct (is_str_eq "table" _).
  { destruct (truthy (dict_get "table_body" _ _)); [|discriminate].
    destruct (dict_get "table_body" (PList []) d) as [| | | |s|l|d'];
      cbn [LightRAGEntityExtractor.py_len obind py_iter];
      try (now intros [= <-]);
      match goal with |- context [(0 <? ?n)%nat] => destruct (0 <? n)%nat end;
      discriminate. }
  destruct (is_str_eq "equation" _); discriminate.
Qed.

Lemma markdown_lines_raise (content_list : list pyval) (e : exn) :
  markdown_lines rt content_list = Raise e -> e = TypeError.
Proof.
  induction content_list as [|item rest IH]; cbn [markdown_lines]; [discriminate|].
  destruct (item_lines rt item) as [lines|e'] eqn:Hitem; cbn [obind].
  - destruct (markdown_lines rt rest) as [more|e'']; cbn [obind]; [discriminate|].
    intros [= <-]. now apply IH.
  - intros [= <-]. now apply (item_lines_raise item).
Qed.

Lemma markdown_lines_In (content_list lines : list pyval) (item : pyval)
  (own : list pyval) (x : pyval) :
  markdown_lines rt content_list = Ok lines -> In item content_list ->
  item_lines rt item = Ok own -> In x own -> In x lines.
Proof.
  revert lines. induction content_list as [|y rest IH]; intros lines;
    cbn [markdown_lines]; [intros _ []|].
  destruct (item_lines rt y) as [ly|] eqn:Hy; cbn [obind]; [|discriminate].
  destruct (markdown_lines rt rest) as [more|]; cbn [obind]; [|discriminate].
  intros [= <-] [->|Hin] Hown Hx; apply in_or_app.
  - left. rewrite Hy in Hown. now injection Hown as ->.
  - right. now apply (IH more).
Qed.

Lemma all_str_None (lines : list pyval) (v : pyval) :
  In v lines -> (forall s, v <> PStr s) -> all_str lines = None.
Proof.
  intros Hin Hns. induction lines as [|x rest IH]; [destruct Hin|].
  cbn [all_str]. destruct Hin as [->|Hin].
  - destruct v as [| | | |s| |]; try reflexivity. now destruct (Hns s).
  - rewrite (IH Hin). now destruct x.
Qed.

Lemma table_lines_rows (rows : list (list pyval)) :
  table_lines rt false (map PList rows)
  = map (fun cells => PStr ("| " +:+ PyStr.join " | " (map (py_str rt) cells) +:+ " |"))
      rows.
Proof.
  induction rows as [|cells rest IH]; [reflexivity|].
  cbn [map table_lines row_lines app]. now rewrite IH.
Qed.

End Rendering.

End MarkdownFacts.

(** X18.  [_content_to_markdown] ignores what it does not know: elements
    that are not dicts and dicts whose type is not [text], [image],
    [table] or [equation] add no line, so the document is the one of the
    list without them; and the lines of a list cut in two are the lines of
    the first part followed by those of the second. *)
Theorem markdown_ignores_unknown_blocks (rt : Py.runtime) (content_list a b : list Py.pyval) :
  Markdown._content_to_markdown rt (List.filter Markdown.rendered content_list)
  = Markdown._content_to_markdown rt content_list
  /\ Markdown.markdown_lines rt (a ++ b)
     = Py.obind (Markdown.markdown_lines rt a)
         (fun la => Py.obind (Markdown.markdown_lines rt b)
                      (fun lb => Py.Ok (la ++ lb)%list)).
Proof.
  split; [|apply MarkdownFacts.markdown_lines_app].
  unfold Markdown._content_to_markdown.
  now rewrite MarkdownFacts.markdown_lines_filter.
Qed.

(** X19.  [_content_to_markdown] raises [TypeError], and returns no
    document, when a text block of the list holds something else than a
    string under [text] (a JSON [null], say): the object is kept as a line
    and the final join refuses it.  [TypeError] is the only exception the
    method raises. *)
Theorem markdown_rejects_null_text (rt : Py.runtime) (content_list : list Py.pyval)
  (d : list (string * Py.pyval)) :
  In (Py.PDict d) content_list ->
  Py.dict_get "type" (Py.PStr "unknown") d = Py.PStr "text" ->
  (forall s, Py.dict_get "text" (Py.PStr "") d <> Py.PStr s) ->
  Markdown._content_to_markdown rt content_list = Py.Raise Py.TypeError
  /\ forall other e,
       Markdown._content_to_markdown rt other = Py.Raise e -> e = Py.TypeError.
Proof.
  intros Hin Htype Htext. split.
  - unfold Markdown._content_to_markdown.
    destruct (Markdown.markdown_lines rt content_list) as [lines|e] eqn:Hlines;
      cbn [Py.obind].
    + rewrite (MarkdownFacts.all_str_None lines _
                 (MarkdownFacts.markdown_lines_In rt content_list lines (Py.PDict d)
                    [Py.dict_get "text" (Py.PStr "") d; Py.PStr ""] _
                    Hlines Hin ltac:(unfold Markdown.item_lines; now rewrite Htype)
                    ltac:(now left))
                 Htext).
      reflexivity.
    + now rewrite (MarkdownFacts.markdown_lines_raise rt content_list e Hlines).
  - intros other e. unfold Markdown._content_to_markdown.
    destruct (Markdown.markdown_lines rt other) as [lines|e'] eqn:Hlines;
      cbn [Py.obind].
    + destruct (Markdown.all_str lines); [discriminate|now intros [= <-]].
    + intros [= <-]. now apply (MarkdownFacts.markdown_lines_raise rt other).
Qed.

(** A text block, then one whose text is [None]. *)
Lemma markdown_rejects_null_text_witness :
  Markdown._content_to_markdown PyModel.python [Cases.text_block; Markdown.null_text]
  = Py.Raise Py.TypeError.
Proof.
  destruct (markdown_rejects_null_text PyModel.python
              [Cases.text_block; Markdown.null_text]
              [("type", Py.PStr "text"); ("text", Py.PNone)]) as [Hraise _].
  - right. now left.
  - reflexivity.
  - intros s. discriminate.
  - exact Hraise.
Defined.

(** X20.  A table without a caption whose body is a list of rows is
    rendered as its first row, one separator with a [---] for each cell of
    that row, the other rows and an empty line; a table without rows adds
    no line at all. *)
Theorem markdown_table_shape (rt : Py.runtime) (first : list Py.pyval)
  (more : list (list Py.pyval)) :
  Markdown.item_lines rt (Markdown.table_block (first :: more))
  = Py.Ok (Py.PStr ("| " +:+ PyStr.join " | " (map (Py.py_str rt) first) +:+ " |")
           :: Py.PStr ("| " +:+ PyStr.join " | " (map (fun _ => "---") first) +:+ " |")
           :: map (fun cells =>
                     Py.PStr ("| " +:+ PyStr.join " | " (map (Py.py_str rt) cells)
                                +:+ " |")) more
           ++ [Py.PStr ""])%list
  /\ Markdown.item_lines rt (Markdown.table_block []) = Py.Ok [].
Proof.
  split; [|reflexivity].
  unfold Markdown.item_lines, Markdown.table_block.
  cbn [Py.dict_get Py.assoc_get String.eqb Ascii.eqb Bool.eqb Py.is_str_eq
       Py.truthy map Py.obind LightRAGEntityExtractor.py_len Py.py_iter length
       Nat.ltb Nat.leb negb app Markdown.table_lines Markdown.row_lines].
  now rewrite MarkdownFacts.table_lines_rows.
Qed.

(** ** The keyword arguments of the parser *)

Module ConfigFacts.
Import Py Config DictFacts.

Lemma assoc_get_not_key (k : string) (d : list (string * pyval)) :
  ~ In k (map fst d) -> assoc_get k d = None.
Proof.
  induction d as [|[k' v'] d IH]; cbn [assoc_get map fst]; [reflexivity|].
  intros Hout. destruct (String.eqb_spec k k') as [->|Hne].
  - destruct Hout. now left.
  - apply IH. intros Hin. apply Hout. now right.
Qed.

Lemma update_NoDup (more d : list (string * pyval)) :
  List.NoDup (map fst d) -> List.NoDup (map fst (update d more)).
Proof.
  revert d. induction more as [|[k v] more IH]; intros d Hd; [exact Hd|].
  cbn [update fold_left fst snd]. apply IH. now apply LightRAGChunks.assoc_set_NoDup.
Qed.

(** After [d.update(more)] an entry of [more] wins over one of [d]. *)
Lemma update_get (more d : list (string * pyval)) (k : string) :
  List.NoDup (map fst more) ->
  assoc_get k (update d more)
  = match assoc_get k more with
    | Some v => Some v
    | None => assoc_get k d
    end.
Proof.
  revert d. induction more as [|[k1 v1] more IH]; intros d Hnd; [reflexivity|].
  cbn [map fst] in Hnd. apply List.NoDup_cons_iff in Hnd as [Hout Hnd].
  cbn [update fold_left fst snd assoc_get].
  change (fold_left _ more (assoc_set k1 v1 d)) with (update (assoc_set k1 v1 d) more).
  rewrite (IH _ Hnd). destruct (String.eqb_spec k k1) as [->|Hne].
  - now rewrite (assoc_get_not_key k1 more Hout), assoc_get_set_eq.
  - rewrite assoc_get_set_ne by congruence. reflexivity.
Qed.

Lemma filter_keys (p : string * pyval -> bool) (d : list (string * pyval)) (k : string) :
  In k (map fst (List.filter p d)) -> In k (map fst d).
Proof.
  rewrite !in_map_iff. intros ([k' v] & <- & Hin).
  apply List.filter_In in Hin as [Hin _]. now exists (k', v).
Qed.

Lemma filter_NoDup (p : string * pyval -> bool) (d : list (string * pyval)) :
  List.NoDup (map fst d) -> List.NoDup (map fst (List.filter p d)).
Proof.
  induction d as [|[k v] d IH]; cbn [List.filter map fst]; [auto|].
  intros Hnd. apply List.NoDup_cons_iff in Hnd as [Hout Hnd].
  destruct (p (k, v)); [|now apply IH].
  cbn [map fst]. constructor; [|now apply IH].
  intros Hin. apply Hout. now apply (filter_keys p).
Qed.

(** The entry of a key after the comprehension that keeps what [p]
    accepts. *)
Lemma filter_get (p : string * pyval -> bool) (d : list (string * pyval)) (k : string) :
  List.NoDup (map fst d) ->
  assoc_get k (List.filter p d)
  = match assoc_get k d with
    | Some v => if p (k, v) then Some v else None
    | None => None
    end.
Proof.
  induction d as [|[k' v'] d IH]; cbn [List.filter map fst assoc_get]; [reflexivity|].
  intros Hnd. apply List.NoDup_cons_iff in Hnd as [Hout Hnd].
  destruct (String.eqb_spec k k') as [->|Hne].
  - destruct (p (k', v')); cbn [assoc_get].
    + now rewrite String.eqb_refl.
    + apply assoc_get_not_key. intros Hin. apply Hout. now apply (filter_keys p).
  - destruct (p (k', v')); cbn [assoc_get].
    + destruct (String.eqb_spec k k'); [congruence|]. now apply IH.
    + now apply IH.
Qed.

Lemma mineru_entries_NoDup (cfg : RAGAnythingCLConfig) :
  List.NoDup (map fst (mineru_entries cfg)).
Proof.
  cbn [mineru_entries map fst].
  repeat (constructor; [cbn [In]; intuition discriminate|]). constructor.
Qed.

End ConfigFacts.

(** X21.  [get_parser_kwargs] for MinerU: the five entries of the
    configuration ([backend], [device], [source], [formula], [table])
    replace those of [parser_kwargs], then every entry whose value is
    [None] is dropped.  So the result holds no [None]; a key of the five
    has the value of its field, or is absent when the field is [None]
    even if [parser_kwargs] names it; another key keeps the value
    [parser_kwargs] gives it unless that is [None]. *)
Theorem mineru_kwargs (cfg : Config.RAGAnythingCLConfig) (k : string) :
  List.NoDup (map fst (Config.parser_kwargs cfg)) ->
  Config.parser cfg = Py.PStr "mineru" ->
  Py.assoc_get k (Config.get_parser_kwargs cfg)
  = match Py.assoc_get k (Config.mineru_entries cfg) with
    | Some Py.PNone => None
    | Some v => Some v
    | None => match Py.assoc_get k (Config.parser_kwargs cfg) with
              | Some Py.PNone => None
              | found => found
              end
    end
  /\ List.NoDup (map fst (Config.get_parser_kwargs cfg))
  /\ Forall (fun kv => snd kv <> Py.PNone) (Config.get_parser_kwargs cfg).
Proof.
  intros Hnd Hparser. unfold Config.get_parser_kwargs. rewrite Hparser.
  cbn [Py.is_str_eq String.eqb Ascii.eqb Bool.eqb].
  pose proof (ConfigFacts.update_NoDup (Config.mineru_entries cfg) _ Hnd) as Hnd'.
  split; [|split].
  - rewrite (ConfigFacts.filter_get _ _ _ Hnd').
    rewrite (ConfigFacts.update_get _ _ _ (ConfigFacts.mineru_entries_NoDup cfg)).
    destruct (Py.assoc_get k (Config.mineru_entries cfg)) as [v|].
    + now destruct v.
    + destruct (Py.assoc_get k (Config.parser_kwargs cfg)) as [v|]; [|reflexivity].
      now destruct v.
  - now apply ConfigFacts.filter_NoDup.
  - apply Forall_forall. intros [k' v] Hin. apply list_elem_of_In in Hin.
    apply List.filter_In in Hin as [_ Hkeep]. cbn [snd].
    intros ->. discriminate Hkeep.
Qed.

(** A device named in [parser_kwargs] is lost when the configuration has
    none. *)
Lemma mineru_kwargs_witness :
  Py.assoc_get "device" (Config.get_parser_kwargs Config.with_device) = None
  /\ Py.assoc_get "start_page" (Config.get_parser_kwargs Config.with_device)
     = Some (Py.PInt 0).
Proof.
  assert (List.NoDup (map fst (Config.parser_kwargs Config.with_device))) as Hnd.
  { cbn. repeat (constructor; [cbn [In]; intuition discriminate|]). constructor. }
  destruct (mineru_kwargs Config.with_device "device" Hnd eq_refl) as (Hdevice & _).
  destruct (mineru_kwargs Config.with_device "start_page" Hnd eq_refl) as (Hpage & _).
  split; [exact Hdevice|exact Hpage].
Defined.



(** X23.  The table text of [_format_table_data]: a body that is empty
    (or otherwise false) is rendered as the fixed text for an empty table;
    another body is rendered, when the method returns, from at most 10
    rows of at most 8 cells of at most 50 characters each; and on a body
    that is a list of lists the method always returns. *)
Theorem table_text_limits (rt : Py.runtime) (table_body : Py.pyval) :
  (Py.truthy table_body = false ->
   RAGAnythingEntityExtractor._format_table_data rt table_body
   = Py.Ok TableText.empty_table)
  /\ (forall text,
        Py.truthy table_body = true ->
        RAGAnythingEntityExtractor._format_table_data rt table_body = Py.Ok text ->
        exists cells,
          text = TableText.render_rows cells
          /\ (length cells <= 10)%nat
          /\ Forall (fun row => (length row <= 8)%nat
                                /\ Forall (fun c => (PyStr.len c <= 50)%nat) row) cells)
  /\ (forall rows,
        table_body = Py.PList (map Py.PList rows) ->
        exists text,
          RAGAnythingEntityExtractor._format_table_data rt table_body = Py.Ok text).
Proof.
  unfold RAGAnythingEntityExtractor._format_table_data, TableText.format_table.
  split; [|split].
  - now intros ->.
  - intros text ->.
    destruct (TableText.rendered_cells rt 10 8 table_body) as [cells|e] eqn:Hcells;
      cbn [Py.obind]; [|discriminate].
    intros [= <-]. exists cells. split; [reflexivity|].
    now apply (TableFacts.rendered_cells_bounds rt 10 8 table_body).
  - intros rows ->. destruct (Py.truthy _); [|eauto].
    rewrite TableFacts.rendered_cells_lists. cbn [Py.obind]. eauto.
Qed.

(** X24.  What [EntityExtractor] sends about the whole document is
    bounded: the structure analysis reads the first 10 blocks of the
    content list and nothing else, and the relationship request names the
    first 20 entities and nothing else; with fewer than 2 entities no
    relationship request is made and the list returned is empty. *)
Theorem document_requests_are_bounded (rt : Py.runtime) (has_client : bool)
  (llm : nat -> string -> option string) (content_list entities : list Py.pyval) :
  EntityExtractor._analyze_document_structure rt has_client llm content_list
  = EntityExtractor._analyze_document_structure rt has_client llm (take 10 content_list)
  /\ EntityExtractor._extract_entity_relationships rt has_client llm entities
     = EntityExtractor._extract_entity_relationships rt has_client llm (take 20 entities)
  /\ ((length entities < 2)%nat ->
      forall tr,
        EntityExtractor._extract_entity_relationships rt has_client llm entities tr
        = (Py.Ok (Py.PList []), tr)).
Proof.
  split; [|split].
  - unfold EntityExtractor._analyze_document_structure.
    now rewrite take_take, Nat.min_id.
  - unfold EntityExtractor._extract_entity_relationships.
    rewrite take_take, Nat.min_id, length_take.
    destruct (Nat.ltb_spec (length entities) 2) as [Hfew|Hmany];
      destruct (Nat.ltb_spec (20 `min` length entities) 2) as [Hfew'|Hmany'];
      try reflexivity; lia.
  - intros Hfew tr. unfold EntityExtractor._extract_entity_relationships.
    destruct (Nat.ltb_spec (length entities) 2) as [_|Hmany]; [reflexivity|lia].
Qed.

(** ** The lines of an environment file *)

Module EnvFacts.
Import EnvFile.

Lemma lstrip_blank (p : list ascii) : blank p = true -> PyStr.lstrip_chars p = [].
Proof.
  induction p as [|c p IH]; cbn [blank forallb PyStr.lstrip_chars]; [reflexivity|].
  intros H. apply andb_true_iff in H as [-> H]. now apply IH.
Qed.

Lemma lstrip_blank_app (p l : list ascii) :
  blank p = true -> PyStr.lstrip_chars (p ++ l) = PyStr.lstrip_chars l.
Proof.
  induction p as [|c p IH]; cbn [blank forallb app PyStr.lstrip_chars]; [reflexivity|].
  intros H. apply andb_true_iff in H as [-> H]. now apply IH.
Qed.

Lemma lstrip_head (c : ascii) (l : list ascii) :
  PyStr.is_space c = false -> PyStr.lstrip_chars (c :: l) = c :: l.
Proof. cbn [PyStr.lstrip_chars]. now intros ->. Qed.

Lemma lstrip_mid (l m : list ascii) (c : ascii) :
  PyStr.is_space c = false ->
  PyStr.lstrip_chars (l ++ c :: m) = (PyStr.lstrip_chars l ++ c :: m)%list.
Proof.
  intros Hc. induction l as [|x l IH]; cbn [app PyStr.lstrip_chars].
  - now rewrite Hc.
  - destruct (PyStr.is_space x); [exact IH|reflexivity].
Qed.



Lemma rstrip_mid (x r : list ascii) (c : ascii) :
  PyStr.is_space c = false ->
  PyStr.rstrip_chars (x ++ c :: r) = (x ++ c :: PyStr.rstrip_chars r)%list.
Proof.
  intros Hc. unfold PyStr.rstrip_chars.
  rewrite rev_app_distr. cbn [rev]. rewrite <- app_assoc. cbn [app].
  rewrite (lstrip_mid _ _ _ Hc), rev_app_distr. cbn [rev].
  rewrite rev_involutive, <- app_assoc. reflexivity.
Qed.






Lemma strip_chars (l : list ascii) :
  PyStr.chars (PyStr.strip (PyStr.of_chars l))
  = PyStr.rstrip_chars (PyStr.lstrip_chars l).
Proof. unfold PyStr.strip. now rewrite !StringFacts.chars_of_chars. Qed.

Lemma strip_of_chars (l : list ascii) :
  PyStr.strip (PyStr.of_chars l)
  = PyStr.of_chars (PyStr.rstrip_chars (PyStr.lstrip_chars l)).
Proof. unfold PyStr.strip. now rewrite StringFacts.chars_of_chars. Qed.


End EnvFacts.



Module EnvShape.
Import EnvFile EnvFacts.

Lemma lstrip_head_nonspace (l : list ascii) :
  match PyStr.lstrip_chars l with
  | [] => True
  | c :: _ => PyStr.is_space c = false
  end.
Proof.
  induction l as [|c l IH]; cbn [PyStr.lstrip_chars]; [exact I|].
  destruct (PyStr.is_space c) eqn:Hc; [exact IH|exact Hc].
Qed.

Lemma lstrip_suffix (l : list ascii) :
  exists ws, l = (ws ++ PyStr.lstrip_chars l)%list.
Proof.
  induction l as [|c l [ws IH]]; cbn [PyStr.lstrip_chars]; [now exists []|].
  destruct (PyStr.is_space c); [|now exists []].
  exists (c :: ws). cbn [app]. now rewrite <- IH.
Qed.

Lemma rstrip_prefix (l : list ascii) :
  exists ws, l = (PyStr.rstrip_chars l ++ ws)%list.
Proof.
  unfold PyStr.rstrip_chars. destruct (lstrip_suffix (rev l)) as [ws Hws].
  exists (rev ws). rewrite <- rev_app_distr, <- Hws. now rewrite rev_involutive.
Qed.

Lemma strip_trimmed (l : list ascii) :
  trimmed (PyStr.rstrip_chars (PyStr.lstrip_chars l)) = true.
Proof.
  set (L := PyStr.lstrip_chars l).
  pose proof (lstrip_head_nonspace l) as Hhead. fold L in Hhead.
  destruct (rstrip_prefix L) as [ws Hws].
  pose proof (lstrip_head_nonspace (rev L)) as Hlast.
  unfold trimmed. apply andb_true_iff. split.
  - destruct (PyStr.rstrip_chars L) as [|c t]; [reflexivity|].
    rewrite Hws in Hhead. cbn [app] in Hhead. now rewrite Hhead.
  - unfold PyStr.rstrip_chars. rewrite rev_involutive.
    destruct (PyStr.lstrip_chars (rev L)) as [|c t]; [reflexivity|].
    now rewrite Hlast.
Qed.

Lemma strip_In (l : list ascii) (c : ascii) :
  In c (PyStr.rstrip_chars (PyStr.lstrip_chars l)) -> In c l.
Proof.
  intros Hin. destruct (lstrip_suffix l) as [ws Hws].
  destruct (rstrip_prefix (PyStr.lstrip_chars l)) as [ws' Hws'].
  rewrite Hws, Hws'. apply in_or_app. right. apply in_or_app. now left.
Qed.

Lemma partition_no_equals (l : list ascii) :
  no_equals (fst (partition_chars l)) = true.
Proof.
  induction l as [|c l IH]; cbn [partition_chars]; [reflexivity|].
  destruct (is_equals c) eqn:Hc; [reflexivity|].
  destruct (partition_chars l) as [key value]. cbn [fst no_equals forallb] in *.
  now rewrite Hc, IH.
Qed.

End EnvShape.

(** X26.  What a line of an environment file can assign: a line of
    whitespace and a line whose first character after the leading
    whitespace is [#] assign nothing; when a line assigns, the key has no
    [=] and neither the key nor the value has whitespace at its ends. *)
Theorem env_line_shape (line : string) :
  (EnvFile.blank (PyStr.chars line) = true -> EnvFile.assignment line = None)
  /\ (forall p rest,
        EnvFile.blank p = true -> line = PyStr.of_chars (p ++ "#"%char :: rest) ->
        EnvFile.assignment line = None)
  /\ (forall key value,
        EnvFile.assignment line = Some (key, value) ->
        EnvFile.no_equals (PyStr.chars key) = true
        /\ EnvFile.trimmed (PyStr.chars key) = true
        /\ EnvFile.trimmed (PyStr.chars value) = true).
Proof.
  split; [|split].
  - intros Hblank. unfold EnvFile.assignment, PyStr.strip.
    now rewrite (EnvFacts.lstrip_blank _ Hblank).
  - intros p rest Hp ->. unfold EnvFile.assignment.
    rewrite EnvFacts.strip_of_chars, (EnvFacts.lstrip_blank_app _ _ Hp).
    rewrite (EnvFacts.lstrip_head "#"%char rest eq_refl).
    change ("#"%char :: rest) with ([] ++ "#"%char :: rest)%list.
    rewrite (EnvFacts.rstrip_mid [] rest "#"%char eq_refl). cbn [app].
    unfold EnvFile.is_comment. rewrite StringFacts.chars_of_chars.
    cbn [PyStr.code nat_of_ascii Nat.eqb negb]. now rewrite andb_false_r.
  - intros key value. unfold EnvFile.assignment.
    destruct (negb _ && negb _); [|discriminate].
    pose proof (EnvShape.partition_no_equals (PyStr.chars (PyStr.strip line))) as Hno.
    destruct (EnvFile.partition_chars (PyStr.chars (PyStr.strip line))) as [k v].
    cbn [fst] in Hno. intros [= <- <-]. rewrite !EnvFacts.strip_chars.
    split; [|split; apply EnvShape.strip_trimmed].
    unfold EnvFile.no_equals in *. rewrite forallb_forall in *.
    intros c Hc. apply Hno. now apply EnvShape.strip_In.
Qed.
